(** * Feed loading and optimistic mutations of the PostFeed and MainLayout
      components

    A shallow embedding of the two React components that load the post feed
    ([PostFeed], [MainLayout]) together with their like and comment handlers.
    The asynchronous handlers are written in a small monad over the component
    state, the backend and the browser console, with JavaScript's three ways
    of leaving a block (falling through, [return], [throw]) made explicit. *)

From Stdlib Require Import String List ZArith Bool Lia.
From Stdlib Require Import DecimalString.
Import ListNotations.
Local Open Scope string_scope.
Local Open Scope Z_scope.

Set Implicit Arguments.

(* ===================================================================== *)
(** ** JavaScript values *)
(* ===================================================================== *)

(** A string-valued expression that may be [null] / [undefined]. *)
Definition jsstring := option string.

(** The one-character string holding the double quote (code 34). *)
Definition dquote : string :=
  String (Ascii.Ascii false true false false false true false false)
         EmptyString.

(** Truthiness of a possibly absent string: absent and [''] are falsy. *)
Definition truthy (s : jsstring) : bool :=
  match s with
  | Some s' => negb (s' =? "")%string
  | None => false
  end.

(** [a || b] on possibly absent strings. *)
Definition js_or (a b : jsstring) : jsstring :=
  if truthy a then a else b.

(** [s === lit] for a string literal. *)
Definition strict_eq (s : jsstring) (lit : string) : bool :=
  match s with
  | Some s' => (s' =? lit)%string
  | None => false
  end.

(** [n || 0] on a possibly absent number. *)
Definition or_zero (n : option Z) : Z :=
  match n with
  | Some z => if z =? 0 then 0 else z
  | None => 0
  end.

(** [xs?.length] *)
Definition opt_length {A : Type} (xs : option (list A)) : option Z :=
  option_map (fun l => Z.of_nat (List.length l)) xs.

(** What a [catch] clause can receive. *)
Inductive JsThrown :=
| ErrorObject (message : string)
| NonError.

(** [error instanceof Error ? error.message : 'Unknown error'] *)
Definition thrown_message (e : JsThrown) : string :=
  match e with
  | ErrorObject m => m
  | NonError => "Unknown error"
  end.

(* ===================================================================== *)
(** ** Data model *)
(* ===================================================================== *)

Module Profile.
Record t := mk {
  id : string;
  username : jsstring;
  display_name : jsstring;
  full_name : jsstring;
  email : jsstring;
  avatar_url : jsstring
}.
End Profile.

Module Like.
(** A like as the feed carries it: [select('id, user_id')]. *)
Record t := mk {
  id : string;
  user_id : string
}.
End Like.

Module CommentRow.
(** A comment as selected by PostFeed: [id, content, created_at, user_id]. *)
Record t := mk {
  id : string;
  content : string;
  created_at : Z;
  user_id : string
}.
End CommentRow.

Module Comment.
(** [{ ...comment, profiles: commentProfile }] *)
Record t := mk {
  id : string;
  content : string;
  created_at : Z;
  user_id : string;
  profiles : option Profile.t
}.
End Comment.

Module Count.
Record t := mk {
  likes : option Z;
  comments : option Z
}.
End Count.

Module PostRow.
(** A row of the [posts] table, [select('*')]. *)
Record t := mk {
  id : string;
  user_id : string;
  content : string;
  images : option (list string);
  files : option (list string);
  visibility : jsstring;
  community_id : jsstring;
  is_anonymous : option bool;
  created_at : Z;
  updated_at : Z
}.
End PostRow.

Module Post.
(** The object held in the [posts] state and handed to the cards. *)
Record t := mk {
  id : string;
  user_id : string;
  content : string;
  images : option (list string);
  files : option (list string);
  visibility : jsstring;
  community_id : jsstring;
  is_anonymous : option bool;
  created_at : Z;
  updated_at : Z;
  profiles : option Profile.t;
  likes : option (list Like.t);
  comments : option (list Comment.t);
  _count : option Count.t
}.

(** [{ ...post, _count: c }] *)
Definition with_count (p : t) (c : option Count.t) : t :=
  mk (id p) (user_id p) (content p) (images p) (files p) (visibility p)
     (community_id p) (is_anonymous p) (created_at p) (updated_at p)
     (profiles p) (likes p) (comments p) c.
End Post.

(* ===================================================================== *)
(** ** The backend client *)
(* ===================================================================== *)

(** A query filter: [.eq(column, value)], [.is(column, null)]. *)
Inductive Filter :=
| Eq (column : string) (value : string)
| EqBool (column : string) (value : bool)
| IsNull (column : string).

(** The value of a text column of a [posts] row. *)
Definition text_column (r : PostRow.t) (column : string) : jsstring :=
  if (column =? "visibility")%string then PostRow.visibility r
  else if (column =? "community_id")%string then PostRow.community_id r
  else if (column =? "id")%string then Some (PostRow.id r)
  else if (column =? "user_id")%string then Some (PostRow.user_id r)
  else if (column =? "content")%string then Some (PostRow.content r)
  else None.

Definition bool_column (r : PostRow.t) (column : string) : option bool :=
  if (column =? "is_anonymous")%string then PostRow.is_anonymous r else None.

Definition is_none {A : Type} (o : option A) : bool :=
  match o with Some _ => false | None => true end.

Definition is_some {A : Type} (o : option A) : bool := negb (is_none o).

(** Whether a row passes one filter. *)
Definition matches (f : Filter) (r : PostRow.t) : bool :=
  match f with
  | Eq c v => strict_eq (text_column r c) v
  | EqBool c b =>
      match bool_column r c with
      | Some b' => Bool.eqb b' b
      | None => false
      end
  | IsNull c => is_none (text_column r c) && is_none (bool_column r c)
  end.

Definition matches_all (fs : list Filter) (r : PostRow.t) : bool :=
  forallb (fun f => matches f r) fs.

Record PostgrestError := { message : string }.

(** [{ data, error }] as every query resolves. *)
Record Response (A : Type) := {
  data : option A;
  error : option PostgrestError
}.

(** A promise settles: it resolves with a value or rejects. *)
Inductive Await (A : Type) :=
| Resolved (a : A)
| Rejected (e : JsThrown).
Arguments Rejected {A} e.

(** The requests the two components send. *)
Inductive Request :=
| SelectPosts (filters : list Filter)
| SelectProfile (id : string)
| SelectLikes (post_id : string)
| SelectComments (post_id : string)
| SelectPostsJoined (filters : list Filter)
| DeleteLike (table : string) (id : string)
| InsertLike (table : string) (user_id post_id : string)
| InsertComment (table : string) (user_id post_id content : string).

(** The hosted store as the components see it through the client: reads
    answer from the current state, writes may change it. *)
Class Supabase (B : Type) := {
  (** [from('posts').select('*') ... .order('created_at', desc)] *)
  posts_select : B -> list Filter -> Await (Response (list PostRow.t));
  (** [from('profiles').select(...).eq('id', id).single()] *)
  profiles_single : B -> string -> Await (Response Profile.t);
  (** [from('likes').select('id, user_id').eq('post_id', id)] *)
  likes_select : B -> string -> Await (Response (list Like.t));
  (** [from('comments').select(...).eq('post_id', id).order('created_at')] *)
  comments_select : B -> string -> Await (Response (list CommentRow.t));
  (** MainLayout's joined select with profiles, post_likes, post_comments. *)
  posts_select_joined : B -> list Filter -> Await (Response (list Post.t));
  (** [from(table).delete().eq('id', id)] *)
  likes_delete : B -> string -> string -> Await (Response unit) * B;
  (** [from(table).insert([{ user_id, post_id }])] *)
  likes_insert : B -> string -> string -> string -> Await (Response unit) * B;
  (** [from(table).insert([{ user_id, post_id, content }])] *)
  comments_insert :
    B -> string -> string -> string -> string -> Await (Response unit) * B
}.


(* ===================================================================== *)
(** ** Component state and the handler monad *)
(* ===================================================================== *)

Module UI.
(** [useState] cells shared by both components' feed logic. *)
Record t := mk {
  posts : list Post.t;
  loading : bool;
  error : jsstring
}.

(** State on first mount: [useState([])], [useState(true)],
    [useState(null)]. *)
Definition initial : t := mk [] true None.
End UI.

Inductive LogEntry :=
| ConsoleLog (label : string)
| ConsoleError (label : string).

(** Everything a handler can read or change. *)
Record World (B : Type) := {
  ui : UI.t;
  backend : B;
  (** what [hasValidSupabaseConfig()] answers *)
  supabase_configured : bool;
  (** [Date.now()] *)
  clock : Z;
  console : list LogEntry;
  alerts : list string;
  requests : list Request
}.

(** How a block is left. *)
Inductive Completion (A : Type) :=
| Normal (a : A)
| Return
| Throw (e : JsThrown).
Arguments Return {A}.
Arguments Throw {A} e.

Definition Js (B A : Type) := World B -> Completion A * World B.

Section Runtime.
Context {B : Type}.

Definition ret {A : Type} (a : A) : Js B A := fun w => (Normal a, w).

Definition bind {A C : Type} (c : Js B A) (k : A -> Js B C) : Js B C :=
  fun w =>
    match c w with
    | (Normal a, w') => k a w'
    | (Return, w') => (Return, w')
    | (Throw e, w') => (Throw e, w')
    end.

(** [return] inside an async function body. *)
Definition return_ {A : Type} : Js B A := fun w => (Return, w).

(** [try { c } catch (e) { h e }] *)
Definition try_catch {A : Type} (c : Js B A) (h : JsThrown -> Js B A)
  : Js B A :=
  fun w =>
    match c w with
    | (Throw e, w') => h e w'
    | r => r
    end.

(** [try { c } finally { f }]: [f] runs however [c] was left. *)
Definition try_finally {A : Type} (c : Js B A) (f : Js B unit) : Js B A :=
  fun w =>
    match c w with
    | (r, w1) =>
        match f w1 with
        | (Normal _, w2) => (r, w2)
        | (Return, w2) => (Return, w2)
        | (Throw e, w2) => (Throw e, w2)
        end
    end.

(** The body of an [async] function seen from an awaiting caller: [return]
    ends the function normally, an uncaught [throw] rejects its promise. *)
Definition async (body : Js B unit) : Js B unit :=
  fun w =>
    match body w with
    | (Return, w') => (Normal tt, w')
    | r => r
    end.

(** A call of an async function whose promise is dropped: the caller goes
    on and never sees a rejection. There is no scheduler in this model: the
    callee is run here to its end, so the world of a caller that ends with
    such a call is the one reached once the started call has finished, no
    other event coming in between; the caller's own promise settles
    earlier, while the callee is still suspended at its first [await]. *)
Definition detached (call : Js B unit) : Js B unit :=
  fun w => (Normal tt, snd (call w)).

Definition when (b : bool) (c : Js B unit) : Js B unit :=
  if b then c else ret tt.

(** Final world of a handler. *)
Definition exec {A : Type} (c : Js B A) (w : World B) : World B := snd (c w).

(** How the handler was left. *)
Definition outcome {A : Type} (c : Js B A) (w : World B) : Completion A :=
  fst (c w).

Definition set_ui (u : UI.t) (w : World B) : World B :=
  {| ui := u; backend := backend w;
     supabase_configured := supabase_configured w; clock := clock w;
     console := console w; alerts := alerts w; requests := requests w |}.

Definition set_backend (b : B) (w : World B) : World B :=
  {| ui := ui w; backend := b;
     supabase_configured := supabase_configured w; clock := clock w;
     console := console w; alerts := alerts w; requests := requests w |}.

Definition set_clock (t : Z) (w : World B) : World B :=
  {| ui := ui w; backend := backend w;
     supabase_configured := supabase_configured w; clock := t;
     console := console w; alerts := alerts w; requests := requests w |}.

Definition add_console (e : LogEntry) (w : World B) : World B :=
  {| ui := ui w; backend := backend w;
     supabase_configured := supabase_configured w; clock := clock w;
     console := console w ++ [e]; alerts := alerts w;
     requests := requests w |}.

Definition add_alert (s : string) (w : World B) : World B :=
  {| ui := ui w; backend := backend w;
     supabase_configured := supabase_configured w; clock := clock w;
     console := console w; alerts := alerts w ++ [s];
     requests := requests w |}.

Definition add_request (r : Request) (w : World B) : World B :=
  {| ui := ui w; backend := backend w;
     supabase_configured := supabase_configured w; clock := clock w;
     console := console w; alerts := alerts w;
     requests := requests w ++ [r] |}.

Definition setPosts (ps : list Post.t) : Js B unit :=
  fun w =>
    (Normal tt,
     set_ui (UI.mk ps (UI.loading (ui w)) (UI.error (ui w))) w).

(** [setPosts(prevPosts => f prevPosts)] *)
Definition updatePosts (f : list Post.t -> list Post.t) : Js B unit :=
  fun w =>
    (Normal tt,
     set_ui (UI.mk (f (UI.posts (ui w))) (UI.loading (ui w))
                   (UI.error (ui w))) w).

Definition setLoading (b : bool) : Js B unit :=
  fun w =>
    (Normal tt, set_ui (UI.mk (UI.posts (ui w)) b (UI.error (ui w))) w).

Definition setError (e : jsstring) : Js B unit :=
  fun w =>
    (Normal tt, set_ui (UI.mk (UI.posts (ui w)) (UI.loading (ui w)) e) w).

(** The [posts] value the handler closed over. *)
Definition readPosts : Js B (list Post.t) :=
  fun w => (Normal (UI.posts (ui w)), w).

(** Modelled from the spec: [hasValidSupabaseConfig()] of [lib/supabase],
    which is not among the sources; section 6 describes it as the
    configuration check that selects between the real backend and local
    demo data. Its answer is a fixed fact of the running page. *)
Definition hasValidSupabaseConfig : Js B bool :=
  fun w => (Normal (supabase_configured w), w).

Definition Date_now : Js B Z := fun w => (Normal (clock w), w).

Definition console_log (label : string) : Js B unit :=
  fun w => (Normal tt, add_console (ConsoleLog label) w).

Definition console_error (label : string) : Js B unit :=
  fun w => (Normal tt, add_console (ConsoleError label) w).

Definition alert (s : string) : Js B unit :=
  fun w => (Normal tt, add_alert s w).

(** [await] on a read: the request is sent and the answer comes from the
    backend's current state; a rejected promise throws. *)
Definition await_read {A : Type} (r : Request) (q : B -> Await A) : Js B A :=
  fun w =>
    let w' := add_request r w in
    match q (backend w) with
    | Resolved a => (Normal a, w')
    | Rejected e => (Throw e, w')
    end.

(** [await] on a write. *)
Definition await_write {A : Type} (r : Request) (q : B -> Await A * B)
  : Js B A :=
  fun w =>
    let w' := set_backend (snd (q (backend w))) (add_request r w) in
    match fst (q (backend w)) with
    | Resolved a => (Normal a, w')
    | Rejected e => (Throw e, w')
    end.

End Runtime.

Declare Scope js_scope.
Delimit Scope js_scope with js.
Notation "x <- c ;; k" := (bind c (fun x => k))
  (at level 61, c at next level, right associativity) : js_scope.
Notation "c ;; k" := (bind c (fun _ => k))
  (at level 61, right associativity) : js_scope.
Local Open Scope js_scope.

(** [for (const x of xs) { ys.push(body x) }] *)
Fixpoint for_of {B A C : Type} (xs : list A) (body : A -> Js B C)
  : Js B (list C) :=
  match xs with
  | [] => ret []
  | x :: xs' =>
      y <- body x ;;
      ys <- for_of xs' body ;;
      ret (y :: ys)
  end.

(** [post.likes?.some(l => l.user_id === userId)], [undefined] being
    falsy. *)
Definition isLikedBy (userId : string) (post : Post.t) : bool :=
  match Post.likes post with
  | Some ls => existsb (fun l => (Like.user_id l =? userId)%string) ls
  | None => false
  end.

(** The demo-mode update of one post inside [prevPosts.map(...)]; the same
    arrow function appears in both components. *)
Definition toggleLocal (userId postId : string) (post : Post.t) : Post.t :=
  if (Post.id post =? postId)%string then
    let isLiked := isLikedBy userId post in
    let current :=
      or_zero (match Post._count post with
               | Some c => Count.likes c
               | None => None
               end) in
    let newLikesCount := if isLiked then current - 1 else current + 1 in
    Post.with_count post
      (Some (Count.mk (Some newLikesCount)
                      (match Post._count post with
                       | Some c => Count.comments c
                       | None => None
                       end)))
  else post.

(** [posts.find(p => p.id === postId)?.likes?.find(l => l.user_id === u)] *)
Definition existingLike (posts : list Post.t) (postId userId : string)
  : option Like.t :=
  match find (fun p => (Post.id p =? postId)%string) posts with
  | Some p =>
      match Post.likes p with
      | Some ls => find (fun l => (Like.user_id l =? userId)%string) ls
      | None => None
      end
  | None => None
  end.

(* ===================================================================== *)
(** ** PostFeed *)
(* ===================================================================== *)

Module PostFeed.

Section Component.
Context {B : Type} `{Supabase B}.

(** [Date.now()] when the module was evaluated; the demo constants are
    built once from it. *)
Variable moduleTime : Z.

Definition demoPostsData : list Post.t :=
  [ Post.mk "1" "demo-user-123"
      "Welcome to our social platform! 🎉 This is a demo post to show how the feed works. Feel free to interact with it!"
      (Some ["https://images.pexels.com/photos/1591056/pexels-photo-1591056.jpeg?auto=compress&cs=tinysrgb&w=800"])
      (Some [])
      (Some "public") None None
      (moduleTime - 1000 * 60 * 30) (moduleTime - 1000 * 60 * 30)
      (Some (Profile.mk "demo-user-123" (Some "demouser") None
                        (Some "Demo User") (Some "demo@example.com") None))
      (Some []) (Some [])
      (Some (Count.mk (Some 5) (Some 2))) ].

Definition demoAnonymousPostsData : list Post.t :=
  [ Post.mk "2" "demo-user-456"
      "This is an anonymous post. You can share your thoughts freely without revealing your identity. Perfect for sensitive topics or when you want complete privacy."
      None None
      (Some "anonymous") None None
      (moduleTime - 1000 * 60 * 45) (moduleTime - 1000 * 60 * 45)
      None
      (Some []) (Some [])
      (Some (Count.mk (Some 3) (Some 1))) ].

(** [section === 'public' || !section] *)
Definition isPublicSection (section : jsstring) : bool :=
  strict_eq section "public" || negb (truthy section).

(** The filters [loadPosts] puts on [from('posts').select('*')] before
    ordering by [created_at] descending. *)
Definition partitionFilters (section : jsstring) : list Filter :=
  if isPublicSection section then
    [Eq "visibility" "public"; IsNull "community_id"]
  else if strict_eq section "anonymous" then
    [Eq "visibility" "anonymous"; IsNull "community_id"]
  else
    [Eq "community_id" (match section with Some s => s | None => "" end)].

(** One comment of the inner loop. *)
Definition withCommentProfile (section : jsstring) (comment : CommentRow.t)
  : Js B Comment.t :=
  commentProfile <-
    (if negb (strict_eq section "anonymous") then
       r <- await_read (SelectProfile (CommentRow.user_id comment))
              (fun b => profiles_single b (CommentRow.user_id comment)) ;;
       ret (data r)
     else ret None) ;;
  ret (Comment.mk (CommentRow.id comment) (CommentRow.content comment)
                  (CommentRow.created_at comment)
                  (CommentRow.user_id comment) commentProfile).

(** The body of [for (const post of simplePosts)]. *)
Definition withProfile (section : jsstring) (post : PostRow.t)
  : Js B Post.t :=
  console_log "Processing post:" ;;
  profile <-
    (if negb (strict_eq section "anonymous") then
       r <- await_read (SelectProfile (PostRow.user_id post))
              (fun b => profiles_single b (PostRow.user_id post)) ;;
       console_log "Profile data for post" ;;
       when (is_some (error r)) (console_log "Profile error for post") ;;
       ret (data r)
     else ret None) ;;
  rl <- await_read (SelectLikes (PostRow.id post))
          (fun b => likes_select b (PostRow.id post)) ;;
  console_log "Likes for post" ;;
  when (is_some (error rl)) (console_log "Likes error for post") ;;
  rc <- await_read (SelectComments (PostRow.id post))
          (fun b => comments_select b (PostRow.id post)) ;;
  console_log "Comments for post" ;;
  when (is_some (error rc)) (console_log "Comments error for post") ;;
  commentsWithProfiles <-
    (match data rc with
     | Some comments => for_of comments (withCommentProfile section)
     | None => ret []
     end) ;;
  ret (Post.mk (PostRow.id post) (PostRow.user_id post)
         (PostRow.content post) (PostRow.images post) (PostRow.files post)
         (js_or (PostRow.visibility post) (js_or section (Some "public")))
         (PostRow.community_id post) (PostRow.is_anonymous post)
         (PostRow.created_at post) (PostRow.updated_at post)
         profile
         (Some (match data rl with Some ls => ls | None => [] end))
         (Some commentsWithProfiles)
         (Some (Count.mk
                  (Some (or_zero (opt_length (data rl))))
                  (Some (or_zero
                           (opt_length (Some commentsWithProfiles))))))).

Definition loadPosts (section : jsstring) : Js B unit :=
  async
    (try_finally
       (try_catch
          (setLoading true ;;
           setError None ;;
           configured <- hasValidSupabaseConfig ;;
           when (negb configured)
             (console_log "Using demo data - Supabase not configured" ;;
              (if isPublicSection section then setPosts demoPostsData
               else if strict_eq section "anonymous"
                    then setPosts demoAnonymousPostsData
                    else setPosts []) ;;
              setLoading false ;;
              return_) ;;
           console_log "Loading posts for section:" ;;
           console_log
             (if isPublicSection section then "Loading public posts..."
              else if strict_eq section "anonymous"
                   then "Loading anonymous posts..."
                   else "Loading posts for section:") ;;
           r <- await_read (SelectPosts (partitionFilters section))
                  (fun b => posts_select b (partitionFilters section)) ;;
           console_log "Posts query result:" ;;
           console_log "Posts error:" ;;
           match error r with
           | Some postsError =>
               console_error "Posts query error:" ;;
               setError
                 (Some ("Database error: " ++ message postsError)%string) ;;
               setLoading false ;;
               return_
           | None =>
               match data r with
               | None | Some [] =>
                   console_log "No posts found for section:" ;;
                   setPosts [] ;;
                   setLoading false ;;
                   return_
               | Some simplePosts =>
                   console_log "Processing posts with additional data..." ;;
                   postsWithProfiles <-
                     for_of simplePosts (withProfile section) ;;
                   console_log "Final posts with profiles:" ;;
                   setPosts postsWithProfiles
               end
           end)
          (fun e =>
             console_error "Error loading posts:" ;;
             setError
               (Some ("Failed to load posts: " ++ thrown_message e)%string)))
       (setLoading false)).

Definition handleLike (currentUser : Profile.t) (section : jsstring)
    (postId : string) : Js B unit :=
  async
    (configured <- hasValidSupabaseConfig ;;
     when (negb configured)
       (updatePosts (map (toggleLocal (Profile.id currentUser) postId)) ;;
        return_) ;;
     try_catch
       (posts <- readPosts ;;
        match existingLike posts postId (Profile.id currentUser) with
        | Some l =>
            _ <- await_write (DeleteLike "likes" (Like.id l))
                   (fun b => likes_delete b "likes" (Like.id l)) ;;
            ret tt
        | None =>
            _ <- await_write
                   (InsertLike "likes" (Profile.id currentUser) postId)
                   (fun b =>
                      likes_insert b "likes" (Profile.id currentUser)
                        postId) ;;
            ret tt
        end ;;
        detached (loadPosts section))
       (fun e => console_error "Error toggling like:")).

Definition handleComment (currentUser : Profile.t) (section : jsstring)
    (postId content : string) : Js B unit :=
  async
    (configured <- hasValidSupabaseConfig ;;
     when (negb configured)
       (alert "Comment added! (Demo mode)" ;;
        return_) ;;
     try_catch
       (_ <- await_write
               (InsertComment "comments" (Profile.id currentUser) postId
                  content)
               (fun b =>
                  comments_insert b "comments" (Profile.id currentUser)
                    postId content) ;;
        detached (loadPosts section))
       (fun e => console_error "Error adding comment:")).

End Component.
End PostFeed.

(* ===================================================================== *)
(** ** MainLayout *)
(* ===================================================================== *)

Module MainLayout.

Section Component.
Context {B : Type} `{Supabase B}.

(** The [profile] prop: the signed-in user. *)
Variable profile : Profile.t.

(** The demo posts built inside [loadPosts] on every call. *)
Definition demoPosts (currentSection : jsstring) (now : Z) : list Post.t :=
  let anonymous := strict_eq currentSection "anonymous" in
  [ Post.mk "1" (Profile.id profile)
      "Welcome to TepiTingkap! This is a demo post to show how the platform works. You can share your thoughts, images, and connect with others in the community."
      (Some ["https://images.pexels.com/photos/1591056/pexels-photo-1591056.jpeg?auto=compress&cs=tinysrgb&w=800"])
      None None None (Some anonymous)
      (now - 1000 * 60 * 30) (now - 1000 * 60 * 30)
      (Some profile)
      (Some []) (Some [])
      (Some (Count.mk (Some 5) (Some 2)));
    Post.mk "2" "demo-user-2"
      "Beautiful sunset today! 🌅 Sometimes we need to pause and appreciate the simple moments in life."
      (Some ["https://images.pexels.com/photos/1181677/pexels-photo-1181677.jpeg?auto=compress&cs=tinysrgb&w=800"])
      None None None (Some anonymous)
      (now - 1000 * 60 * 60 * 2) (now - 1000 * 60 * 60 * 2)
      (Some (Profile.mk "demo-user-2" None
               (if anonymous then None else Some "naturelover")
               (if anonymous then None else Some "Nature Lover")
               (Some "nature@example.com") None))
      (Some []) (Some [])
      (Some (Count.mk (Some 12) (Some 4)));
    Post.mk "3" "demo-user-3"
      (if anonymous
       then "Sharing this anonymously - sometimes it's easier to express thoughts without revealing identity. What do you think about anonymous social sharing?"
       else ("Just finished reading an amazing book! 📚 " ++ dquote
             ++ "The Power of Now" ++ dquote
             ++ " really changed my perspective on mindfulness and living in the present moment.")%string)
      (if anonymous then Some []
       else Some ["https://images.pexels.com/photos/1261728/pexels-photo-1261728.jpeg?auto=compress&cs=tinysrgb&w=800"])
      None None None (Some anonymous)
      (now - 1000 * 60 * 60 * 4) (now - 1000 * 60 * 60 * 4)
      (Some (Profile.mk "demo-user-3" None
               (if anonymous then None else Some "booklover")
               (if anonymous then None else Some "Book Reader")
               (Some "books@example.com") None))
      (Some []) (Some [])
      (Some (Count.mk (Some 8) (Some 6))) ].

(** [.eq('is_anonymous', currentSection === 'anonymous')] *)
Definition sectionFilters (currentSection : jsstring) : list Filter :=
  [EqBool "is_anonymous" (strict_eq currentSection "anonymous")].

(** [{ ...post, _count: { likes: post.likes?.length || 0,
                          comments: post.comments?.length || 0 } }] *)
Definition withCounts (post : Post.t) : Post.t :=
  Post.with_count post
    (Some (Count.mk (Some (or_zero (opt_length (Post.likes post))))
                    (Some (or_zero (opt_length (Post.comments post)))))).

Definition loadPosts (currentSection : jsstring) : Js B unit :=
  async
    (try_finally
       (try_catch
          (setLoading true ;;
           setError None ;;
           configured <- hasValidSupabaseConfig ;;
           when (negb configured)
             (now <- Date_now ;;
              setPosts (demoPosts currentSection now) ;;
              setLoading false ;;
              return_) ;;
           r <- await_read (SelectPostsJoined (sectionFilters currentSection))
                  (fun b =>
                     posts_select_joined b (sectionFilters currentSection)) ;;
           match error r with
           | Some err =>
               console_error "Error loading posts:" ;;
               setError (Some ("Failed to load posts: " ++ message err)%string)
           | None =>
               let postsWithCounts :=
                 map withCounts
                     (match data r with Some ps => ps | None => [] end) in
               setPosts postsWithCounts
           end)
          (fun e =>
             console_error "Error in loadPosts:" ;;
             setError
               (Some ("Failed to load posts: " ++ thrown_message e)%string)))
       (setLoading false)).

Definition handleLike (currentSection : jsstring) (postId : string)
  : Js B unit :=
  async
    (configured <- hasValidSupabaseConfig ;;
     when (negb configured)
       (updatePosts (map (toggleLocal (Profile.id profile) postId)) ;;
        return_) ;;
     try_catch
       (posts <- readPosts ;;
        match existingLike posts postId (Profile.id profile) with
        | Some l =>
            _ <- await_write (DeleteLike "post_likes" (Like.id l))
                   (fun b => likes_delete b "post_likes" (Like.id l)) ;;
            ret tt
        | None =>
            _ <- await_write
                   (InsertLike "post_likes" (Profile.id profile) postId)
                   (fun b =>
                      likes_insert b "post_likes" (Profile.id profile)
                        postId) ;;
            ret tt
        end ;;
        detached (loadPosts currentSection))
       (fun e => console_error "Error toggling like:")).

Definition handleComment (currentSection : jsstring)
    (postId content : string) : Js B unit :=
  async
    (configured <- hasValidSupabaseConfig ;;
     when (negb configured)
       (alert "Comment added! (Demo mode)" ;;
        return_) ;;
     try_catch
       (_ <- await_write
               (InsertComment "post_comments" (Profile.id profile) postId
                  content)
               (fun b =>
                  comments_insert b "post_comments" (Profile.id profile)
                    postId content) ;;
        detached (loadPosts currentSection))
       (fun e => console_error "Error adding comment:")).

End Component.
End MainLayout.

(* ===================================================================== *)
(** ** An in-memory backend *)
(* ===================================================================== *)

(** A relational store answering the requests above from four tables, as
    section 6 of the specification describes the consumed capability:
    equality filters, ordering by creation time, insert and delete of single
    rows. An outage makes every request fail in one of the two ways a
    request can fail. *)
Module MemStore.

Record LikeRec := {
  like_table : string;
  like_id : string;
  like_user_id : string;
  like_post_id : string
}.

Record CommentRec := {
  comment_table : string;
  comment_id : string;
  comment_content : string;
  comment_created_at : Z;
  comment_user_id : string;
  comment_post_id : string
}.

Inductive Outage :=
| ErrorResponse (msg : string)
| ConnectionLost (e : JsThrown).

Record t := mk {
  posts : list PostRow.t;
  profiles : list Profile.t;
  likes : list LikeRec;
  comments : list CommentRec;
  next_id : nat;
  outage : option Outage
}.

(** Stable insertion into a list kept in the order [before]. *)
Fixpoint insert_by {A : Type} (before : A -> A -> bool) (x : A)
    (l : list A) : list A :=
  match l with
  | [] => [x]
  | y :: l' => if before y x then y :: insert_by before x l' else x :: l
  end.

Definition sort_by {A : Type} (before : A -> A -> bool) (l : list A)
  : list A :=
  fold_right (insert_by before) [] l.

Definition answer {A : Type} (s : t) (a : A) : Await (Response A) :=
  match outage s with
  | None => Resolved {| data := Some a; error := None |}
  | Some (ErrorResponse m) =>
      Resolved {| data := None; error := Some {| message := m |} |}
  | Some (ConnectionLost e) => Rejected e
  end.

(** [.single()]: anything but exactly one row is an error response. *)
Definition answer_single {A : Type} (s : t) (row : option A)
  : Await (Response A) :=
  match outage s, row with
  | Some (ConnectionLost e), _ => Rejected e
  | Some (ErrorResponse m), _ =>
      Resolved {| data := None; error := Some {| message := m |} |}
  | None, Some a => Resolved {| data := Some a; error := None |}
  | None, None =>
      Resolved {| data := None;
                  error := Some {| message := "no single row" |} |}
  end.

Definition select_posts (s : t) (fs : list Filter) : list PostRow.t :=
  sort_by (fun a b => PostRow.created_at b <=? PostRow.created_at a)
          (filter (matches_all fs) (posts s)).

Definition find_profile (s : t) (id : string) : option Profile.t :=
  match filter (fun p => (Profile.id p =? id)%string) (profiles s) with
  | [p] => Some p
  | _ => None
  end.

Definition likes_of (s : t) (table post_id : string) : list Like.t :=
  map (fun l => Like.mk (like_id l) (like_user_id l))
      (filter (fun l => (like_table l =? table)%string
                        && (like_post_id l =? post_id)%string)
              (likes s)).

Definition comments_of (s : t) (table post_id : string)
  : list CommentRec :=
  sort_by (fun a b => comment_created_at a <=? comment_created_at b)
          (filter (fun c => (comment_table c =? table)%string
                            && (comment_post_id c =? post_id)%string)
                  (comments s)).

Definition joined (s : t) (r : PostRow.t) : Post.t :=
  Post.mk (PostRow.id r) (PostRow.user_id r) (PostRow.content r)
    (PostRow.images r) (PostRow.files r) (PostRow.visibility r)
    (PostRow.community_id r) (PostRow.is_anonymous r)
    (PostRow.created_at r) (PostRow.updated_at r)
    (find_profile s (PostRow.user_id r))
    (Some (likes_of s "post_likes" (PostRow.id r)))
    (Some (map (fun c =>
                  Comment.mk (comment_id c) (comment_content c)
                    (comment_created_at c) (comment_user_id c)
                    (find_profile s (comment_user_id c)))
               (comments_of s "post_comments" (PostRow.id r))))
    None.

Definition fresh_id (s : t) : string :=
  NilZero.string_of_uint (Nat.to_uint (next_id s)).

Definition write (s s' : t) : Await (Response unit) * t :=
  match outage s with
  | None => (answer s tt, s')
  | Some _ => (answer s tt, s)
  end.

#[global] Instance supabase : Supabase t := {
  posts_select s fs := answer s (select_posts s fs);
  profiles_single s id := answer_single s (find_profile s id);
  likes_select s post_id := answer s (likes_of s "likes" post_id);
  comments_select s post_id :=
    answer s
      (map (fun c =>
              CommentRow.mk (comment_id c) (comment_content c)
                (comment_created_at c) (comment_user_id c))
           (comments_of s "comments" post_id));
  posts_select_joined s fs :=
    answer s (map (joined s) (select_posts s fs));
  likes_delete s table id :=
    write s
      (mk (posts s) (profiles s)
          (filter (fun l => negb ((like_table l =? table)%string
                                  && (like_id l =? id)%string))
                  (likes s))
          (comments s) (next_id s) (outage s));
  likes_insert s table user_id post_id :=
    write s
      (mk (posts s) (profiles s)
          (likes s ++ [ {| like_table := table; like_id := fresh_id s;
                           like_user_id := user_id;
                           like_post_id := post_id |} ])
          (comments s) (S (next_id s)) (outage s));
  comments_insert s table user_id post_id content :=
    write s
      (mk (posts s) (profiles s) (likes s)
          (comments s ++ [ {| comment_table := table;
                              comment_id := fresh_id s;
                              comment_content := content;
                              comment_created_at := Z.of_nat (next_id s);
                              comment_user_id := user_id;
                              comment_post_id := post_id |} ])
          (S (next_id s)) (outage s))
}.

(** A world over the store: the component right after mounting. *)
Definition mounted (s : t) (configured : bool) (now : Z) : World t :=
  {| ui := UI.initial; backend := s; supabase_configured := configured;
     clock := now; console := []; alerts := []; requests := [] |}.

End MemStore.

(* ===================================================================== *)
(** ** What the feed components render *)
(* ===================================================================== *)

(** The alternatives of PostFeed's returned tree. *)
Module PostFeedView.

Inductive Form :=
| PostForm
| AnonymousPostForm.

Inductive Card :=
| PostCard (post : Post.t)
| AnonymousPostCard (post : Post.t).

Inductive Feed :=
| NoPostsYet (heading : string)
| Cards (cards : list Card).

Inductive t :=
| Skeleton
| ErrorLoadingPosts (message : string)
| Page (form : option Form) (feed : Feed).

(** The three [return]s of [PostFeed], lines 292-391. *)
Definition render (section : jsstring) (u : UI.t) : t :=
  if UI.loading u then Skeleton
  else if truthy (UI.error u) then
    ErrorLoadingPosts (match UI.error u with Some m => m | None => "" end)
  else
    Page
      (if PostFeed.isPublicSection section then Some PostForm
       else if strict_eq section "anonymous" then Some AnonymousPostForm
       else None)
      (if (List.length (UI.posts u) =? 0)%nat then
         NoPostsYet (if strict_eq section "anonymous"
                     then "No anonymous posts yet"
                     else "No public posts yet")
       else
         Cards (map (fun post =>
                       if strict_eq section "anonymous"
                       then AnonymousPostCard post
                       else PostCard post)
                    (UI.posts u))).

End PostFeedView.

(** The rest of MainLayout: its other state cells, the handlers that use
    them, and the tree it returns. *)
Module MainLayoutView.

(** [currentView] *)
Inductive View :=
| home
| profile
| communities
| community
| fullscreen_communities.

(** The [useState] cells of MainLayout besides posts, loading and error. *)
Record Shell := {
  showCreatePost : bool;
  showCreateCommunity : bool;
  showMarketplace : bool;
  showMessages : bool;
  currentView : View;
  currentSection : jsstring
}.

(** State on first mount. *)
Definition initial : Shell :=
  {| showCreatePost := false; showCreateCommunity := false;
     showMarketplace := false; showMessages := false;
     currentView := home; currentSection := Some "public" |}.

Definition setShowCreatePost (b : bool) (s : Shell) : Shell :=
  {| showCreatePost := b; showCreateCommunity := showCreateCommunity s;
     showMarketplace := showMarketplace s; showMessages := showMessages s;
     currentView := currentView s; currentSection := currentSection s |}.

Definition setShowCreateCommunity (b : bool) (s : Shell) : Shell :=
  {| showCreatePost := showCreatePost s; showCreateCommunity := b;
     showMarketplace := showMarketplace s; showMessages := showMessages s;
     currentView := currentView s; currentSection := currentSection s |}.

Definition setShowMarketplace (b : bool) (s : Shell) : Shell :=
  {| showCreatePost := showCreatePost s;
     showCreateCommunity := showCreateCommunity s;
     showMarketplace := b; showMessages := showMessages s;
     currentView := currentView s; currentSection := currentSection s |}.

Definition setShowMessages (b : bool) (s : Shell) : Shell :=
  {| showCreatePost := showCreatePost s;
     showCreateCommunity := showCreateCommunity s;
     showMarketplace := showMarketplace s; showMessages := b;
     currentView := currentView s; currentSection := currentSection s |}.

Definition setCurrentView (v : View) (s : Shell) : Shell :=
  {| showCreatePost := showCreatePost s;
     showCreateCommunity := showCreateCommunity s;
     showMarketplace := showMarketplace s; showMessages := showMessages s;
     currentView := v; currentSection := currentSection s |}.

Section Handlers.
Context {B : Type} `{Supabase B}.

(** The [profile] prop. *)
Variable user : Profile.t.

(** [handlePostCreated]: close the popup, then [loadPosts()] (not
    awaited). *)
Definition handlePostCreated (s : Shell) (w : World B) : Shell * World B :=
  (setShowCreatePost false s,
   exec (detached (MainLayout.loadPosts user (currentSection s))) w).

(** [handleCommunityPostCreated]: close the popup, nothing else. *)
Definition handleCommunityPostCreated (s : Shell) (w : World B)
  : Shell * World B :=
  (setShowCreateCommunity false s, w).

(** [handleShowMessages] *)
Definition handleShowMessages (s : Shell) (w : World B) : Shell * World B :=
  (setShowMessages true s,
   exec (console_log "MAIN LAYOUT: handleShowMessages called") w).

(** [handleMessagesButtonClick(source)]: the state update is
    [setShowMessages(prev => true)]; the last console entry is written by
    the timer callback 100 ms later. *)
Definition handleMessagesButtonClick (source : string) (s : Shell)
    (w : World B) : Shell * World B :=
  (setShowMessages true s,
   exec (console_log "MESSAGES BUTTON CLICKED:" ;;
         console_log "MESSAGES STATE UPDATE:" ;;
         console_log "MESSAGES STATE VERIFICATION:") w).

End Handlers.

Inductive Popup :=
| CreatePostPopup (isAnonymous : bool)
| CreateCommunityPostPopup
| MarketplacePopup
| MessagesPopup.

Inductive Feed :=
| Skeleton
| ErrorBox (message : string)
| NoPostsYet
| Cards (posts : list Post.t).

Inductive Body :=
| ProfileView
| FullScreenCommunitiesView
| HomeLayout (feed : Feed).

Record Screen := {
  body : Body;
  popups : list Popup
}.

(** [loading ? ... : error ? ... : posts.length === 0 ? ... : ...],
    lines 507-560. *)
Definition renderFeed (u : UI.t) : Feed :=
  if UI.loading u then Skeleton
  else if truthy (UI.error u) then
    ErrorBox (match UI.error u with Some m => m | None => "" end)
  else if (List.length (UI.posts u) =? 0)%nat then NoPostsYet
  else Cards (UI.posts u).

Definition shown (b : bool) (p : Popup) : list Popup :=
  if b then [p] else [].

(** The three [return]s of [MainLayout], lines 274-628. *)
Definition render (s : Shell) (u : UI.t) : Screen :=
  match currentView s with
  | profile =>
      {| body := ProfileView; popups := shown (showMessages s) MessagesPopup |}
  | fullscreen_communities =>
      {| body := FullScreenCommunitiesView;
         popups := shown (showMessages s) MessagesPopup |}
  | _ =>
      {| body := HomeLayout (renderFeed u);
         popups :=
           (shown (showCreatePost s)
              (CreatePostPopup (strict_eq (currentSection s) "anonymous"))
            ++ shown (showCreateCommunity s) CreateCommunityPostPopup
            ++ shown (showMarketplace s) MarketplacePopup
            ++ shown (showMessages s) MessagesPopup)%list |}
  end.

End MainLayoutView.

(* ===================================================================== *)
(** ** Marketplace *)
(* ===================================================================== *)

(** [s.startsWith(t)] *)
Fixpoint startsWith (s t : string) {struct t} : bool :=
  match t with
  | EmptyString => true
  | String c t' =>
      match s with
      | EmptyString => false
      | String d s' => Ascii.eqb d c && startsWith s' t'
      end
  end.

(** [s.includes(t)]: [t] occurs somewhere in [s]. *)
Fixpoint includes (s t : string) : bool :=
  startsWith s t
  || match s with
     | EmptyString => false
     | String _ s' => includes s' t
     end.

Module Marketplace.

(** The fields of [MarketplaceItem] the component reads. *)
Record Item := {
  id : string;
  title : string;
  description : string;
  category : string;
  condition : string;
  price : Z;
  images : option (list string);
  created_at : Z;
  profiles : option Profile.t
}.

Inductive ViewMode :=
| grid
| list_mode.

Record State := {
  items : list Item;
  loading : bool;
  searchTerm : string;
  selectedCategory : string;
  viewMode : ViewMode;
  showCreateModal : bool;
  selectedItem : option Item
}.

(** State on first mount. *)
Definition initial : State :=
  {| items := []; loading := true; searchTerm := ""; selectedCategory := "all";
     viewMode := grid; showCreateModal := false; selectedItem := None |}.

Definition setItems (xs : list Item) (st : State) : State :=
  {| items := xs; loading := loading st; searchTerm := searchTerm st;
     selectedCategory := selectedCategory st; viewMode := viewMode st;
     showCreateModal := showCreateModal st;
     selectedItem := selectedItem st |}.

Definition setLoading (b : bool) (st : State) : State :=
  {| items := items st; loading := b; searchTerm := searchTerm st;
     selectedCategory := selectedCategory st; viewMode := viewMode st;
     showCreateModal := showCreateModal st;
     selectedItem := selectedItem st |}.

Definition setSearchTerm (t : string) (st : State) : State :=
  {| items := items st; loading := loading st; searchTerm := t;
     selectedCategory := selectedCategory st; viewMode := viewMode st;
     showCreateModal := showCreateModal st;
     selectedItem := selectedItem st |}.

Definition setSelectedCategory (c : string) (st : State) : State :=
  {| items := items st; loading := loading st; searchTerm := searchTerm st;
     selectedCategory := c; viewMode := viewMode st;
     showCreateModal := showCreateModal st;
     selectedItem := selectedItem st |}.

Definition setShowCreateModal (b : bool) (st : State) : State :=
  {| items := items st; loading := loading st; searchTerm := searchTerm st;
     selectedCategory := selectedCategory st; viewMode := viewMode st;
     showCreateModal := b; selectedItem := selectedItem st |}.

(** [loadItems]: no [try] around the [await]. The argument is how the
    promise of [getMarketplaceItems()] (of [lib/supabase]) settles. *)
Definition loadItems (fetched : Await (list Item)) (st : State)
  : Completion unit * State :=
  let st1 := setLoading true st in
  match fetched with
  | Resolved data => (Normal tt, setLoading false (setItems data st1))
  | Rejected e => (Throw e, st1)
  end.

(** [onItemCreated]: [setItems(prev => [newItem, ...prev])], then close the
    modal. *)
Definition onItemCreated (newItem : Item) (st : State) : State :=
  setShowCreateModal false (setItems (newItem :: items st) st).

Section Filtering.

(** [String.prototype.toLowerCase] *)
Variable toLowerCase : string -> string.

(** The predicate inside [items.filter(...)]. *)
Definition matchesFilter (st : State) (item : Item) : bool :=
  let matchesSearch :=
    includes (toLowerCase (title item)) (toLowerCase (searchTerm st))
    || includes (toLowerCase (description item))
                (toLowerCase (searchTerm st)) in
  let matchesCategory :=
    (selectedCategory st =? "all")%string
    || (category item =? selectedCategory st)%string in
  matchesSearch && matchesCategory.

Definition filteredItems (st : State) : list Item :=
  filter (matchesFilter st) (items st).

Inductive Listing :=
| NoItemsFound (hint : string) (listFirstItemButton : bool)
| Items (mode : ViewMode) (shown : list Item).

Inductive Page :=
| Skeleton
| Market (listing : Listing) (createModal : bool)
         (detailModal : option Item).

(** The two [return]s of [Marketplace], lines 57-285. *)
Definition render (st : State) : Page :=
  if loading st then Skeleton
  else
    Market
      (if (List.length (filteredItems st) =? 0)%nat then
         NoItemsFound
           (if negb (searchTerm st =? "")%string
               || negb (selectedCategory st =? "all")%string
            then "Try adjusting your search or filters"
            else "Be the first to list an item for sale!")
           ((searchTerm st =? "")%string
            && (selectedCategory st =? "all")%string)
       else Items (viewMode st) (filteredItems st))
      (showCreateModal st) (selectedItem st).

End Filtering.

(** [item.profiles?.display_name || item.profiles?.full_name
     || 'Anonymous'] *)
Definition sellerName (item : Item) : jsstring :=
  js_or (match profiles item with
         | Some p => Profile.display_name p
         | None => None
         end)
        (js_or (match profiles item with
                | Some p => Profile.full_name p
                | None => None
                end)
               (Some "Anonymous")).

End Marketplace.

(* ===================================================================== *)
(** ** Vocabulary of the properties *)
(* ===================================================================== *)

(** A list field read by the cards: an absent list shows as empty. *)
Definition resolved {A : Type} (xs : option (list A)) : list A :=
  match xs with
  | Some l => l
  | None => []
  end.

(** [_count.likes] and [_count.comments] are the lengths of the post's own
    like and comment lists. *)
Definition countsMatch (p : Post.t) : bool :=
  match Post._count p with
  | Some c =>
      match Count.likes c, Count.comments c with
      | Some l, Some m =>
          (l =? Z.of_nat (List.length (resolved (Post.likes p))))
          && (m =? Z.of_nat (List.length (resolved (Post.comments p))))
      | _, _ => false
      end
  | None => false
  end.

(** The post carries no author profile, and neither does any comment. *)
Definition authorHidden (p : Post.t) : bool :=
  is_none (Post.profiles p)
  && forallb (fun c => is_none (Comment.profiles c))
             (resolved (Post.comments p)).

(** Identity, position and counts of every item of a feed. *)
Definition feedSummary (ps : list Post.t)
  : list (string * option Count.t) :=
  map (fun p => (Post.id p, Post._count p)) ps.

(** The fetch came back with an error object, or its promise rejected. *)
Definition fetchFailed {A : Type} (a : Await (Response A)) : bool :=
  match a with
  | Resolved r => is_some (error r)
  | Rejected _ => true
  end.

Definition rejected {A : Type} (a : Await A) : bool :=
  match a with
  | Resolved _ => false
  | Rejected _ => true
  end.

(** The write [handleLike] sends in backend mode, given the [posts] it
    closed over. *)
Definition likeMutation {B : Type} `{Supabase B} (table : string)
    (posts : list Post.t) (postId userId : string) (b : B)
  : Await (Response unit) * B :=
  match existingLike posts postId userId with
  | Some l => likes_delete b table (Like.id l)
  | None => likes_insert b table userId postId
  end.

(** [_count.likes] of the post with the given identity, if shown. *)
Definition likesCountOf (ps : list Post.t) (postId : string) : option Z :=
  match find (fun p => (Post.id p =? postId)%string) ps with
  | Some p =>
      match Post._count p with
      | Some c => Count.likes c
      | None => None
      end
  | None => None
  end.

(** [post._count?.likes || 0] *)
Definition likesShown (p : Post.t) : Z :=
  or_zero (match Post._count p with
           | Some c => Count.likes c
           | None => None
           end).


(** A computation that only reads the backend: it leaves the component
    state, the configuration and the backend alone, only adds to the list
    of requests sent, and how it ends is decided by the backend. *)
Definition reader {B A : Type} (c : Js B A) : Prop :=
  (forall w, backend (exec c w) = backend w
             /\ ui (exec c w) = ui w
             /\ supabase_configured (exec c w) = supabase_configured w
             /\ exists sent, requests (exec c w) = (requests w ++ sent)%list)
  /\ (forall w1 w2, backend w1 = backend w2 -> outcome c w1 = outcome c w2).

(** A row of the like relation that belongs to one (user, post) pair. *)
Definition pairRow (table userId postId : string) (l : MemStore.LikeRec)
  : bool :=
  (MemStore.like_table l =? table)%string
  && (MemStore.like_post_id l =? postId)%string
  && (MemStore.like_user_id l =? userId)%string.

(** Whether the store holds a like of the user on the post. *)
Definition liked (s : MemStore.t) (table userId postId : string) : bool :=
  existsb (pairRow table userId postId) (MemStore.likes s).

(** The feed shown is the one a load from this store produces, as far as
    identities and like lists go. *)
Definition inSync (section : jsstring) (w : World MemStore.t) : Prop :=
  supabase_configured w = true
  /\ MemStore.outage (backend w) = None
  /\ Forall2 (fun row p =>
                Post.id p = PostRow.id row
                /\ Post.likes p
                   = Some (MemStore.likes_of (backend w) "likes"
                             (PostRow.id row)))
             (MemStore.select_posts (backend w)
                (PostFeed.partitionFilters section))
             (UI.posts (ui w)).

(** On a healthy store the computation ends normally, leaves the store
    alone and its result satisfies [Q]. *)
Definition succeeds {A : Type} (c : Js MemStore.t A)
    (Q : MemStore.t -> A -> Prop) : Prop :=
  forall w, MemStore.outage (backend w) = None ->
    exists a w', c w = (Normal a, w')
                 /\ backend w' = backend w /\ Q (backend w) a.

(** What the store becomes when the like toggle's write goes through. *)
Definition toggled (s : MemStore.t) (table userId postId : string)
  : MemStore.t :=
  match find (fun l => (Like.user_id l =? userId)%string)
             (MemStore.likes_of s table postId) with
  | Some l => snd (likes_delete s table (Like.id l))
  | None => snd (likes_insert s table userId postId)
  end.

(** No profile, like or comment sub-fetch rejects; each may still resolve
    with an error object. *)
Definition subfetchesResolve {B : Type} `{Supabase B} (b : B) : Prop :=
  (forall id, rejected (profiles_single b id) = false)
  /\ (forall id, rejected (likes_select b id) = false)
  /\ (forall id, rejected (comments_select b id) = false).

(** While the backend satisfies [P] the computation ends normally, leaves
    the backend alone and its result satisfies [Q]. *)
Definition completes {B A : Type} (P : B -> Prop) (c : Js B A)
    (Q : B -> A -> Prop) : Prop :=
  forall w, P (backend w) ->
    exists a w', c w = (Normal a, w')
                 /\ backend w' = backend w /\ Q (backend w) a.

(** The computation is never left by a [return]. *)
Definition neverReturns {B A : Type} (c : Js B A) : Prop :=
  forall w, fst (c w) <> Return.

(** The data of a settled read, [null] when it rejected. *)
Definition dataOf {A : Type} (a : Await (Response A)) : option A :=
  match a with
  | Resolved r => data r
  | Rejected _ => None
  end.

(** The assembled post carries the columns of its row unchanged. *)
Definition rowKept (row : PostRow.t) (p : Post.t) : Prop :=
  Post.id p = PostRow.id row
  /\ Post.user_id p = PostRow.user_id row
  /\ Post.content p = PostRow.content row
  /\ Post.images p = PostRow.images row
  /\ Post.files p = PostRow.files row
  /\ Post.community_id p = PostRow.community_id row
  /\ Post.is_anonymous p = PostRow.is_anonymous row
  /\ Post.created_at p = PostRow.created_at row
  /\ Post.updated_at p = PostRow.updated_at row.

(** The assembled comment carries its row and the profile the backend
    gave for its author, none on the anonymous partition. *)
Definition commentEnriched {B : Type} `{Supabase B} (section : jsstring)
    (b : B) (row : CommentRow.t) (c : Comment.t) : Prop :=
  Comment.id c = CommentRow.id row
  /\ Comment.content c = CommentRow.content row
  /\ Comment.created_at c = CommentRow.created_at row
  /\ Comment.user_id c = CommentRow.user_id row
  /\ Comment.profiles c
     = (if strict_eq section "anonymous" then None
        else dataOf (profiles_single b (CommentRow.user_id row))).

(** The enrichment of one post is what the three sub-fetches gave, an
    absent answer standing for no profile, no likes, no comments. *)
Definition enriched {B : Type} `{Supabase B} (section : jsstring) (b : B)
    (row : PostRow.t) (p : Post.t) : Prop :=
  Post.profiles p
  = (if strict_eq section "anonymous" then None
     else dataOf (profiles_single b (PostRow.user_id row)))
  /\ Post.likes p
     = Some (resolved (dataOf (likes_select b (PostRow.id row))))
  /\ Forall2 (commentEnriched section b)
       (resolved (dataOf (comments_select b (PostRow.id row))))
       (resolved (Post.comments p)).

(** The request [handleLike] sends in backend mode, given the [posts] it
    closed over. *)
Definition likeRequest (table : string) (posts : list Post.t)
    (postId userId : string) : Request :=
  match existingLike posts postId userId with
  | Some l => DeleteLike table (Like.id l)
  | None => InsertLike table userId postId
  end.

(** [SelectProfile] requests. *)
Definition isProfileRequest (r : Request) : bool :=
  match r with
  | SelectProfile _ => true
  | _ => false
  end.

(** Every request the computation sends satisfies [P], however it ends. *)
Definition sendsOnly {B A : Type} (P : Request -> bool) (c : Js B A)
  : Prop :=
  forall w, exists sent,
    requests (exec c w) = (requests w ++ sent)%list
    /\ forallb P sent = true.



(** A possibly absent string that [||] skips: [null], [undefined] or
    ['']. *)
Definition absentOrEmpty (s : jsstring) : Prop :=
  s = None \/ s = Some "".

(** The post has a visibility, and it is not the empty string. *)
Definition hasVisibility (p : Post.t) : Prop :=
  exists v, Post.visibility p = Some v /\ v <> "".

(** The visibility of a post assembled from a row while the section is
    shown: the row's own when it has a non-empty one, else the section
    when that is non-empty, else "public". *)
Definition visibilityGiven (section : jsstring) (row : PostRow.t)
    (p : Post.t) : Prop :=
  (forall v,
      PostRow.visibility row = Some v -> v <> "" ->
      Post.visibility p = Some v)
  /\ (forall s,
         absentOrEmpty (PostRow.visibility row) ->
         section = Some s -> s <> "" ->
         Post.visibility p = Some s)
  /\ (absentOrEmpty (PostRow.visibility row) ->
      absentOrEmpty section ->
      Post.visibility p = Some "public").

(* ===================================================================== *)
(** ** Sample data for concrete runs *)
(* ===================================================================== *)

Module Sample.

Definition alice : Profile.t :=
  Profile.mk "u1" (Some "alice") (Some "Alice") (Some "Alice A.") None None.

Definition bob : Profile.t :=
  Profile.mk "u2" (Some "bob") (Some "Bob") (Some "Bob B.") None None.

Definition rows : list PostRow.t :=
  [ PostRow.mk "p1" "u1" "a secret" None None (Some "anonymous") None
      (Some true) 10 10;
    PostRow.mk "p2" "u2" "hello" None None (Some "public") None
      (Some false) 20 20;
    PostRow.mk "p3" "u1" "good morning" None None (Some "public") None
      (Some false) 30 30;
    PostRow.mk "p4" "u2" "club news" None None (Some "public")
      (Some "chess-club") (Some false) 40 40 ].

Definition store : MemStore.t :=
  MemStore.mk rows [alice; bob]
    [ {| MemStore.like_table := "likes"; MemStore.like_id := "l1";
         MemStore.like_user_id := "u2"; MemStore.like_post_id := "p3" |};
      {| MemStore.like_table := "post_likes"; MemStore.like_id := "l2";
         MemStore.like_user_id := "u2"; MemStore.like_post_id := "p1" |} ]
    [ {| MemStore.comment_table := "comments"; MemStore.comment_id := "c1";
         MemStore.comment_content := "me too";
         MemStore.comment_created_at := 12;
         MemStore.comment_user_id := "u2";
         MemStore.comment_post_id := "p1" |};
      {| MemStore.comment_table := "comments"; MemStore.comment_id := "c2";
         MemStore.comment_content := "same";
         MemStore.comment_created_at := 11;
         MemStore.comment_user_id := "u1";
         MemStore.comment_post_id := "p1" |};
      {| MemStore.comment_table := "post_comments";
         MemStore.comment_id := "c3";
         MemStore.comment_content := "who wrote this?";
         MemStore.comment_created_at := 13;
         MemStore.comment_user_id := "u2";
         MemStore.comment_post_id := "p1" |} ]
    0 None.

(** The same store while every request is answered with an error. *)
Definition failing : MemStore.t :=
  MemStore.mk rows [alice; bob] (MemStore.likes store)
    (MemStore.comments store) 0
    (Some (MemStore.ErrorResponse "connection timeout")).

(** The same store while every request's promise rejects. *)
Definition unreachable : MemStore.t :=
  MemStore.mk rows [alice; bob] (MemStore.likes store)
    (MemStore.comments store) 0
    (Some (MemStore.ConnectionLost (ErrorObject "Failed to fetch"))).

(** Backend mode, just mounted. *)
Definition online : World MemStore.t := MemStore.mounted store true 1000.

(** Demo mode, just mounted. *)
Definition demo : World MemStore.t := MemStore.mounted store false 1000.

(** A feed that was loaded while the store was healthy, after which the
    store went down. *)
Definition stale (s : MemStore.t) : World MemStore.t :=
  set_backend s (exec (PostFeed.loadPosts 0 (Some "public")) online).

End Sample.

(** A client over the in-memory store whose likes fetch always rejects
    while every other request goes through. *)
Module LikesDown.

Record t := mk { store : MemStore.t }.

Definition lift (r : Await (Response unit) * MemStore.t)
  : Await (Response unit) * t :=
  (fst r, mk (snd r)).

#[global] Instance supabase : Supabase t := {
  posts_select s fs := posts_select (store s) fs;
  profiles_single s id := profiles_single (store s) id;
  likes_select s post_id := Rejected (ErrorObject "Failed to fetch");
  comments_select s post_id := comments_select (store s) post_id;
  posts_select_joined s fs := posts_select_joined (store s) fs;
  likes_delete s table id := lift (likes_delete (store s) table id);
  likes_insert s table user_id post_id :=
    lift (likes_insert (store s) table user_id post_id);
  comments_insert s table user_id post_id content :=
    lift (comments_insert (store s) table user_id post_id content)
}.

End LikesDown.

Module Sample2.

(** The sample store without alice's profile row. *)
Definition orphaned : MemStore.t :=
  MemStore.mk Sample.rows [Sample.bob] (MemStore.likes Sample.store)
    (MemStore.comments Sample.store) 0 None.

(** A store with no rows at all. *)
Definition empty : MemStore.t := MemStore.mk [] [] [] [] 0 None.

(** The sample store behind the client whose likes fetch rejects, with a
    feed already shown. *)
Definition likesDown : World LikesDown.t :=
  {| ui := ui (Sample.stale Sample.store);
     backend := LikesDown.mk Sample.store;
     supabase_configured := true; clock := 1000; console := [];
     alerts := []; requests := [] |}.

(** MainLayout showing the profile view. *)
Definition onProfile : MainLayoutView.Shell :=
  MainLayoutView.setCurrentView MainLayoutView.profile
    MainLayoutView.initial.

(** Lower-casing of the letters A to Z, other characters kept. *)
Definition lowerChar (c : Ascii.ascii) : Ascii.ascii :=
  let n := Ascii.nat_of_ascii c in
  if ((65 <=? n) && (n <=? 90))%nat then Ascii.ascii_of_nat (n + 32) else c.

Fixpoint lower (s : string) : string :=
  match s with
  | EmptyString => EmptyString
  | String c s' => String (lowerChar c) (lower s')
  end.

Definition bike : Marketplace.Item :=
  {| Marketplace.id := "i1"; Marketplace.title := "Mountain Bike";
     Marketplace.description := "Barely used";
     Marketplace.category := "sports"; Marketplace.condition := "good";
     Marketplace.price := 150000; Marketplace.images := None;
     Marketplace.created_at := 5;
     Marketplace.profiles := Some Sample.alice |}.

Definition novel : Marketplace.Item :=
  {| Marketplace.id := "i2"; Marketplace.title := "A novel";
     Marketplace.description := "About a BIKE trip";
     Marketplace.category := "books"; Marketplace.condition := "new";
     Marketplace.price := 9000; Marketplace.images := Some [];
     Marketplace.created_at := 6; Marketplace.profiles := None |}.



(** A seller whose display name is the empty string, and one with no
    name at all, each with a listing. *)
Definition carol : Profile.t :=
  Profile.mk "u3" (Some "carol") (Some "") (Some "Carol C.") None None.

Definition nameless : Profile.t :=
  Profile.mk "u4" (Some "dan") None (Some "") None None.

Definition lamp : Marketplace.Item :=
  {| Marketplace.id := "i3"; Marketplace.title := "Desk lamp";
     Marketplace.description := "Warm light";
     Marketplace.category := "home"; Marketplace.condition := "like-new";
     Marketplace.price := 12000; Marketplace.images := None;
     Marketplace.created_at := 7; Marketplace.profiles := Some carol |}.

Definition desk : Marketplace.Item :=
  {| Marketplace.id := "i4"; Marketplace.title := "Desk";
     Marketplace.description := "Oak";
     Marketplace.category := "home"; Marketplace.condition := "good";
     Marketplace.price := 80000; Marketplace.images := None;
     Marketplace.created_at := 8; Marketplace.profiles := Some nameless |}.

(** The sample store with one more row of the chess club, stored without
    a visibility. *)
Definition unlabelled : MemStore.t :=
  MemStore.mk
    (PostRow.mk "p5" "u1" "next meeting" None None None (Some "chess-club")
       (Some false) 50 50 :: Sample.rows)
    [Sample.alice; Sample.bob] (MemStore.likes Sample.store)
    (MemStore.comments Sample.store) 0 None.





(** The market after its first load, nothing typed or selected yet. *)
Definition loaded : Marketplace.State :=
  snd (Marketplace.loadItems (Resolved [bike; novel]) Marketplace.initial).

(** The market after a load that brought nothing. *)
Definition bare : Marketplace.State :=
  snd (Marketplace.loadItems (Resolved []) Marketplace.initial).

End Sample2.

(* ===================================================================== *)
(** ** Properties *)
(* ===================================================================== *)

Lemma zero_or_self (z : Z) : (if z =? 0 then 0 else z) = z.
Proof.
  destruct (z =? 0) eqn:E; [|reflexivity].
  apply Z.eqb_eq in E. congruence.
Qed.

(** A non-empty string is truthy, an absent or empty one is not. *)
Lemma truthy_nonempty (s : jsstring) :
  (forall v, s = Some v -> v <> "" -> truthy s = true)
  /\ (absentOrEmpty s -> truthy s = false).
Proof.
  split.
  - intros v -> Hv. cbn. apply String.eqb_neq in Hv. rewrite Hv.
    reflexivity.
  - intros [-> | ->]; reflexivity.
Qed.

Lemma truthy_hasVisibility (p : Post.t) :
  truthy (Post.visibility p) = true <-> hasVisibility p.
Proof.
  unfold hasVisibility. split.
  - destruct (Post.visibility p) as [v|]; [|discriminate]. cbn. intros E.
    exists v. split; [reflexivity|]. intros ->. discriminate.
  - intros (v & -> & Hv). apply (proj1 (truthy_nonempty (Some v)) v);
      [reflexivity|exact Hv].
Qed.

(** [a || b || 'public'] case by case. *)
Lemma js_or_public_spec (a b : jsstring) :
  (forall v, a = Some v -> v <> "" ->
             js_or a (js_or b (Some "public")) = Some v)
  /\ (forall s, absentOrEmpty a -> b = Some s -> s <> "" ->
                js_or a (js_or b (Some "public")) = Some s)
  /\ (absentOrEmpty a -> absentOrEmpty b ->
      js_or a (js_or b (Some "public")) = Some "public").
Proof.
  unfold js_or. repeat split.
  - intros v Ea Hv. rewrite (proj1 (truthy_nonempty a) v Ea Hv). exact Ea.
  - intros t Ha Eb Ht. rewrite (proj2 (truthy_nonempty a) Ha).
    rewrite (proj1 (truthy_nonempty b) t Eb Ht). exact Eb.
  - intros Ha Hb. rewrite (proj2 (truthy_nonempty a) Ha).
    rewrite (proj2 (truthy_nonempty b) Hb). reflexivity.
Qed.

Section Laws.
Context {B : Type} `{Supabase B}.

Lemma bind_normal {A C : Type} (c : Js B A) (k : A -> Js B C) w v w' :
  bind c k w = (Normal v, w') ->
  exists a w1, c w = (Normal a, w1) /\ k a w1 = (Normal v, w').
Proof.
  unfold bind. destruct (c w) as [[a| |e] w1]; intros E; try discriminate.
  exists a, w1. split; [reflexivity|assumption].
Qed.

(** [finally { setLoading(false) }] has the last word on the flag. *)
Lemma finally_not_loading (c : Js B unit) (w : World B) :
  UI.loading (ui (exec (async (try_finally c (setLoading false))) w)) = false.
Proof.
  unfold exec, async, try_finally, setLoading.
  destruct (c w) as [[[]| |e] w1]; reflexivity.
Qed.

(** A body guarded by a [catch] and a [finally] that cannot throw
    themselves never rejects. *)
Lemma guarded_completes (c : Js B unit) (h : JsThrown -> Js B unit)
    (f : Js B unit) (w : World B) :
  (forall e w0, fst (h e w0) = Normal tt) ->
  (forall w0, fst (f w0) = Normal tt) ->
  outcome (async (try_finally (try_catch c h) f)) w = Normal tt.
Proof.
  intros Hh Hf. unfold outcome, async, try_finally, try_catch.
  destruct (c w) as [[[]| |e] w1].
  - specialize (Hf w1).
    destruct (f w1) as [[[]| |e'] w2]; simpl in *; congruence.
  - specialize (Hf w1).
    destruct (f w1) as [[[]| |e'] w2]; simpl in *; congruence.
  - specialize (Hh e w1).
    destruct (h e w1) as [[[]| |e'] w2]; simpl in Hh; try congruence.
    specialize (Hf w2).
    destruct (f w2) as [[[]| |e''] w3]; simpl in *; congruence.
Qed.

Lemma reader_ret {A : Type} (a : A) : reader (ret a : Js B A).
Proof.
  split; intros; [repeat split|]; try reflexivity.
  exists []. cbn. rewrite app_nil_r. reflexivity.
Qed.

Lemma reader_console_log (l : string) :
  reader (console_log l : Js B unit).
Proof.
  split; intros; [repeat split|]; try reflexivity.
  exists []. cbn. rewrite app_nil_r. reflexivity.
Qed.

Lemma reader_await_read {A : Type} (r : Request) (q : B -> Await A) :
  reader (await_read r q).
Proof.
  split.
  - intros w. unfold exec, await_read.
    destruct (q (backend w)); repeat split; exists [r]; reflexivity.
  - intros w1 w2 E. unfold outcome, await_read. rewrite E.
    destruct (q (backend w2)); reflexivity.
Qed.

Lemma reader_bind {A C : Type} (c : Js B A) (k : A -> Js B C) :
  reader c -> (forall a, reader (k a)) -> reader (bind c k).
Proof.
  intros [Fc Dc] Hk. split.
  - intros w. unfold exec, bind. specialize (Fc w). unfold exec in Fc.
    destruct (c w) as [[a| |e] w1]; simpl in *; try assumption.
    destruct (Hk a) as [Fk _]. specialize (Fk w1). unfold exec in Fk.
    destruct Fk as (F1 & F2 & F3 & s2 & F4).
    destruct Fc as (F5 & F6 & F7 & s1 & F8).
    repeat split; try congruence.
    exists (s1 ++ s2)%list. rewrite F4, F8, app_assoc. reflexivity.
  - intros w1 w2 E. unfold outcome, bind.
    pose proof (Dc w1 w2 E) as D. unfold outcome in D.
    pose proof (Fc w1) as (F1 & _). pose proof (Fc w2) as (F2 & _).
    unfold exec in F1, F2.
    destruct (c w1) as [[a1| |e1] w1']; destruct (c w2) as [[a2| |e2] w2'];
      simpl in *; try discriminate; try reflexivity.
    + injection D as ->. destruct (Hk a2) as [_ Dk].
      apply Dk. congruence.
    + injection D as ->. reflexivity.
Qed.

Lemma reader_when (b : bool) (c : Js B unit) : reader c -> reader (when b c).
Proof. destruct b; simpl; [trivial|intros; apply reader_ret]. Qed.

Lemma reader_for_of {A C : Type} (xs : list A) (body : A -> Js B C) :
  (forall x, reader (body x)) -> reader (for_of xs body).
Proof.
  intros Hb. induction xs as [|x xs IH]; simpl.
  - apply reader_ret.
  - apply reader_bind; [apply Hb|]. intros y.
    apply reader_bind; [apply IH|]. intros ys. apply reader_ret.
Qed.

Lemma reader_withCommentProfile section comment :
  reader (PostFeed.withCommentProfile section comment).
Proof.
  unfold PostFeed.withCommentProfile.
  apply reader_bind.
  - destruct (negb (strict_eq section "anonymous")).
    + apply reader_bind; [apply reader_await_read|intros; apply reader_ret].
    + apply reader_ret.
  - intros; apply reader_ret.
Qed.

Lemma reader_withProfile section post :
  reader (PostFeed.withProfile section post).
Proof.
  unfold PostFeed.withProfile.
  repeat first
    [ apply reader_console_log
    | apply reader_await_read
    | apply reader_ret
    | apply reader_when
    | apply reader_withCommentProfile
    | apply reader_for_of; intros
    | apply reader_bind; [|intros]
    | match goal with
      | |- reader (if ?b then _ else _) => destruct b
      | |- reader (match ?d with Some _ => _ | None => _ end) => destruct d
      end ].
Qed.

Lemma withProfile_counts section post w p w' :
  PostFeed.withProfile section post w = (Normal p, w') ->
  countsMatch p = true.
Proof.
  unfold PostFeed.withProfile. intros E.
  repeat (apply bind_normal in E; destruct E as (? & ? & _ & E)).
  injection E as <- _.
  unfold countsMatch, opt_length, or_zero; cbn -[Z.of_nat Z.eqb].
  match goal with |- context [data ?r] => destruct (data r) end;
    cbn -[Z.of_nat Z.eqb];
    rewrite ?zero_or_self, ?Z.eqb_refl; reflexivity.
Qed.

Lemma for_of_Forall {A C : Type} (P : C -> Prop) (body : A -> Js B C) :
  (forall x w y w', body x w = (Normal y, w') -> P y) ->
  forall xs w ys w', for_of xs body w = (Normal ys, w') -> Forall P ys.
Proof.
  intros Hb. induction xs as [|x xs IH]; simpl; intros w ys w' E.
  - injection E as <- _. constructor.
  - apply bind_normal in E. destruct E as (y & w1 & E1 & E).
    apply bind_normal in E. destruct E as (ys' & w2 & E2 & E).
    injection E as <- _. constructor; eauto.
Qed.

Lemma withCommentProfile_anonymous comment w c w' :
  PostFeed.withCommentProfile (Some "anonymous") comment w = (Normal c, w') ->
  is_none (Comment.profiles c) = true.
Proof.
  unfold PostFeed.withCommentProfile. cbn. intros E. injection E as <- _. reflexivity.
Qed.

Lemma withProfile_anonymous post w p w' :
  PostFeed.withProfile (Some "anonymous") post w = (Normal p, w') ->
  authorHidden p = true.
Proof.
  unfold PostFeed.withProfile. intros E.
  apply bind_normal in E; destruct E as (? & ? & _ & E).
  apply bind_normal in E; destruct E as (pr & ? & Epr & E).
  cbn in Epr. injection Epr as <- _.
  repeat (apply bind_normal in E; destruct E as (? & ? & ? & E)).
  injection E as <- _.
  unfold authorHidden; cbn.
  match goal with
  | Hc : (match data ?r with Some _ => _ | None => _ end) _ = (Normal ?cs, _) |- _ =>
      destruct (data r) as [comments|];
      [ apply for_of_Forall with (P := fun c => is_none (Comment.profiles c) = true) in Hc;
        [ apply forallb_forall; intros c Hin;
          rewrite Forall_forall in Hc; apply Hc; exact Hin
        | intros; eapply withCommentProfile_anonymous; eassumption ]
      | cbn in Hc; injection Hc as <- _; reflexivity ]
  end.
Qed.



Lemma PostFeed_demo_load (t0 : Z) (section : jsstring) (w : World B) :
  supabase_configured w = false ->
  exec (PostFeed.loadPosts t0 section) w
  = add_console (ConsoleLog "Using demo data - Supabase not configured")
      (set_ui
         (UI.mk
            (if PostFeed.isPublicSection section
             then PostFeed.demoPostsData t0
             else if strict_eq section "anonymous"
                  then PostFeed.demoAnonymousPostsData t0
                  else [])
            false None) w).
Proof.
  intros Hc. unfold exec, PostFeed.loadPosts, async, try_finally, try_catch, bind,
    hasValidSupabaseConfig.
  cbn. rewrite Hc. cbn.
  destruct (PostFeed.isPublicSection section); [reflexivity|].
  destruct (strict_eq section "anonymous"); reflexivity.
Qed.

Lemma MainLayout_demo_load (profile : Profile.t) (section : jsstring) (w : World B) :
  supabase_configured w = false ->
  exec (MainLayout.loadPosts profile section) w
  = set_ui (UI.mk (MainLayout.demoPosts profile section (clock w)) false None) w.
Proof.
  intros Hc. unfold exec, MainLayout.loadPosts, async, try_finally, try_catch, bind,
    hasValidSupabaseConfig.
  cbn. rewrite Hc. reflexivity.
Qed.


Lemma PostFeed_load_outcomes (t0 : Z) (section : jsstring) (w : World B) :
  supabase_configured w = true ->
  backend (exec (PostFeed.loadPosts t0 section) w) = backend w
  /\ supabase_configured (exec (PostFeed.loadPosts t0 section) w) = true
  /\ (UI.posts (ui (exec (PostFeed.loadPosts t0 section) w)) = UI.posts (ui w)
      \/ UI.posts (ui (exec (PostFeed.loadPosts t0 section) w)) = []
      \/ exists rows w1 w2,
           for_of rows (PostFeed.withProfile section) w1
           = (Normal (UI.posts (ui (exec (PostFeed.loadPosts t0 section) w))),
              w2)).
Proof.
  intros Hc.
  unfold exec, PostFeed.loadPosts, async, try_finally, try_catch, bind,
    hasValidSupabaseConfig, await_read.
  cbn -[for_of]. rewrite Hc. cbn -[for_of].
  destruct (posts_select (backend w) (PostFeed.partitionFilters section))
    as [r|e]; cbn -[for_of]; [|auto].
  destruct (error r) as [pe|]; cbn -[for_of]; [auto|].
  destruct (data r) as [[|row rows]|]; cbn -[for_of]; [auto| |auto].
  match goal with
  | |- context [for_of ?xs ?f ?w0] =>
      pose proof (reader_for_of xs f (reader_withProfile section)) as [Fr _];
      specialize (Fr w0); unfold exec in Fr;
      destruct (for_of xs f w0) as [[ps| |e] w1] eqn:E
  end; cbn -[for_of] in *; destruct Fr as (Fb & Fu & Fc & _);
    (split; [exact Fb|]); (split; [congruence|]).
  - right; right. do 3 eexists. exact E.
  - rewrite Fu. auto.
  - rewrite Fu. auto.
Qed.

Lemma PostFeed_load_deterministic (t0 : Z) (section : jsstring)
    (w1 w2 : World B) :
  supabase_configured w1 = true ->
  supabase_configured w2 = true ->
  backend w1 = backend w2 ->
  (UI.posts (ui (exec (PostFeed.loadPosts t0 section) w1)) = UI.posts (ui w1)
   /\ UI.posts (ui (exec (PostFeed.loadPosts t0 section) w2))
      = UI.posts (ui w2))
  \/ UI.posts (ui (exec (PostFeed.loadPosts t0 section) w1))
     = UI.posts (ui (exec (PostFeed.loadPosts t0 section) w2)).
Proof.
  intros Hc1 Hc2 Hb.
  unfold exec, PostFeed.loadPosts, async, try_finally, try_catch, bind,
    hasValidSupabaseConfig, await_read.
  cbn -[for_of]. rewrite Hc1, Hc2. cbn -[for_of]. rewrite Hb.
  destruct (posts_select (backend w2) (PostFeed.partitionFilters section))
    as [r|e]; cbn -[for_of]; [|auto].
  destruct (error r) as [pe|]; cbn -[for_of]; [auto|].
  destruct (data r) as [[|row rows]|]; cbn -[for_of]; [auto| |auto].
  match goal with
  | |- context [for_of ?xs ?f ?wa] =>
      match goal with
      | |- context [for_of xs f ?wb] =>
          lazymatch wa with
          | wb => fail
          | _ =>
              pose proof (reader_for_of xs f (reader_withProfile section))
                as [Fr Dr];
              pose proof (Fr wa) as (_ & Fa & _);
              pose proof (Fr wb) as (_ & Fb & _);
              specialize (Dr wa wb); unfold exec, outcome in Dr, Fa, Fb;
              destruct (for_of xs f wa) as [[ps| |e] wa'];
              destruct (for_of xs f wb) as [[ps'| |e'] wb']
          end
      end
  end; cbn -[for_of] in *;
    try (specialize (Dr Hb)); try discriminate;
    try (rewrite Fa, Fb; auto).
  injection Dr as ->. auto.
Qed.



Lemma withCounts_counts (p : Post.t) : countsMatch (MainLayout.withCounts p) = true.
Proof.
  unfold countsMatch, MainLayout.withCounts, opt_length, or_zero.
  destruct p as [? ? ? ? ? ? ? ? ? ? ? ls cs ?]; cbn -[Z.of_nat Z.eqb].
  destruct ls, cs; cbn -[Z.of_nat Z.eqb];
    rewrite ?zero_or_self, ?Z.eqb_refl; reflexivity.
Qed.

Lemma MainLayout_load_outcomes (profile : Profile.t) (section : jsstring)
    (w : World B) :
  supabase_configured w = true ->
  backend (exec (MainLayout.loadPosts profile section) w) = backend w
  /\ supabase_configured (exec (MainLayout.loadPosts profile section) w)
     = true
  /\ (UI.posts (ui (exec (MainLayout.loadPosts profile section) w))
      = UI.posts (ui w)
      \/ exists ps,
           UI.posts (ui (exec (MainLayout.loadPosts profile section) w))
           = map MainLayout.withCounts ps).
Proof.
  intros Hc.
  unfold exec, MainLayout.loadPosts, async, try_finally, try_catch, bind,
    hasValidSupabaseConfig, await_read.
  cbn. rewrite Hc. cbn.
  destruct (posts_select_joined (backend w) (MainLayout.sectionFilters section))
    as [r|e]; cbn; [|auto].
  destruct (error r) as [pe|]; cbn; [auto|].
  repeat split; [assumption|]. right. eauto.
Qed.

Lemma MainLayout_load_deterministic (profile : Profile.t)
    (section : jsstring) (w1 w2 : World B) :
  supabase_configured w1 = true ->
  supabase_configured w2 = true ->
  backend w1 = backend w2 ->
  (UI.posts (ui (exec (MainLayout.loadPosts profile section) w1))
   = UI.posts (ui w1)
   /\ UI.posts (ui (exec (MainLayout.loadPosts profile section) w2))
      = UI.posts (ui w2))
  \/ UI.posts (ui (exec (MainLayout.loadPosts profile section) w1))
     = UI.posts (ui (exec (MainLayout.loadPosts profile section) w2)).
Proof.
  intros Hc1 Hc2 Hb.
  unfold exec, MainLayout.loadPosts, async, try_finally, try_catch, bind,
    hasValidSupabaseConfig, await_read.
  cbn. rewrite Hc1, Hc2. cbn. rewrite Hb.
  destruct (posts_select_joined (backend w2) (MainLayout.sectionFilters section))
    as [r|e]; cbn; [|auto].
  destruct (error r) as [pe|]; cbn; auto.
Qed.


(** *** Loading *)

(** C10. Every run of the feed load routine ends, without throwing to its
    caller, with the loading flag false: in demo mode, on a query error, on
    an empty result, after a successful assembly and after an exception, in
    PostFeed and in MainLayout. *)
Theorem loadPosts_always_clears_loading :
  forall (moduleTime : Z) (profile : Profile.t) (section : jsstring)
         (w : World B),
    (UI.loading (ui (exec (PostFeed.loadPosts moduleTime section) w)) = false
     /\ outcome (PostFeed.loadPosts moduleTime section) w = Normal tt)
    /\ (UI.loading (ui (exec (MainLayout.loadPosts profile section) w))
        = false
        /\ outcome (MainLayout.loadPosts profile section) w = Normal tt).
Proof.
  intros. repeat split.
  - apply finally_not_loading.
  - apply guarded_completes; reflexivity.
  - apply finally_not_loading.
  - apply guarded_completes; reflexivity.
Qed.

(** C2, amended. In backend mode a feed load keeps the count invariant: if
    every post held before the load has [_count.likes] and
    [_count.comments] equal to the lengths of its like and comment lists
    (as the initial empty list does), so has every post held after it, in
    PostFeed and in MainLayout. The demo sample posts are not covered. *)
Theorem backend_load_counts_match :
  forall (moduleTime : Z) (profile : Profile.t) (section : jsstring)
         (w : World B),
    supabase_configured w = true ->
    forallb countsMatch (UI.posts (ui w)) = true ->
    forallb countsMatch
      (UI.posts (ui (exec (PostFeed.loadPosts moduleTime section) w))) = true
    /\ forallb countsMatch
         (UI.posts (ui (exec (MainLayout.loadPosts profile section) w)))
       = true.
Proof.
  intros t0 profile section w Hc Hinv. split.
  - destruct (PostFeed_load_outcomes t0 section w Hc)
      as (_ & _ & [-> | [-> | (rows & w1 & w2 & E)]]);
      [assumption|reflexivity|].
    apply for_of_Forall with (P := fun p => countsMatch p = true) in E.
    + apply forallb_forall. rewrite Forall_forall in E. exact E.
    + intros x w0 y w' Ex. eapply withProfile_counts; eassumption.
  - destruct (MainLayout_load_outcomes profile section w Hc)
      as (_ & _ & [-> | [ps ->]]); [assumption|].
    apply forallb_forall. intros p Hin. apply in_map_iff in Hin.
    destruct Hin as (q & <- & _). apply withCounts_counts.
Qed.

(** C8. Loading twice in succession for the same partition, the backend
    untouched in between (the load itself does not change it; the clock may
    have advanced), shows the same items in the same order with the same
    counts, in backend and in demo mode: PostFeed ends with the very same
    list of posts, MainLayout (whose demo posts are stamped with the time of
    the load) with the same identities, order and counts. *)
Theorem feed_load_idempotent :
  forall (moduleTime : Z) (profile : Profile.t) (section : jsstring)
         (w : World B) (later : Z),
    (backend (exec (PostFeed.loadPosts moduleTime section) w) = backend w
     /\ UI.posts
          (ui (exec (PostFeed.loadPosts moduleTime section)
                 (set_clock later
                    (exec (PostFeed.loadPosts moduleTime section) w))))
        = UI.posts (ui (exec (PostFeed.loadPosts moduleTime section) w)))
    /\ (backend (exec (MainLayout.loadPosts profile section) w) = backend w
        /\ feedSummary
             (UI.posts
                (ui (exec (MainLayout.loadPosts profile section)
                       (set_clock later
                          (exec (MainLayout.loadPosts profile section) w)))))
           = feedSummary
               (UI.posts
                  (ui (exec (MainLayout.loadPosts profile section) w)))).
Proof.
  intros t0 profile section w later.
  destruct (supabase_configured w) eqn:Hc.
  - split.
    + destruct (PostFeed_load_outcomes t0 section w Hc) as (Hb & Hc1 & _).
      split; [exact Hb|].
      destruct (PostFeed_load_deterministic t0 section w
                  (set_clock later (exec (PostFeed.loadPosts t0 section) w))
                  Hc Hc1 (eq_sym Hb)) as [[_ E]|E];
        [exact E|symmetry; exact E].
    + destruct (MainLayout_load_outcomes profile section w Hc)
        as (Hb & Hc1 & _).
      split; [exact Hb|]. f_equal.
      destruct (MainLayout_load_deterministic profile section w
                  (set_clock later
                     (exec (MainLayout.loadPosts profile section) w))
                  Hc Hc1 (eq_sym Hb)) as [[_ E]|E];
        [exact E|symmetry; exact E].
  - rewrite !PostFeed_demo_load, !MainLayout_demo_load by
      (try rewrite PostFeed_demo_load by assumption;
       try rewrite MainLayout_demo_load by assumption; assumption).
    repeat split.
Qed.

(** In PostFeed's anonymous partition no author is resolved: a load keeps
    "every post and every comment has no profile", in both modes. *)
Lemma PostFeed_anonymous_hides_authors (moduleTime : Z) (w : World B) :
  forallb authorHidden (UI.posts (ui w)) = true ->
  forallb authorHidden
    (UI.posts (ui (exec (PostFeed.loadPosts moduleTime (Some "anonymous")) w)))
  = true.
Proof.
  intros Hinv. destruct (supabase_configured w) eqn:Hc.
  - destruct (PostFeed_load_outcomes moduleTime (Some "anonymous") w Hc)
      as (_ & _ & [-> | [-> | (rows & w1 & w2 & E)]]);
      [assumption|reflexivity|].
    apply for_of_Forall with (P := fun p => authorHidden p = true) in E.
    + apply forallb_forall. rewrite Forall_forall in E. exact E.
    + intros x w0 y w' Ex. eapply withProfile_anonymous; eassumption.
  - rewrite PostFeed_demo_load by assumption. reflexivity.
Qed.

(** Requests already sent are never forgotten by the enrichment loop. *)
Lemma assembly_extends_requests (section : jsstring)
    (rows : list PostRow.t) (w : World B) :
  exists sent,
    requests (exec (for_of rows (PostFeed.withProfile section)) w)
    = (requests w ++ sent)%list.
Proof.
  destruct (reader_for_of rows (PostFeed.withProfile section)
              (reader_withProfile section)) as [Fr _].
  destruct (Fr w) as (_ & _ & _ & sent & E). exists sent. exact E.
Qed.

(** C3. The partition resolver of PostFeed: [public] keeps exactly the rows
    with visibility public and no community; [anonymous] exactly those with
    visibility anonymous and no community; any other non-empty section
    exactly the rows of that community; an undefined or empty section is
    resolved, and loaded, exactly as [public]. In backend mode the resolved
    filters are what the load puts on its first request. *)
Theorem partition_resolver_filters :
  (forall row,
      matches_all (PostFeed.partitionFilters (Some "public")) row = true
      <-> PostRow.visibility row = Some "public"
          /\ PostRow.community_id row = None)
  /\ (forall row,
         matches_all (PostFeed.partitionFilters (Some "anonymous")) row
         = true
         <-> PostRow.visibility row = Some "anonymous"
             /\ PostRow.community_id row = None)
  /\ (forall community row,
         community <> "public" -> community <> "anonymous" ->
         community <> "" ->
         (matches_all (PostFeed.partitionFilters (Some community)) row = true
          <-> PostRow.community_id row = Some community))
  /\ (forall moduleTime (w : World B),
         PostFeed.partitionFilters None
         = PostFeed.partitionFilters (Some "public")
         /\ PostFeed.partitionFilters (Some "")
            = PostFeed.partitionFilters (Some "public")
         /\ PostFeed.loadPosts moduleTime None w
            = PostFeed.loadPosts moduleTime (Some "public") w
         /\ PostFeed.loadPosts moduleTime (Some "") w
            = PostFeed.loadPosts moduleTime (Some "public") w)
  /\ (forall moduleTime section (w : World B),
         supabase_configured w = true ->
         exists rest,
           requests (exec (PostFeed.loadPosts moduleTime section) w)
           = (requests w
                ++ SelectPosts (PostFeed.partitionFilters section) :: rest)
               %list).
Proof.
  split; [|split; [|split; [|split]]].
  - intros row. cbn. unfold strict_eq, is_none.
    destruct (PostRow.visibility row) as [v|],
             (PostRow.community_id row) as [c|];
      cbn; rewrite ?andb_true_r, ?andb_false_r, ?String.eqb_eq;
      intuition (try discriminate; try congruence).
  - intros row. cbn. unfold strict_eq, is_none.
    destruct (PostRow.visibility row) as [v|],
             (PostRow.community_id row) as [c|];
      cbn; rewrite ?andb_true_r, ?andb_false_r, ?String.eqb_eq;
      intuition (try discriminate; try congruence).
  - intros community row Hp Ha He.
    unfold PostFeed.partitionFilters, PostFeed.isPublicSection, strict_eq,
      truthy.
    apply String.eqb_neq in Hp, Ha, He. rewrite Hp, Ha, He. cbn.
    rewrite andb_true_r.
    destruct (PostRow.community_id row) as [c|]; cbn.
    + rewrite String.eqb_eq. split; congruence.
    + split; discriminate.
  - intros. repeat split.
  - intros t0 section w Hc.
    unfold exec, PostFeed.loadPosts, async, try_finally, try_catch, bind,
      hasValidSupabaseConfig.
    cbn -[for_of]. rewrite Hc. cbn -[for_of].
    unfold await_read. cbn -[for_of].
    destruct (posts_select (backend w) (PostFeed.partitionFilters section))
      as [r|e]; cbn -[for_of]; [|eexists; reflexivity].
    destruct (error r) as [pe|]; cbn -[for_of]; [eexists; reflexivity|].
    destruct (data r) as [[|row rows]|]; cbn -[for_of];
      try (eexists; reflexivity).
    match goal with
    | |- context [for_of ?xs ?f ?w0] =>
        destruct (assembly_extends_requests section xs w0) as [sent E];
        unfold exec in E; destruct (for_of xs f w0) as [[ps| |e] w1]
    end; cbn -[for_of] in *; rewrite E, <- app_assoc;
      eexists; reflexivity.
Qed.

(** C4, amended. In backend mode, when the post-list fetch comes back with
    an error or rejects, the load stops after that one request: the loading
    flag ends false, the error flag holds a non-empty message, and the posts
    list is left exactly as it was before the load. *)
Theorem failed_fetch_reports_error :
  forall (moduleTime : Z) (profile : Profile.t) (section : jsstring)
         (w : World B),
    supabase_configured w = true ->
    (fetchFailed
       (posts_select (backend w) (PostFeed.partitionFilters section)) = true ->
     UI.loading (ui (exec (PostFeed.loadPosts moduleTime section) w)) = false
     /\ truthy (UI.error (ui (exec (PostFeed.loadPosts moduleTime section) w)))
        = true
     /\ UI.posts (ui (exec (PostFeed.loadPosts moduleTime section) w))
        = UI.posts (ui w)
     /\ requests (exec (PostFeed.loadPosts moduleTime section) w)
        = (requests w ++ [SelectPosts (PostFeed.partitionFilters section)])
            %list)
    /\ (fetchFailed
          (posts_select_joined (backend w)
             (MainLayout.sectionFilters section)) = true ->
        UI.loading (ui (exec (MainLayout.loadPosts profile section) w))
        = false
        /\ truthy
             (UI.error (ui (exec (MainLayout.loadPosts profile section) w)))
           = true
        /\ UI.posts (ui (exec (MainLayout.loadPosts profile section) w))
           = UI.posts (ui w)
        /\ requests (exec (MainLayout.loadPosts profile section) w)
           = (requests w
                ++ [SelectPostsJoined (MainLayout.sectionFilters section)])
               %list).
Proof.
  intros t0 profile section w Hc. split; intros Hf.
  - unfold exec, PostFeed.loadPosts, async, try_finally, try_catch, bind,
      hasValidSupabaseConfig, await_read.
    cbn -[for_of]. rewrite Hc. cbn -[for_of].
    destruct (posts_select (backend w) (PostFeed.partitionFilters section))
      as [r|e]; cbn -[for_of] in *; [|auto].
    destruct (error r) as [pe|]; cbn -[for_of] in *; [auto|discriminate].
  - unfold exec, MainLayout.loadPosts, async, try_finally, try_catch, bind,
      hasValidSupabaseConfig, await_read.
    cbn. rewrite Hc. cbn.
    destruct (posts_select_joined (backend w)
                (MainLayout.sectionFilters section))
      as [r|e]; cbn in *; [|auto].
    destruct (error r) as [pe|]; cbn in *; [auto|discriminate].
Qed.

(** C6, amended. With no backend configured a feed read never fails and
    sends no request. PostFeed shows the fixed sample for [public] (also for
    an empty or undefined section), one post with counts 5 and 2; the fixed
    anonymous sample for [anonymous], one post with counts 3 and 1; and the
    empty list for every other section. MainLayout shows its three samples
    for every section, the first with counts 5 and 2. *)
Theorem demo_mode_feed :
  forall (moduleTime : Z) (profile : Profile.t) (section : jsstring)
         (w : World B),
    supabase_configured w = false ->
    (ui (exec (PostFeed.loadPosts moduleTime section) w)
     = UI.mk (if PostFeed.isPublicSection section
              then PostFeed.demoPostsData moduleTime
              else if strict_eq section "anonymous"
                   then PostFeed.demoAnonymousPostsData moduleTime
                   else [])
             false None
     /\ requests (exec (PostFeed.loadPosts moduleTime section) w)
        = requests w
     /\ PostFeed.isPublicSection (Some "public") = true
     /\ PostFeed.isPublicSection None = true
     /\ PostFeed.isPublicSection (Some "") = true
     /\ feedSummary (PostFeed.demoPostsData moduleTime)
        = [("1", Some (Count.mk (Some 5) (Some 2)))]
     /\ feedSummary (PostFeed.demoAnonymousPostsData moduleTime)
        = [("2", Some (Count.mk (Some 3) (Some 1)))])
    /\ (ui (exec (MainLayout.loadPosts profile section) w)
        = UI.mk (MainLayout.demoPosts profile section (clock w)) false None
        /\ requests (exec (MainLayout.loadPosts profile section) w)
           = requests w
        /\ feedSummary (MainLayout.demoPosts profile section (clock w))
           = [("1", Some (Count.mk (Some 5) (Some 2)));
              ("2", Some (Count.mk (Some 12) (Some 4)));
              ("3", Some (Count.mk (Some 8) (Some 6)))]).
Proof.
  intros t0 profile section w Hc.
  rewrite PostFeed_demo_load, MainLayout_demo_load by assumption.
  repeat split.
Qed.

(** *** Mutations *)

(** C7. In backend mode, when the write a handler sends rejects, the
    handler ends normally, the component state (posts, loading flag, error
    flag) is untouched, no alert is shown and the only trace is one
    [console.error] entry. This holds for the like toggle and the comment
    insert of PostFeed and of MainLayout. *)
Theorem mutation_failure_only_logged :
  forall (moduleTime : Z) (currentUser : Profile.t) (section : jsstring)
         (postId content : string) (w : World B),
    supabase_configured w = true ->
    (rejected
       (fst (likeMutation "likes" (UI.posts (ui w)) postId
               (Profile.id currentUser) (backend w))) = true ->
     outcome (PostFeed.handleLike moduleTime currentUser section postId) w
     = Normal tt
     /\ ui (exec (PostFeed.handleLike moduleTime currentUser section postId)
              w) = ui w
     /\ alerts (exec (PostFeed.handleLike moduleTime currentUser section
                        postId) w) = alerts w
     /\ console (exec (PostFeed.handleLike moduleTime currentUser section
                         postId) w)
        = (console w ++ [ConsoleError "Error toggling like:"])%list)
    /\ (rejected
          (fst (comments_insert (backend w) "comments"
                  (Profile.id currentUser) postId content)) = true ->
        outcome (PostFeed.handleComment moduleTime currentUser section
                   postId content) w = Normal tt
        /\ ui (exec (PostFeed.handleComment moduleTime currentUser section
                       postId content) w) = ui w
        /\ alerts (exec (PostFeed.handleComment moduleTime currentUser
                           section postId content) w) = alerts w
        /\ console (exec (PostFeed.handleComment moduleTime currentUser
                            section postId content) w)
           = (console w ++ [ConsoleError "Error adding comment:"])%list)
    /\ (rejected
          (fst (likeMutation "post_likes" (UI.posts (ui w)) postId
                  (Profile.id currentUser) (backend w))) = true ->
        outcome (MainLayout.handleLike currentUser section postId) w
        = Normal tt
        /\ ui (exec (MainLayout.handleLike currentUser section postId) w)
           = ui w
        /\ alerts (exec (MainLayout.handleLike currentUser section postId) w)
           = alerts w
        /\ console (exec (MainLayout.handleLike currentUser section postId)
                      w)
           = (console w ++ [ConsoleError "Error toggling like:"])%list)
    /\ (rejected
          (fst (comments_insert (backend w) "post_comments"
                  (Profile.id currentUser) postId content)) = true ->
        outcome (MainLayout.handleComment currentUser section postId content)
                w = Normal tt
        /\ ui (exec (MainLayout.handleComment currentUser section postId
                       content) w) = ui w
        /\ alerts (exec (MainLayout.handleComment currentUser section postId
                           content) w) = alerts w
        /\ console (exec (MainLayout.handleComment currentUser section
                            postId content) w)
           = (console w ++ [ConsoleError "Error adding comment:"])%list).
Proof.
  intros t0 u section postId content w Hc.
  split; [|split; [|split]]; intros Hr.
  - unfold outcome, exec, PostFeed.handleLike, async, try_catch, bind,
      hasValidSupabaseConfig, readPosts, await_write, likeMutation in *.
    cbn -[PostFeed.loadPosts]. rewrite Hc. cbn -[PostFeed.loadPosts].
    destruct (existingLike (UI.posts (ui w)) postId (Profile.id u)) as [l|];
      cbn -[PostFeed.loadPosts] in *.
    + destruct (fst (likes_delete (backend w) "likes" (Like.id l)));
        [discriminate|]. cbn. auto.
    + destruct (fst (likes_insert (backend w) "likes" (Profile.id u) postId));
        [discriminate|]. cbn. auto.
  - unfold outcome, exec, PostFeed.handleComment, async, try_catch, bind,
      hasValidSupabaseConfig, await_write in *.
    cbn -[PostFeed.loadPosts]. rewrite Hc. cbn -[PostFeed.loadPosts].
    destruct (fst (comments_insert (backend w) "comments" (Profile.id u)
                     postId content)); [discriminate|]. cbn. auto.
  - unfold outcome, exec, MainLayout.handleLike, async, try_catch, bind,
      hasValidSupabaseConfig, readPosts, await_write, likeMutation in *.
    cbn -[MainLayout.loadPosts]. rewrite Hc. cbn -[MainLayout.loadPosts].
    destruct (existingLike (UI.posts (ui w)) postId (Profile.id u)) as [l|];
      cbn -[MainLayout.loadPosts] in *.
    + destruct (fst (likes_delete (backend w) "post_likes" (Like.id l)));
        [discriminate|]. cbn. auto.
    + destruct (fst (likes_insert (backend w) "post_likes" (Profile.id u)
                       postId)); [discriminate|]. cbn. auto.
  - unfold outcome, exec, MainLayout.handleComment, async, try_catch, bind,
      hasValidSupabaseConfig, await_write in *.
    cbn -[MainLayout.loadPosts]. rewrite Hc. cbn -[MainLayout.loadPosts].
    destruct (fst (comments_insert (backend w) "post_comments" (Profile.id u)
                     postId content)); [discriminate|]. cbn. auto.
Qed.






(** Two demo-mode toggles never cancel: the like list is not touched by
    the first, so the second moves the count the same way again. *)
Lemma toggleLocal_twice (userId : string) (p : Post.t) :
  likesShown (toggleLocal userId (Post.id p)
                (toggleLocal userId (Post.id p) p))
  = likesShown p + (if isLikedBy userId p then -2 else 2)
  /\ Post.likes (toggleLocal userId (Post.id p)
                   (toggleLocal userId (Post.id p) p)) = Post.likes p.
Proof.
  unfold toggleLocal, likesShown, isLikedBy. rewrite String.eqb_refl.
  cbn. rewrite String.eqb_refl. cbn.
  destruct (Post.likes p) as [ls|]; [destruct (existsb _ ls)|];
    unfold or_zero; cbn -[Z.add Z.sub Z.eqb];
    rewrite ?zero_or_self; split; try reflexivity; lia.
Qed.

End Laws.

(* ===================================================================== *)
(** ** The like toggle against the in-memory backend *)
(* ===================================================================== *)

Lemma succeeds_ret {A : Type} (a : A) :
  succeeds (ret a) (fun _ b => b = a).
Proof. intros w _. exists a, w. repeat split. Qed.

Lemma succeeds_console_log (l : string) :
  succeeds (console_log l) (fun _ _ => True).
Proof. intros w _. do 2 eexists. repeat split. Qed.

Lemma succeeds_await_read {A : Type} (r : Request)
    (q : MemStore.t -> Await A) (f : MemStore.t -> A) :
  (forall s, MemStore.outage s = None -> q s = Resolved (f s)) ->
  succeeds (await_read r q) (fun s a => a = f s).
Proof.
  intros Hq w Hh. unfold await_read. rewrite (Hq _ Hh).
  do 2 eexists. repeat split.
Qed.

Lemma succeeds_bind {A C : Type} (c : Js MemStore.t A)
    (k : A -> Js MemStore.t C) (Q : MemStore.t -> A -> Prop)
    (R : MemStore.t -> C -> Prop) :
  succeeds c Q ->
  (forall a, succeeds (k a) (fun s b => Q s a -> R s b)) ->
  succeeds (bind c k) R.
Proof.
  intros Hc Hk w Hh. unfold bind.
  destruct (Hc w Hh) as (a & w1 & -> & Eb & Hq).
  destruct (Hk a w1) as (b & w2 & -> & Eb2 & Hr); [congruence|].
  exists b, w2. repeat split; [congruence|].
  rewrite Eb in Hr. auto.
Qed.

Lemma succeeds_weaken {A : Type} (c : Js MemStore.t A)
    (Q R : MemStore.t -> A -> Prop) :
  succeeds c Q -> (forall s a, Q s a -> R s a) -> succeeds c R.
Proof.
  intros Hc HQR w Hh. destruct (Hc w Hh) as (a & w1 & E & Eb & Hq).
  exists a, w1. auto.
Qed.

Lemma succeeds_when (b : bool) (c : Js MemStore.t unit) :
  succeeds c (fun _ _ => True) -> succeeds (when b c) (fun _ _ => True).
Proof.
  destruct b; cbn; [trivial|]. intros ?.
  eapply succeeds_weaken; [apply succeeds_ret|trivial].
Qed.

Lemma succeeds_for_of {A C : Type} (body : A -> Js MemStore.t C)
    (xs : list A) :
  (forall x, succeeds (body x) (fun _ _ => True)) ->
  succeeds (for_of xs body) (fun _ _ => True).
Proof.
  intros Hb. induction xs as [|x xs IH]; cbn.
  - eapply succeeds_weaken; [apply succeeds_ret|trivial].
  - eapply succeeds_bind; [apply Hb|]. intros y.
    eapply succeeds_bind; [apply IH|]. intros ys.
    eapply succeeds_weaken; [apply succeeds_ret|trivial].
Qed.

Lemma succeeds_withCommentProfile section comment :
  succeeds (PostFeed.withCommentProfile section comment) (fun _ _ => True).
Proof.
  unfold PostFeed.withCommentProfile.
  eapply succeeds_bind with (Q := fun _ _ => True).
  - destruct (negb (strict_eq section "anonymous")).
    + eapply succeeds_bind.
      * apply succeeds_await_read with
          (f := fun s =>
                  match MemStore.find_profile s (CommentRow.user_id comment)
                  with
                  | Some a => {| data := Some a; error := None |}
                  | None =>
                      {| data := None;
                         error := Some {| message := "no single row" |} |}
                  end).
        intros s Hs. cbn. unfold MemStore.answer_single. rewrite Hs.
        destruct (MemStore.find_profile s (CommentRow.user_id comment));
          reflexivity.
      * intros a. eapply succeeds_weaken; [apply succeeds_ret|trivial].
    + eapply succeeds_weaken; [apply succeeds_ret|trivial].
  - intros a. eapply succeeds_weaken; [apply succeeds_ret|trivial].
Qed.

Lemma succeeds_withProfile section row :
  succeeds (PostFeed.withProfile section row)
    (fun s p =>
       Post.id p = PostRow.id row
       /\ Post.likes p = Some (MemStore.likes_of s "likes" (PostRow.id row))).
Proof.
  unfold PostFeed.withProfile.
  eapply succeeds_bind; [apply succeeds_console_log|]. intros ?.
  eapply succeeds_bind with (Q := fun _ _ => True).
  { destruct (negb (strict_eq section "anonymous")).
    - eapply succeeds_bind.
      + apply succeeds_await_read with
          (f := fun s =>
                  match MemStore.find_profile s (PostRow.user_id row) with
                  | Some a => {| data := Some a; error := None |}
                  | None =>
                      {| data := None;
                         error := Some {| message := "no single row" |} |}
                  end).
        intros s Hs. cbn. unfold MemStore.answer_single. rewrite Hs.
        destruct (MemStore.find_profile s (PostRow.user_id row));
          reflexivity.
      + intros ?.
        eapply succeeds_bind; [apply succeeds_console_log|]. intros ?.
        eapply succeeds_bind;
          [apply succeeds_when; apply succeeds_console_log|]. intros ?.
        eapply succeeds_weaken; [apply succeeds_ret|trivial].
    - eapply succeeds_weaken; [apply succeeds_ret|trivial]. }
  intros profile.
  eapply succeeds_bind.
  { apply succeeds_await_read with
      (f := fun s =>
              {| data := Some (MemStore.likes_of s "likes" (PostRow.id row));
                 error := None |}).
    intros s Hs. cbn. unfold MemStore.answer. rewrite Hs. reflexivity. }
  intros rl.
  eapply succeeds_bind; [apply succeeds_console_log|]. intros ?.
  eapply succeeds_bind;
    [apply succeeds_when; apply succeeds_console_log|]. intros ?.
  eapply succeeds_bind with (Q := fun _ _ => True).
  { eapply succeeds_weaken.
    - apply succeeds_await_read with
        (f := fun s =>
                {| data :=
                     Some (map (fun c =>
                                  CommentRow.mk (MemStore.comment_id c)
                                    (MemStore.comment_content c)
                                    (MemStore.comment_created_at c)
                                    (MemStore.comment_user_id c))
                               (MemStore.comments_of s "comments"
                                  (PostRow.id row)));
                   error := None |}).
      intros s Hs. cbn. unfold MemStore.answer. rewrite Hs. reflexivity.
    - trivial. }
  intros rc.
  eapply succeeds_bind; [apply succeeds_console_log|]. intros ?.
  eapply succeeds_bind;
    [apply succeeds_when; apply succeeds_console_log|]. intros ?.
  eapply succeeds_bind with (Q := fun _ _ => True).
  { destruct (data rc).
    - apply succeeds_for_of. intros c. apply succeeds_withCommentProfile.
    - eapply succeeds_weaken; [apply succeeds_ret|trivial]. }
  intros cwp.
  eapply succeeds_weaken; [apply succeeds_ret|].
  cbn. intros s p -> _ _ _ _ _ _ -> _. cbn. auto.
Qed.

Lemma succeeds_for_of_Forall2 {A C : Type} (body : A -> Js MemStore.t C)
    (R : MemStore.t -> A -> C -> Prop) (xs : list A) :
  (forall x, succeeds (body x) (fun s y => R s x y)) ->
  succeeds (for_of xs body) (fun s ys => Forall2 (R s) xs ys).
Proof.
  intros Hb. induction xs as [|x xs IH]; cbn.
  - eapply succeeds_weaken; [apply succeeds_ret|].
    intros s a ->. constructor.
  - eapply succeeds_bind; [apply Hb|]. intros y.
    eapply succeeds_bind; [apply IH|]. intros ys.
    eapply succeeds_weaken; [apply succeeds_ret|].
    cbn. intros s a -> Hys Hy. constructor; assumption.
Qed.

Lemma load_inSync (t0 : Z) (section : jsstring) (w : World MemStore.t) :
  supabase_configured w = true ->
  MemStore.outage (backend w) = None ->
  backend (exec (PostFeed.loadPosts t0 section) w) = backend w
  /\ inSync section (exec (PostFeed.loadPosts t0 section) w).
Proof.
  intros Hc Hh. unfold inSync.
  unfold exec, PostFeed.loadPosts, async, try_finally, try_catch, bind,
    hasValidSupabaseConfig, await_read.
  cbn -[for_of MemStore.select_posts]. rewrite Hc.
  cbn -[for_of MemStore.select_posts].
  unfold MemStore.answer. rewrite Hh. cbn -[for_of MemStore.select_posts].
  destruct (MemStore.select_posts (backend w)
              (PostFeed.partitionFilters section)) as [|row rows] eqn:Erows;
    cbn -[for_of MemStore.select_posts].
  - rewrite Erows. repeat split; auto.
  - match goal with
    | |- context [for_of ?xs ?f ?w0] =>
        destruct (succeeds_for_of_Forall2 f _ xs
                    (fun x => succeeds_withProfile section x) w0 Hh)
          as (ps & w1 & E & Eb & Hps);
        destruct (reader_for_of xs f (reader_withProfile section))
          as [Fr _];
        destruct (Fr w0) as (_ & _ & Fc & _); unfold exec in Fc;
        rewrite E in Fc
    end.
    rewrite E. cbn -[for_of MemStore.select_posts] in *.
    rewrite Eb, Erows. repeat split; auto. congruence.
Qed.

Lemma existingLike_inSync (s : MemStore.t) (userId postId : string)
    (rows : list PostRow.t) (posts : list Post.t) :
  Forall2 (fun row p =>
             Post.id p = PostRow.id row
             /\ Post.likes p
                = Some (MemStore.likes_of s "likes" (PostRow.id row)))
          rows posts ->
  In postId (map PostRow.id rows) ->
  existingLike posts postId userId
  = find (fun l => (Like.user_id l =? userId)%string)
         (MemStore.likes_of s "likes" postId).
Proof.
  unfold existingLike.
  induction 1 as [|row p rows posts [Hid Hlikes] _ IH]; cbn; [tauto|].
  intros Hin. destruct (Post.id p =? postId)%string eqn:E.
  - apply String.eqb_eq in E. rewrite Hlikes. congruence.
  - apply String.eqb_neq in E. destruct Hin as [Hin|Hin]; [congruence|].
    apply IH. exact Hin.
Qed.

Lemma handleLike_inSync (t0 : Z) (u : Profile.t) (section : jsstring)
    (postId : string) (w : World MemStore.t) :
  inSync section w ->
  In postId
     (map PostRow.id
          (MemStore.select_posts (backend w)
             (PostFeed.partitionFilters section))) ->
  backend (exec (PostFeed.handleLike t0 u section postId) w)
  = toggled (backend w) "likes" (Profile.id u) postId
  /\ inSync section (exec (PostFeed.handleLike t0 u section postId) w).
Proof.
  intros (Hc & Hh & Hsync) Hin.
  pose proof (@existingLike_inSync (backend w) (Profile.id u) postId _ _
                Hsync Hin) as Hex.
  unfold exec, PostFeed.handleLike, async, try_catch, bind,
    hasValidSupabaseConfig, readPosts, await_write, detached, toggled.
  cbn -[PostFeed.loadPosts MemStore.likes_of]. rewrite Hc.
  cbn -[PostFeed.loadPosts MemStore.likes_of]. rewrite Hex.
  destruct (find (fun l => (Like.user_id l =? Profile.id u)%string)
              (MemStore.likes_of (backend w) "likes" postId)) as [l|];
    cbn -[PostFeed.loadPosts MemStore.likes_of];
    unfold MemStore.write, MemStore.answer; rewrite Hh;
    cbn -[PostFeed.loadPosts MemStore.likes_of];
    match goal with
    | |- context [PostFeed.loadPosts t0 section ?w1] =>
        destruct (load_inSync t0 section w1 Hc eq_refl) as [Eb Hs];
        unfold exec in Eb, Hs
    end; split; [rewrite Eb; reflexivity|exact Hs
                |rewrite Eb; reflexivity|exact Hs].
Qed.

Lemma find_like_of_pair (s : MemStore.t) (table userId postId : string) :
  find (fun l => (Like.user_id l =? userId)%string)
       (MemStore.likes_of s table postId)
  = option_map (fun l => Like.mk (MemStore.like_id l)
                                 (MemStore.like_user_id l))
      (find (pairRow table userId postId) (MemStore.likes s)).
Proof.
  unfold MemStore.likes_of, pairRow.
  induction (MemStore.likes s) as [|l ls IH]; cbn; [reflexivity|].
  destruct ((MemStore.like_table l =? table)%string
            && (MemStore.like_post_id l =? postId)%string); cbn.
  - destruct (MemStore.like_user_id l =? userId)%string; [reflexivity|].
    exact IH.
  - exact IH.
Qed.

Lemma liked_existsb (s : MemStore.t) (table userId postId : string) :
  liked s table userId postId
  = existsb (pairRow table userId postId) (MemStore.likes s).
Proof. reflexivity. Qed.

Lemma find_none_existsb {A : Type} (f : A -> bool) (l : list A) :
  find f l = None -> existsb f l = false.
Proof.
  induction l as [|x l IH]; cbn; [reflexivity|].
  destruct (f x); [discriminate|]. exact IH.
Qed.


Lemma find_some_existsb {A : Type} (f : A -> bool) (l : list A) (x : A) :
  find f l = Some x -> existsb f l = true.
Proof.
  intros E. apply existsb_exists. exists x. apply find_some in E. exact E.
Qed.














(* ===================================================================== *)
(** ** Concrete runs *)
(* ===================================================================== *)

(** The count invariant on a first load of the sample store. *)
Lemma backend_load_counts_match_witness :
  supabase_configured Sample.online = true
  /\ forallb countsMatch (UI.posts (ui Sample.online)) = true
  /\ forallb countsMatch
       (UI.posts
          (ui (exec (PostFeed.loadPosts 0 (Some "public")) Sample.online)))
     = true
  /\ forallb countsMatch
       (UI.posts
          (ui (exec (MainLayout.loadPosts Sample.alice (Some "public"))
                 Sample.online)))
     = true.
Proof.
  split; [reflexivity|]. split; [reflexivity|].
  apply (backend_load_counts_match 0 Sample.alice (Some "public")
           Sample.online); reflexivity.
Defined.

(** C2, as stated, fails on the demo posts: the first PostFeed sample shows
    5 likes and 2 comments next to empty like and comment lists, and so do
    MainLayout's samples. *)
Lemma demo_counts_differ_from_lists :
  map (fun p => (Post._count p, Post.likes p, Post.comments p))
      (UI.posts
         (ui (exec (PostFeed.loadPosts 0 (Some "public")) Sample.demo)))
  = [(Some (Count.mk (Some 5) (Some 2)), Some [], Some [])]
  /\ forallb countsMatch
       (UI.posts
          (ui (exec (PostFeed.loadPosts 0 (Some "public")) Sample.demo)))
     = false
  /\ forallb countsMatch
       (UI.posts
          (ui (exec (MainLayout.loadPosts Sample.alice (Some "public"))
                 Sample.demo)))
     = false.
Proof. repeat (split; [vm_compute; reflexivity|]). vm_compute; reflexivity. Qed.

(** The community partition of the sample store. *)
Lemma partition_resolver_filters_witness :
  (matches_all (PostFeed.partitionFilters (Some "chess-club"))
     (PostRow.mk "p4" "u2" "club news" None None (Some "public")
        (Some "chess-club") (Some false) 40 40) = true
   <-> Some "chess-club" = Some "chess-club")
  /\ exists rest,
       requests (exec (PostFeed.loadPosts 0 (Some "chess-club"))
                   Sample.online)
       = (requests Sample.online
            ++ SelectPosts (PostFeed.partitionFilters (Some "chess-club"))
               :: rest)%list.
Proof.
  destruct (@partition_resolver_filters MemStore.t MemStore.supabase)
    as (_ & _ & Hcommunity & _ & Hsent).
  split.
  - apply (Hcommunity "chess-club"); discriminate.
  - apply (Hsent 0 (Some "chess-club") Sample.online). reflexivity.
Defined.

(** A failing fetch after an earlier successful load. *)
Lemma failed_fetch_reports_error_witness :
  (UI.loading
     (ui (exec (PostFeed.loadPosts 0 (Some "public"))
            (Sample.stale Sample.failing))) = false
   /\ truthy
        (UI.error
           (ui (exec (PostFeed.loadPosts 0 (Some "public"))
                  (Sample.stale Sample.failing)))) = true
   /\ UI.posts
        (ui (exec (PostFeed.loadPosts 0 (Some "public"))
               (Sample.stale Sample.failing)))
      = UI.posts (ui (Sample.stale Sample.failing))
   /\ requests
        (exec (PostFeed.loadPosts 0 (Some "public"))
           (Sample.stale Sample.failing))
      = (requests (Sample.stale Sample.failing)
           ++ [SelectPosts (PostFeed.partitionFilters (Some "public"))])%list)
  /\ (UI.loading
        (ui (exec (MainLayout.loadPosts Sample.alice (Some "public"))
               (Sample.stale Sample.failing))) = false
      /\ truthy
           (UI.error
              (ui (exec (MainLayout.loadPosts Sample.alice (Some "public"))
                     (Sample.stale Sample.failing)))) = true
      /\ UI.posts
           (ui (exec (MainLayout.loadPosts Sample.alice (Some "public"))
                  (Sample.stale Sample.failing)))
         = UI.posts (ui (Sample.stale Sample.failing))
      /\ requests
           (exec (MainLayout.loadPosts Sample.alice (Some "public"))
              (Sample.stale Sample.failing))
         = (requests (Sample.stale Sample.failing)
              ++ [SelectPostsJoined
                    (MainLayout.sectionFilters (Some "public"))])%list).
Proof.
  destruct (failed_fetch_reports_error 0 Sample.alice (Some "public")
              (Sample.stale Sample.failing) eq_refl) as [HF HM].
  split; [apply HF|apply HM]; vm_compute; reflexivity.
Defined.

(** C4, as stated, fails when posts were already shown: the fetch rejects,
    the flags are set as claimed, but the posts list still holds the two
    posts of the earlier load. *)
Lemma failed_fetch_keeps_stale_posts :
  supabase_configured (Sample.stale Sample.unreachable) = true
  /\ posts_select (backend (Sample.stale Sample.unreachable))
       (PostFeed.partitionFilters (Some "public"))
     = Rejected (ErrorObject "Failed to fetch")
  /\ ui (exec (PostFeed.loadPosts 0 (Some "public"))
           (Sample.stale Sample.unreachable))
     = UI.mk (UI.posts (ui (Sample.stale Sample.unreachable))) false
             (Some "Failed to load posts: Failed to fetch")
  /\ map Post.id
         (UI.posts
            (ui (exec (PostFeed.loadPosts 0 (Some "public"))
                   (Sample.stale Sample.unreachable))))
     = ["p3"; "p2"]
  /\ UI.posts
       (ui (exec (PostFeed.loadPosts 0 (Some "public"))
              (Sample.stale Sample.unreachable))) <> [].
Proof.
  repeat (split; [vm_compute; reflexivity|]). vm_compute. discriminate.
Qed.

(** Demo mode on the public partition. *)
Lemma demo_mode_feed_witness :
  supabase_configured Sample.demo = false
  /\ UI.posts (ui (exec (PostFeed.loadPosts 0 (Some "public")) Sample.demo))
     = PostFeed.demoPostsData 0
  /\ feedSummary (PostFeed.demoPostsData 0)
     = [("1", Some (Count.mk (Some 5) (Some 2)))].
Proof.
  destruct (demo_mode_feed 0 Sample.alice (Some "public") Sample.demo
              eq_refl) as ((Hui & _ & _ & _ & _ & Hsum & _) & _).
  split; [reflexivity|]. split; [|exact Hsum].
  rewrite Hui. reflexivity.
Defined.

(** C6, as stated, fails for a community section: in demo mode PostFeed
    shows no post at all there. *)
Lemma demo_mode_community_feed_empty :
  supabase_configured Sample.demo = false
  /\ ui (exec (PostFeed.loadPosts 0 (Some "chess-club")) Sample.demo)
     = UI.mk [] false None.
Proof. split; vm_compute; reflexivity. Qed.

(** A rejected like insert and a rejected comment insert. *)
Lemma mutation_failure_only_logged_witness :
  (outcome (PostFeed.handleLike 0 Sample.alice (Some "public") "p3")
           (Sample.stale Sample.unreachable) = Normal tt
   /\ ui (exec (PostFeed.handleLike 0 Sample.alice (Some "public") "p3")
            (Sample.stale Sample.unreachable))
      = ui (Sample.stale Sample.unreachable)
   /\ alerts (exec (PostFeed.handleLike 0 Sample.alice (Some "public") "p3")
                (Sample.stale Sample.unreachable))
      = alerts (Sample.stale Sample.unreachable)
   /\ console (exec (PostFeed.handleLike 0 Sample.alice (Some "public") "p3")
                 (Sample.stale Sample.unreachable))
      = (console (Sample.stale Sample.unreachable)
           ++ [ConsoleError "Error toggling like:"])%list)
  /\ (outcome (MainLayout.handleComment Sample.alice (Some "public") "p3"
                 "hi") (Sample.stale Sample.unreachable) = Normal tt
      /\ ui (exec (MainLayout.handleComment Sample.alice (Some "public")
                     "p3" "hi") (Sample.stale Sample.unreachable))
         = ui (Sample.stale Sample.unreachable)
      /\ alerts (exec (MainLayout.handleComment Sample.alice (Some "public")
                         "p3" "hi") (Sample.stale Sample.unreachable))
         = alerts (Sample.stale Sample.unreachable)
      /\ console (exec (MainLayout.handleComment Sample.alice
                          (Some "public") "p3" "hi")
                    (Sample.stale Sample.unreachable))
         = (console (Sample.stale Sample.unreachable)
              ++ [ConsoleError "Error adding comment:"])%list).
Proof.
  destruct (mutation_failure_only_logged 0 Sample.alice (Some "public")
              "p3" "hi" (Sample.stale Sample.unreachable) eq_refl)
    as (HL & _ & _ & HC).
  split; [apply HL|apply HC]; vm_compute; reflexivity.
Defined.


(** C1 (defect). MainLayout on the anonymous partition: in demo mode the
    first sample carries the signed-in user's own profile and the other two
    carry profile objects; in backend mode the joined select brings the
    author's profile and every commenter's profile along, and the load keeps
    them. *)
Theorem MainLayout_anonymous_exposes_profiles :
  map Post.profiles
      (UI.posts
         (ui (exec (MainLayout.loadPosts Sample.alice (Some "anonymous"))
                Sample.demo)))
  = [ Some Sample.alice;
      Some (Profile.mk "demo-user-2" None None None
              (Some "nature@example.com") None);
      Some (Profile.mk "demo-user-3" None None None
              (Some "books@example.com") None) ]
  /\ map (fun p =>
            (Post.id p, Post.is_anonymous p, Post.profiles p,
             map Comment.profiles (resolved (Post.comments p))))
         (UI.posts
            (ui (exec (MainLayout.loadPosts Sample.bob (Some "anonymous"))
                   Sample.online)))
     = [("p1", Some true, Some Sample.alice, [Some Sample.bob])]
  /\ forallb authorHidden
       (UI.posts
          (ui (exec (MainLayout.loadPosts Sample.bob (Some "anonymous"))
                 Sample.online)))
     = false.
Proof. repeat (split; [vm_compute; reflexivity|]). vm_compute; reflexivity. Qed.

(** PostFeed on the same store and partition hides both. *)
Example PostFeed_anonymous_sample :
  map (fun p =>
         (Post.id p, Post.profiles p,
          map Comment.profiles (resolved (Post.comments p))))
      (UI.posts
         (ui (exec (PostFeed.loadPosts 0 (Some "anonymous")) Sample.online)))
  = [("p1", None, [None; None])].
Proof. vm_compute; reflexivity. Qed.



(** Why the post has to be one of the current partition: the public feed
    never shows the chess club's p4, so a toggle on p4 finds no like in the
    posts held, before as after its reload, and each of the two toggles
    inserts a row. *)
Example like_outside_partition_accumulates :
  liked (backend Sample.online) "likes" "u1" "p4" = false
  /\ map
       (fun l => (MemStore.like_user_id l, MemStore.like_post_id l))
       (filter (pairRow "likes" "u1" "p4")
          (MemStore.likes
             (backend
                (exec (PostFeed.handleLike 0 Sample.alice (Some "public")
                         "p4")
                   (exec (PostFeed.handleLike 0 Sample.alice (Some "public")
                            "p4")
                      (exec (PostFeed.loadPosts 0 (Some "public"))
                         Sample.online))))))
     = [("u1", "p4"); ("u1", "p4")].
Proof. split; vm_compute; reflexivity. Qed.

(** In demo mode two like toggles in a row by the same user on the same
    post do not cancel on the shown count, which goes 5, 6, 7, while the
    like list stays empty; in PostFeed and in MainLayout. *)
Example demo_double_like_drifts :
  (likesCountOf
     (UI.posts (ui (exec (PostFeed.loadPosts 0 (Some "public")) Sample.demo)))
     "1" = Some 5
   /\ likesCountOf
        (UI.posts
           (ui (exec (PostFeed.handleLike 0 Sample.alice (Some "public") "1")
                  (exec (PostFeed.loadPosts 0 (Some "public"))
                     Sample.demo))))
        "1" = Some 6
   /\ likesCountOf
        (UI.posts
           (ui (exec (PostFeed.handleLike 0 Sample.alice (Some "public") "1")
                  (exec (PostFeed.handleLike 0 Sample.alice (Some "public")
                           "1")
                     (exec (PostFeed.loadPosts 0 (Some "public"))
                        Sample.demo)))))
        "1" = Some 7
   /\ map Post.likes
        (UI.posts
           (ui (exec (PostFeed.handleLike 0 Sample.alice (Some "public") "1")
                  (exec (PostFeed.handleLike 0 Sample.alice (Some "public")
                           "1")
                     (exec (PostFeed.loadPosts 0 (Some "public"))
                        Sample.demo)))))
      = [Some []])
  /\ (likesCountOf
        (UI.posts
           (ui (exec (MainLayout.loadPosts Sample.alice (Some "public"))
                  Sample.demo)))
        "1" = Some 5
      /\ likesCountOf
           (UI.posts
              (ui (exec (MainLayout.handleLike Sample.alice (Some "public")
                           "1")
                     (exec (MainLayout.handleLike Sample.alice
                              (Some "public") "1")
                        (exec (MainLayout.loadPosts Sample.alice
                                 (Some "public"))
                           Sample.demo)))))
           "1" = Some 7).
Proof.
  split; repeat (split; [vm_compute; reflexivity|]); vm_compute; reflexivity.
Qed.

(** In backend mode, on the sample store, the second toggle does undo the
    first: the user's like appears after one toggle and is gone after
    two. *)
Example backend_double_like_sample :
  map (isLikedBy "u1")
      (UI.posts
         (ui (exec (PostFeed.loadPosts 0 (Some "public")) Sample.online)))
  = [false; false]
  /\ map (isLikedBy "u1")
         (UI.posts
            (ui (exec (PostFeed.handleLike 0 Sample.alice (Some "public")
                         "p3")
                   (exec (PostFeed.loadPosts 0 (Some "public"))
                      Sample.online))))
     = [true; false]
  /\ map (isLikedBy "u1")
         (UI.posts
            (ui (exec (PostFeed.handleLike 0 Sample.alice (Some "public")
                         "p3")
                   (exec (PostFeed.handleLike 0 Sample.alice (Some "public")
                            "p3")
                      (exec (PostFeed.loadPosts 0 (Some "public"))
                         Sample.online)))))
     = [false; false].
Proof. repeat (split; [vm_compute; reflexivity|]). vm_compute; reflexivity. Qed.

(* ===================================================================== *)
(** ** Further properties of the feed components *)
(* ===================================================================== *)

Section MoreLaws.
Context {B : Type} `{Supabase B}.


Lemma completes_ret {A : Type} (P : B -> Prop) (a : A) :
  completes P (ret a) (fun _ b => b = a).
Proof. intros w _. exists a, w. repeat split. Qed.

Lemma completes_console_log (P : B -> Prop) (l : string) :
  completes P (console_log l) (fun _ _ => True).
Proof. intros w _. do 2 eexists. repeat split. Qed.

Lemma completes_await_read {A : Type} (P : B -> Prop) (r : Request)
    (q : B -> Await A) :
  (forall b, P b -> rejected (q b) = false) ->
  completes P (await_read r q) (fun b a => q b = Resolved a).
Proof.
  intros Hq w Hp. unfold await_read. specialize (Hq _ Hp).
  destruct (q (backend w)) as [a|e]; [|discriminate].
  do 2 eexists. repeat split.
Qed.

Lemma completes_bind {A C : Type} (P : B -> Prop) (c : Js B A)
    (k : A -> Js B C) (Q : B -> A -> Prop) (R : B -> C -> Prop) :
  completes P c Q ->
  (forall a, completes P (k a) (fun b y => Q b a -> R b y)) ->
  completes P (bind c k) R.
Proof.
  intros Hc Hk w Hp. unfold bind.
  destruct (Hc w Hp) as (a & w1 & -> & Eb & Hq).
  destruct (Hk a w1) as (y & w2 & -> & Eb2 & Hr); [rewrite Eb; exact Hp|].
  exists y, w2. repeat split; [congruence|].
  rewrite Eb in Hr. auto.
Qed.

Lemma completes_weaken {A : Type} (P : B -> Prop) (c : Js B A)
    (Q R : B -> A -> Prop) :
  completes P c Q -> (forall b a, Q b a -> R b a) -> completes P c R.
Proof.
  intros Hc HQR w Hp. destruct (Hc w Hp) as (a & w1 & E & Eb & Hq).
  exists a, w1. auto.
Qed.

Lemma completes_when (P : B -> Prop) (b : bool) (c : Js B unit) :
  completes P c (fun _ _ => True) -> completes P (when b c) (fun _ _ => True).
Proof.
  destruct b; cbn; [trivial|]. intros _.
  eapply completes_weaken; [apply completes_ret|trivial].
Qed.

Lemma completes_for_of {A C : Type} (P : B -> Prop) (body : A -> Js B C)
    (R : B -> A -> C -> Prop) (xs : list A) :
  (forall x, completes P (body x) (fun b y => R b x y)) ->
  completes P (for_of xs body) (fun b ys => Forall2 (R b) xs ys).
Proof.
  intros Hb. induction xs as [|x xs IH]; cbn.
  - eapply completes_weaken; [apply completes_ret|].
    intros b a ->. constructor.
  - eapply completes_bind; [apply Hb|]. intros y.
    eapply completes_bind; [apply IH|]. intros ys.
    eapply completes_weaken; [apply completes_ret|].
    cbn. intros b a -> Hys Hy. constructor; assumption.
Qed.

Lemma completes_withCommentProfile section comment :
  completes subfetchesResolve (PostFeed.withCommentProfile section comment)
    (fun b c => commentEnriched section b comment c).
Proof.
  unfold PostFeed.withCommentProfile.
  eapply completes_bind with
    (Q := fun b pr =>
            pr = if strict_eq section "anonymous" then None
                 else dataOf (profiles_single b (CommentRow.user_id comment))).
  - destruct (strict_eq section "anonymous"); cbn.
    + apply completes_ret.
    + eapply completes_bind.
      * apply completes_await_read. intros b Hb. apply Hb.
      * intros r. eapply completes_weaken; [apply completes_ret|].
        cbn. intros b pr0 -> ->. reflexivity.
  - intros pr. eapply completes_weaken; [apply completes_ret|].
    cbn. intros b c -> ->. repeat split.
Qed.

Lemma completes_withProfile section row :
  completes subfetchesResolve (PostFeed.withProfile section row)
    (fun b p =>
       rowKept row p /\ enriched section b row p
       /\ visibilityGiven section row p).
Proof.
  unfold PostFeed.withProfile.
  eapply completes_bind; [apply completes_console_log|]. intros ?.
  eapply completes_bind with
    (Q := fun b pr =>
            pr = if strict_eq section "anonymous" then None
                 else dataOf (profiles_single b (PostRow.user_id row))).
  { destruct (strict_eq section "anonymous"); cbn.
    - apply completes_ret.
    - eapply completes_bind.
      + apply completes_await_read. intros b Hb. apply Hb.
      + intros r.
        eapply completes_bind; [apply completes_console_log|]. intros ?.
        eapply completes_bind;
          [apply completes_when; apply completes_console_log|]. intros ?.
        eapply completes_weaken; [apply completes_ret|].
        cbn. intros b pr0 -> _ _ ->. reflexivity. }
  intros profile.
  eapply completes_bind.
  { apply completes_await_read. intros b Hb. apply Hb. }
  intros rl.
  eapply completes_bind; [apply completes_console_log|]. intros ?.
  eapply completes_bind;
    [apply completes_when; apply completes_console_log|]. intros ?.
  eapply completes_bind.
  { apply completes_await_read. intros b Hb. apply Hb. }
  intros rc.
  eapply completes_bind; [apply completes_console_log|]. intros ?.
  eapply completes_bind;
    [apply completes_when; apply completes_console_log|]. intros ?.
  eapply completes_bind with
    (Q := fun b cwp =>
            Forall2 (commentEnriched section b) (resolved (data rc)) cwp).
  { destruct (data rc); cbn.
    - apply completes_for_of. intros c. apply completes_withCommentProfile.
    - eapply completes_weaken; [apply completes_ret|].
      intros b ? ->. constructor. }
  intros cwp.
  eapply completes_weaken; [apply completes_ret|].
  cbn. intros b p -> Hc _ _ Hrc _ _ Hrl Hpr _.
  split; [repeat split|]. split; [|apply js_or_public_spec].
  unfold enriched. cbn.
  rewrite Hrl, Hrc. cbn. subst profile. auto.
Qed.



Lemma PostFeed_load_assembles (t0 : Z) (section : jsstring) (w : World B)
    (r : Response (list PostRow.t)) :
  supabase_configured w = true ->
  posts_select (backend w) (PostFeed.partitionFilters section) = Resolved r ->
  error r = None ->
  subfetchesResolve (backend w) ->
  exists ps,
    ui (exec (PostFeed.loadPosts t0 section) w) = UI.mk ps false None
    /\ Forall2 (fun row p =>
                  rowKept row p /\ enriched section (backend w) row p
                  /\ visibilityGiven section row p)
               (resolved (data r)) ps.
Proof.
  intros Hc Hq He Hs.
  unfold exec, PostFeed.loadPosts, async, try_finally, try_catch, bind,
    hasValidSupabaseConfig, await_read.
  cbn -[for_of]. rewrite Hc. cbn -[for_of]. rewrite Hq. cbn -[for_of].
  rewrite He.
  destruct (data r) as [[|row rows]|]; cbn -[for_of];
    try (exists []; split; [reflexivity|constructor]).
  match goal with
  | |- context [for_of ?xs ?f ?w0] =>
      destruct (completes_for_of (P := subfetchesResolve) f
                  (fun b x y =>
                     rowKept x y /\ enriched section b x y
                     /\ visibilityGiven section x y) xs
                  (fun x => completes_withProfile section x) w0 Hs)
        as (ps & w1 & E & Eb & Hps);
      destruct (reader_for_of xs f (reader_withProfile section)) as [Fr _];
      destruct (Fr w0) as (_ & Fu & _); unfold exec in Fu; rewrite E in Fu
  end.
  rewrite E. cbn -[for_of] in *. rewrite Fu. cbn.
  exists ps. split; [reflexivity|exact Hps].
Qed.

(** X1. In backend mode, when the post-list fetch succeeds and no
    sub-fetch rejects, PostFeed's load ends without error and holds exactly
    one post per fetched row, in fetch order, each with the columns of its
    row unchanged. *)
Theorem PostFeed_assembly_keeps_rows :
  forall (moduleTime : Z) (section : jsstring) (w : World B)
         (r : Response (list PostRow.t)),
    supabase_configured w = true ->
    posts_select (backend w) (PostFeed.partitionFilters section)
    = Resolved r ->
    error r = None ->
    subfetchesResolve (backend w) ->
    UI.error (ui (exec (PostFeed.loadPosts moduleTime section) w)) = None
    /\ UI.loading (ui (exec (PostFeed.loadPosts moduleTime section) w))
       = false
    /\ Forall2 rowKept (resolved (data r))
         (UI.posts (ui (exec (PostFeed.loadPosts moduleTime section) w))).
Proof.
  intros t0 section w r Hc Hq He Hs.
  destruct (PostFeed_load_assembles t0 section w Hc Hq He Hs)
    as (ps & -> & Hps).
  cbn. repeat split.
  eapply Forall2_impl; [|exact Hps]. intros row p (Hk & _ & _). exact Hk.
Qed.

(** X2. Under the same conditions every post carries what its own
    sub-fetches gave: the author's profile (none on the anonymous
    partition), the like list, and one comment per fetched comment with its
    author's profile. A sub-fetch answered with an error object stands for
    no profile, no likes, no comments; it does not stop the load. *)
Theorem PostFeed_enrichment_tolerates_errors :
  forall (moduleTime : Z) (section : jsstring) (w : World B)
         (r : Response (list PostRow.t)),
    supabase_configured w = true ->
    posts_select (backend w) (PostFeed.partitionFilters section)
    = Resolved r ->
    error r = None ->
    subfetchesResolve (backend w) ->
    Forall2 (enriched section (backend w)) (resolved (data r))
      (UI.posts (ui (exec (PostFeed.loadPosts moduleTime section) w))).
Proof.
  intros t0 section w r Hc Hq He Hs.
  destruct (PostFeed_load_assembles t0 section w Hc Hq He Hs)
    as (ps & -> & Hps).
  cbn. eapply Forall2_impl; [|exact Hps]. intros row p (_ & Hk & _).
  exact Hk.
Qed.



Ltac reader_steps :=
  repeat first
    [ apply reader_console_log
    | apply reader_await_read
    | apply reader_ret
    | apply reader_when
    | apply reader_withCommentProfile
    | apply reader_for_of; intros
    | apply reader_bind; [|intros]
    | match goal with
      | |- reader (if ?b then _ else _) => destruct b
      | |- reader (match ?d with Some _ => _ | None => _ end) => destruct d
      end ].

Lemma reader_frame {A : Type} (c : Js B A) (w w' : World B)
    (r : Completion A) :
  reader c -> c w = (r, w') -> backend w' = backend w.
Proof.
  intros [Fr _] E. destruct (Fr w) as (Eb & _). unfold exec in Eb.
  rewrite E in Eb. exact Eb.
Qed.

Lemma await_read_normal {A : Type} (rq : Request) (q : B -> Await A)
    (w w' : World B) (a : A) :
  await_read rq q w = (Normal a, w') -> q (backend w) = Resolved a.
Proof.
  unfold await_read. destruct (q (backend w)); intros E; [|discriminate].
  injection E as -> _. reflexivity.
Qed.

(** A post is assembled only if none of its own three sub-fetches
    rejected. *)
Lemma withProfile_normal_resolved section row (w w' : World B) p :
  PostFeed.withProfile section row w = (Normal p, w') ->
  (strict_eq section "anonymous" = false ->
   rejected (profiles_single (backend w) (PostRow.user_id row)) = false)
  /\ rejected (likes_select (backend w) (PostRow.id row)) = false
  /\ rejected (comments_select (backend w) (PostRow.id row)) = false.
Proof.
  unfold PostFeed.withProfile. intros E.
  apply bind_normal in E. destruct E as (? & w1 & E1 & E).
  apply reader_frame in E1; [|reader_steps].
  apply bind_normal in E. destruct E as (pr & w2 & E2 & E).
  assert (Hpr : strict_eq section "anonymous" = false ->
                rejected (profiles_single (backend w) (PostRow.user_id row))
                = false).
  { intros Ha. rewrite Ha in E2. cbn in E2.
    apply bind_normal in E2. destruct E2 as (rp & ? & E2 & _).
    apply await_read_normal in E2. rewrite E1 in E2. rewrite E2.
    reflexivity. }
  apply reader_frame in E2; [|reader_steps].
  apply bind_normal in E. destruct E as (rl & w3 & E3 & E).
  pose proof (await_read_normal _ _ _ E3) as Hl.
  apply reader_frame in E3; [|reader_steps].
  apply bind_normal in E. destruct E as (? & w4 & E4 & E).
  apply reader_frame in E4; [|reader_steps].
  apply bind_normal in E. destruct E as (? & w5 & E5 & E).
  apply reader_frame in E5; [|reader_steps].
  apply bind_normal in E. destruct E as (rc & w6 & E6 & _).
  apply await_read_normal in E6.
  split; [exact Hpr|]. split.
  - rewrite E2, E1 in Hl. rewrite Hl. reflexivity.
  - rewrite E5, E4, E3, E2, E1 in E6. rewrite E6. reflexivity.
Qed.

Lemma for_of_normal_each {A C : Type} (body : A -> Js B C)
    (Q : B -> A -> Prop) :
  (forall x, reader (body x)) ->
  (forall x w y w', body x w = (Normal y, w') -> Q (backend w) x) ->
  forall xs w ys w',
    for_of xs body w = (Normal ys, w') -> Forall (Q (backend w)) xs.
Proof.
  intros Hr Hb. induction xs as [|x xs IH]; cbn; intros w ys w' E.
  - constructor.
  - apply bind_normal in E. destruct E as (y & w1 & E1 & E).
    apply bind_normal in E. destruct E as (ys' & w2 & E2 & _).
    constructor; [eapply Hb; eassumption|].
    apply IH in E2. apply reader_frame in E1; [|apply Hr].
    rewrite E1 in E2. exact E2.
Qed.

Lemma neverReturns_ret {A : Type} (a : A) : neverReturns (ret a : Js B A).
Proof. intros w. discriminate. Qed.

Lemma neverReturns_console_log (l : string) :
  neverReturns (console_log l : Js B unit).
Proof. intros w. discriminate. Qed.

Lemma neverReturns_await_read {A : Type} (r : Request) (q : B -> Await A) :
  neverReturns (await_read r q).
Proof. intros w. unfold await_read. destruct (q (backend w)); discriminate. Qed.

Lemma neverReturns_bind {A C : Type} (c : Js B A) (k : A -> Js B C) :
  neverReturns c -> (forall a, neverReturns (k a)) -> neverReturns (bind c k).
Proof.
  intros Hc Hk w. unfold bind. specialize (Hc w).
  destruct (c w) as [[a| |e] w1]; cbn in *;
    [apply Hk|congruence|discriminate].
Qed.

Lemma neverReturns_when (b : bool) (c : Js B unit) :
  neverReturns c -> neverReturns (when b c).
Proof. destruct b; cbn; [trivial|intros _; apply neverReturns_ret]. Qed.

Lemma neverReturns_for_of {A C : Type} (xs : list A) (body : A -> Js B C) :
  (forall x, neverReturns (body x)) -> neverReturns (for_of xs body).
Proof.
  intros Hb. induction xs as [|x xs IH]; cbn.
  - apply neverReturns_ret.
  - apply neverReturns_bind; [apply Hb|]. intros y.
    apply neverReturns_bind; [apply IH|]. intros ys. apply neverReturns_ret.
Qed.

Lemma neverReturns_withProfile section row :
  neverReturns (PostFeed.withProfile section row).
Proof.
  unfold PostFeed.withProfile, PostFeed.withCommentProfile.
  repeat first
    [ apply neverReturns_console_log
    | apply neverReturns_await_read
    | apply neverReturns_ret
    | apply neverReturns_when
    | apply neverReturns_for_of; intros
    | apply neverReturns_bind; [|intros]
    | match goal with
      | |- neverReturns (if ?b then _ else _) => destruct b
      | |- neverReturns (match ?d with Some _ => _ | None => _ end) =>
          destruct d
      end ].
Qed.

(** X3. In backend mode, when the profile, likes or comments fetch of
    some fetched row rejects, nothing of the assembly is shown: the posts
    list is left as it was, the loading flag ends false and the error flag
    reads "Failed to load posts: ...". *)
Theorem PostFeed_rejected_subfetch_aborts :
  forall (moduleTime : Z) (section : jsstring) (w : World B)
         (r : Response (list PostRow.t)) (row : PostRow.t),
    supabase_configured w = true ->
    posts_select (backend w) (PostFeed.partitionFilters section)
    = Resolved r ->
    error r = None ->
    In row (resolved (data r)) ->
    (strict_eq section "anonymous" = false
     /\ rejected (profiles_single (backend w) (PostRow.user_id row)) = true)
    \/ rejected (likes_select (backend w) (PostRow.id row)) = true
    \/ rejected (comments_select (backend w) (PostRow.id row)) = true ->
    UI.posts (ui (exec (PostFeed.loadPosts moduleTime section) w))
    = UI.posts (ui w)
    /\ UI.loading (ui (exec (PostFeed.loadPosts moduleTime section) w))
       = false
    /\ exists e,
         UI.error (ui (exec (PostFeed.loadPosts moduleTime section) w))
         = Some ("Failed to load posts: " ++ thrown_message e)%string.
Proof.
  intros t0 section w r row Hc Hq He Hin Hrej.
  unfold exec, PostFeed.loadPosts, async, try_finally, try_catch, bind,
    hasValidSupabaseConfig, await_read.
  cbn -[for_of]. rewrite Hc. cbn -[for_of]. rewrite Hq. cbn -[for_of].
  rewrite He.
  destruct (data r) as [[|row0 rows]|]; cbn -[for_of] in *;
    try contradiction.
  match goal with
  | |- context [for_of ?xs ?f ?w0] =>
      pose proof (@for_of_normal_each _ _ f
                    (fun b x =>
                       (strict_eq section "anonymous" = false ->
                        rejected (profiles_single b (PostRow.user_id x))
                        = false)
                       /\ rejected (likes_select b (PostRow.id x)) = false
                       /\ rejected (comments_select b (PostRow.id x)) = false)
                    (reader_withProfile section)
                    (fun x w1 y w1' E =>
                       withProfile_normal_resolved section x w1 E)
                    xs w0) as Hall;
      pose proof (neverReturns_for_of xs f
                    (neverReturns_withProfile section) w0) as Hnr;
      destruct (reader_for_of xs f (reader_withProfile section)) as [Fr _];
      destruct (Fr w0) as (_ & Fu & _); unfold exec in Fu;
      destruct (for_of xs f w0) as [[ps| |e] w1]
  end; cbn -[for_of] in *.
  - exfalso. specialize (Hall ps w1 eq_refl).
    rewrite Forall_forall in Hall. specialize (Hall row Hin).
    destruct Hall as (Hp & Hl & Hm).
    destruct Hrej as [[Ha Hr]|[Hr|Hr]]; [rewrite (Hp Ha) in Hr| |];
      congruence.
  - congruence.
  - rewrite Fu. cbn. repeat split. exists e. reflexivity.
Qed.



Lemma js_or_public_truthy (v section : jsstring) :
  truthy (js_or v (js_or section (Some "public"))) = true.
Proof.
  unfold js_or. destruct (truthy v) eqn:Ev; [exact Ev|].
  destruct (truthy section) eqn:Es; [exact Es|reflexivity].
Qed.

Lemma withProfile_visibility section row (w w' : World B) p :
  PostFeed.withProfile section row w = (Normal p, w') ->
  truthy (Post.visibility p) = true.
Proof.
  unfold PostFeed.withProfile. intros E.
  repeat (apply bind_normal in E; destruct E as (? & ? & _ & E)).
  injection E as <- _. cbn. apply js_or_public_truthy.
Qed.

(** X4. PostFeed never holds a post without a visibility: if every post
    held before a load has a non-empty visibility, so has every post held
    after it, in both modes. In backend mode, when the fetch succeeds and
    no sub-fetch rejects, the visibility of each assembled post is that of
    its row when the row has a non-empty one; a row without one is given
    the section, or "public" when the section is absent or empty too. *)
Theorem PostFeed_posts_always_have_visibility :
  forall (moduleTime : Z) (section : jsstring) (w : World B),
    (forallb (fun p => truthy (Post.visibility p)) (UI.posts (ui w)) = true ->
     forallb (fun p => truthy (Post.visibility p))
       (UI.posts (ui (exec (PostFeed.loadPosts moduleTime section) w)))
     = true)
    /\ (Forall hasVisibility (UI.posts (ui w)) ->
        Forall hasVisibility
          (UI.posts (ui (exec (PostFeed.loadPosts moduleTime section) w))))
    /\ (forall r,
           supabase_configured w = true ->
           posts_select (backend w) (PostFeed.partitionFilters section)
           = Resolved r ->
           error r = None ->
           subfetchesResolve (backend w) ->
           Forall2 (visibilityGiven section) (resolved (data r))
             (UI.posts
                (ui (exec (PostFeed.loadPosts moduleTime section) w)))).
Proof.
  intros t0 section w.
  assert (Hinv : forallb (fun p => truthy (Post.visibility p))
                   (UI.posts (ui w)) = true ->
                 forallb (fun p => truthy (Post.visibility p))
                   (UI.posts (ui (exec (PostFeed.loadPosts t0 section) w)))
                 = true).
  { intros Hinv. destruct (supabase_configured w) eqn:Hc.
    - destruct (PostFeed_load_outcomes t0 section w Hc)
        as (_ & _ & [-> | [-> | (rows & w1 & w2 & E)]]);
        [assumption|reflexivity|].
      apply for_of_Forall with
        (P := fun p => truthy (Post.visibility p) = true) in E.
      + apply forallb_forall. rewrite Forall_forall in E. exact E.
      + intros x w0 y w' Ex. eapply withProfile_visibility; eassumption.
    - rewrite PostFeed_demo_load by assumption. cbn.
      destruct (PostFeed.isPublicSection section); [reflexivity|].
      destruct (strict_eq section "anonymous"); reflexivity. }
  split; [exact Hinv|]. split.
  - intros HF. apply Forall_forall. intros p Hp.
    apply truthy_hasVisibility.
    assert (Hb : forallb (fun p => truthy (Post.visibility p))
                   (UI.posts (ui w)) = true).
    { apply forallb_forall. intros q Hq. apply truthy_hasVisibility.
      rewrite Forall_forall in HF. exact (HF q Hq). }
    apply Hinv in Hb. rewrite forallb_forall in Hb. exact (Hb p Hp).
  - intros r Hc Hq He Hs.
    destruct (PostFeed_load_assembles t0 section w Hc Hq He Hs)
      as (ps & -> & Hps).
    cbn. eapply Forall2_impl; [|exact Hps]. intros row p (_ & _ & Hv).
    exact Hv.
Qed.

(** X5. In backend mode a fetch that succeeds with no rows (an empty or
    absent list) is not an error: posts is the empty list, both flags are
    clear, PostFeed has sent the one request and renders its "no posts yet"
    page, MainLayout renders its "no posts yet" box. *)
Theorem empty_partition_shows_empty_state :
  forall (moduleTime : Z) (profile : Profile.t) (section : jsstring)
         (w : World B),
    supabase_configured w = true ->
    (forall r,
        posts_select (backend w) (PostFeed.partitionFilters section)
        = Resolved r ->
        error r = None -> resolved (data r) = [] ->
        ui (exec (PostFeed.loadPosts moduleTime section) w)
        = UI.mk [] false None
        /\ requests (exec (PostFeed.loadPosts moduleTime section) w)
           = (requests w
                ++ [SelectPosts (PostFeed.partitionFilters section)])%list
        /\ exists form heading,
             PostFeedView.render section
               (ui (exec (PostFeed.loadPosts moduleTime section) w))
             = PostFeedView.Page form (PostFeedView.NoPostsYet heading))
    /\ (forall r,
           posts_select_joined (backend w) (MainLayout.sectionFilters section)
           = Resolved r ->
           error r = None -> resolved (data r) = [] ->
           ui (exec (MainLayout.loadPosts profile section) w)
           = UI.mk [] false None
           /\ MainLayoutView.renderFeed
                (ui (exec (MainLayout.loadPosts profile section) w))
              = MainLayoutView.NoPostsYet).
Proof.
  intros t0 profile section w Hc. split; intros r Hq He Hd.
  - unfold exec, PostFeed.loadPosts, async, try_finally, try_catch, bind,
      hasValidSupabaseConfig, await_read.
    cbn -[for_of]. rewrite Hc. cbn -[for_of]. rewrite Hq. cbn -[for_of].
    rewrite He.
    destruct (data r) as [[|row rows]|]; cbn -[for_of] in *;
      try discriminate; repeat split; do 2 eexists; reflexivity.
  - unfold exec, MainLayout.loadPosts, async, try_finally, try_catch, bind,
      hasValidSupabaseConfig, await_read.
    cbn. rewrite Hc. cbn. rewrite Hq. cbn. rewrite He. cbn.
    destruct (data r) as [ps|]; cbn in *; [subst ps|]; split; reflexivity.
Qed.

(** X6. After a failed post-list fetch in backend mode both components
    render the error box with the message of the error flag, whatever posts
    are still held from an earlier load. *)
Theorem failed_fetch_shows_error_not_posts :
  forall (moduleTime : Z) (profile : Profile.t) (section : jsstring)
         (w : World B),
    supabase_configured w = true ->
    (fetchFailed
       (posts_select (backend w) (PostFeed.partitionFilters section)) = true ->
     exists msg,
       PostFeedView.render section
         (ui (exec (PostFeed.loadPosts moduleTime section) w))
       = PostFeedView.ErrorLoadingPosts msg
       /\ UI.error (ui (exec (PostFeed.loadPosts moduleTime section) w))
          = Some msg)
    /\ (fetchFailed
          (posts_select_joined (backend w)
             (MainLayout.sectionFilters section)) = true ->
        exists msg,
          MainLayoutView.renderFeed
            (ui (exec (MainLayout.loadPosts profile section) w))
          = MainLayoutView.ErrorBox msg
          /\ UI.error (ui (exec (MainLayout.loadPosts profile section) w))
             = Some msg).
Proof.
  intros t0 profile section w Hc. split; intros Hf.
  - unfold exec, PostFeed.loadPosts, async, try_finally, try_catch, bind,
      hasValidSupabaseConfig, await_read.
    cbn -[for_of]. rewrite Hc. cbn -[for_of].
    destruct (posts_select (backend w) (PostFeed.partitionFilters section))
      as [r|e]; cbn -[for_of] in *.
    + destruct (error r) as [pe|]; cbn -[for_of] in *; [|discriminate].
      eexists. split; reflexivity.
    + eexists. split; reflexivity.
  - unfold exec, MainLayout.loadPosts, async, try_finally, try_catch, bind,
      hasValidSupabaseConfig, await_read.
    cbn. rewrite Hc. cbn.
    destruct (posts_select_joined (backend w)
                (MainLayout.sectionFilters section)) as [r|e]; cbn in *.
    + destruct (error r) as [pe|]; cbn in *; [|discriminate].
      eexists. split; reflexivity.
    + eexists. split; reflexivity.
Qed.



(** X11. In backend mode, when the promise of a handler's write resolves
    (with a result or with an error object, which is not inspected), the
    handler's own steps are the one write and nothing else: it logs
    nothing and leaves posts and flags alone, then starts [loadPosts()]
    without awaiting it, and its promise resolves normally. Taken together
    with that reload run to its end, the handler leaves exactly the state
    a full load gives from the state right after the write (the write
    recorded, the backend as the write left it). This holds for the like
    toggle and the comment insert of both components. *)
Theorem resolved_write_is_followed_by_reload :
  forall (moduleTime : Z) (currentUser : Profile.t) (section : jsstring)
         (postId content : string) (w : World B),
    supabase_configured w = true ->
    (rejected
       (fst (likeMutation "likes" (UI.posts (ui w)) postId
               (Profile.id currentUser) (backend w))) = false ->
     PostFeed.handleLike moduleTime currentUser section postId w
     = (Normal tt,
        exec (PostFeed.loadPosts moduleTime section)
          (set_backend
             (snd (likeMutation "likes" (UI.posts (ui w)) postId
                     (Profile.id currentUser) (backend w)))
             (add_request
                (likeRequest "likes" (UI.posts (ui w)) postId
                   (Profile.id currentUser)) w))))
    /\ (rejected
          (fst (comments_insert (backend w) "comments"
                  (Profile.id currentUser) postId content)) = false ->
        PostFeed.handleComment moduleTime currentUser section postId content
          w
        = (Normal tt,
           exec (PostFeed.loadPosts moduleTime section)
             (set_backend
                (snd (comments_insert (backend w) "comments"
                        (Profile.id currentUser) postId content))
                (add_request
                   (InsertComment "comments" (Profile.id currentUser)
                      postId content) w))))
    /\ (rejected
          (fst (likeMutation "post_likes" (UI.posts (ui w)) postId
                  (Profile.id currentUser) (backend w))) = false ->
        MainLayout.handleLike currentUser section postId w
        = (Normal tt,
           exec (MainLayout.loadPosts currentUser section)
             (set_backend
                (snd (likeMutation "post_likes" (UI.posts (ui w)) postId
                        (Profile.id currentUser) (backend w)))
                (add_request
                   (likeRequest "post_likes" (UI.posts (ui w)) postId
                      (Profile.id currentUser)) w))))
    /\ (rejected
          (fst (comments_insert (backend w) "post_comments"
                  (Profile.id currentUser) postId content)) = false ->
        MainLayout.handleComment currentUser section postId content w
        = (Normal tt,
           exec (MainLayout.loadPosts currentUser section)
             (set_backend
                (snd (comments_insert (backend w) "post_comments"
                        (Profile.id currentUser) postId content))
                (add_request
                   (InsertComment "post_comments" (Profile.id currentUser)
                      postId content) w)))).
Proof.
  intros t0 u section postId content w Hc.
  split; [|split; [|split]]; intros Hr.
  - unfold PostFeed.handleLike, async, try_catch, bind,
      hasValidSupabaseConfig, readPosts, await_write, detached,
      likeMutation, likeRequest in *.
    cbn -[PostFeed.loadPosts]. rewrite Hc. cbn -[PostFeed.loadPosts].
    destruct (existingLike (UI.posts (ui w)) postId (Profile.id u)) as [l|];
      cbn -[PostFeed.loadPosts] in *.
    + destruct (fst (likes_delete (backend w) "likes" (Like.id l)));
        [reflexivity|discriminate].
    + destruct (fst (likes_insert (backend w) "likes" (Profile.id u) postId));
        [reflexivity|discriminate].
  - unfold PostFeed.handleComment, async, try_catch, bind,
      hasValidSupabaseConfig, await_write, detached in *.
    cbn -[PostFeed.loadPosts]. rewrite Hc. cbn -[PostFeed.loadPosts].
    destruct (fst (comments_insert (backend w) "comments" (Profile.id u)
                     postId content)); [reflexivity|discriminate].
  - unfold MainLayout.handleLike, async, try_catch, bind,
      hasValidSupabaseConfig, readPosts, await_write, detached,
      likeMutation, likeRequest in *.
    cbn -[MainLayout.loadPosts]. rewrite Hc. cbn -[MainLayout.loadPosts].
    destruct (existingLike (UI.posts (ui w)) postId (Profile.id u)) as [l|];
      cbn -[MainLayout.loadPosts] in *.
    + destruct (fst (likes_delete (backend w) "post_likes" (Like.id l)));
        [reflexivity|discriminate].
    + destruct (fst (likes_insert (backend w) "post_likes" (Profile.id u)
                       postId)); [reflexivity|discriminate].
  - unfold MainLayout.handleComment, async, try_catch, bind,
      hasValidSupabaseConfig, await_write, detached in *.
    cbn -[MainLayout.loadPosts]. rewrite Hc. cbn -[MainLayout.loadPosts].
    destruct (fst (comments_insert (backend w) "post_comments" (Profile.id u)
                     postId content)); [reflexivity|discriminate].
Qed.

Lemma sendsOnly_ret {A : Type} (P : Request -> bool) (a : A) :
  sendsOnly P (ret a : Js B A).
Proof. intros w. exists []. cbn. rewrite app_nil_r. auto. Qed.

Lemma sendsOnly_console_log (P : Request -> bool) (l : string) :
  sendsOnly P (console_log l : Js B unit).
Proof. intros w. exists []. cbn. rewrite app_nil_r. auto. Qed.

Lemma sendsOnly_await_read {A : Type} (P : Request -> bool) (r : Request)
    (q : B -> Await A) :
  P r = true -> sendsOnly P (await_read r q).
Proof.
  intros Hp w. exists [r]. unfold exec, await_read.
  destruct (q (backend w)); cbn; rewrite Hp; auto.
Qed.

Lemma sendsOnly_bind {A C : Type} (P : Request -> bool) (c : Js B A)
    (k : A -> Js B C) :
  sendsOnly P c -> (forall a, sendsOnly P (k a)) -> sendsOnly P (bind c k).
Proof.
  intros Hc Hk w. unfold sendsOnly in Hc, Hk. unfold exec, bind.
  destruct (Hc w) as (s1 & E1 & F1). unfold exec in E1.
  destruct (c w) as [[a| |e] w1]; cbn in *;
    try solve [exists s1; auto].
  destruct (Hk a w1) as (s2 & E2 & F2). unfold exec in E2.
  exists (s1 ++ s2)%list. rewrite E2, E1, app_assoc, forallb_app, F1, F2.
  auto.
Qed.

Lemma sendsOnly_when (P : Request -> bool) (b : bool) (c : Js B unit) :
  sendsOnly P c -> sendsOnly P (when b c).
Proof. destruct b; cbn; [trivial|intros _; apply sendsOnly_ret]. Qed.

Lemma sendsOnly_for_of {A C : Type} (P : Request -> bool) (xs : list A)
    (body : A -> Js B C) :
  (forall x, sendsOnly P (body x)) -> sendsOnly P (for_of xs body).
Proof.
  intros Hb. induction xs as [|x xs IH]; cbn.
  - apply sendsOnly_ret.
  - apply sendsOnly_bind; [apply Hb|]. intros y.
    apply sendsOnly_bind; [apply IH|]. intros ys. apply sendsOnly_ret.
Qed.

Lemma anonymous_withProfile_sends_no_profile_request row :
  sendsOnly (fun r => negb (isProfileRequest r))
    (PostFeed.withProfile (Some "anonymous") row : Js B Post.t).
Proof.
  unfold PostFeed.withProfile, PostFeed.withCommentProfile. cbn.
  repeat first
    [ apply sendsOnly_console_log
    | apply sendsOnly_ret
    | apply sendsOnly_when
    | apply sendsOnly_await_read; reflexivity
    | apply sendsOnly_for_of; intros
    | apply sendsOnly_bind; [|intros]
    | match goal with
      | |- sendsOnly _ (match ?d with Some _ => _ | None => _ end) =>
          destruct d
      end ].
Qed.

(** X7. A PostFeed load of the anonymous partition sends no profile
    request at all, on any path, and keeps "no post and no comment carries
    a profile". *)
Theorem PostFeed_anonymous_never_asks_for_profiles :
  forall (moduleTime : Z) (w : World B),
    (exists sent,
        requests (exec (PostFeed.loadPosts moduleTime (Some "anonymous")) w)
        = (requests w ++ sent)%list
        /\ forallb (fun r => negb (isProfileRequest r)) sent = true)
    /\ (forallb authorHidden (UI.posts (ui w)) = true ->
        forallb authorHidden
          (UI.posts
             (ui (exec (PostFeed.loadPosts moduleTime (Some "anonymous")) w)))
        = true).
Proof.
  intros t0 w. split; [|apply PostFeed_anonymous_hides_authors].
  unfold exec, PostFeed.loadPosts, async, try_finally, try_catch, bind,
    hasValidSupabaseConfig, await_read.
  cbn -[for_of]. destruct (supabase_configured w); cbn -[for_of].
  - match goal with
    | |- context [posts_select (backend w) ?fs] =>
        destruct (posts_select (backend w) fs) as [r|e]
    end; cbn -[for_of]; [|eexists; split; reflexivity].
    destruct (error r) as [pe|]; cbn -[for_of];
      [eexists; split; reflexivity|].
    destruct (data r) as [[|row rows]|]; cbn -[for_of];
      try (eexists; split; reflexivity).
    match goal with
    | |- context [for_of ?xs ?f ?w0] =>
        destruct (@sendsOnly_for_of _ _ (fun r => negb (isProfileRequest r))
                    xs f anonymous_withProfile_sends_no_profile_request w0)
          as (sent & E & F);
        unfold exec in E; destruct (for_of xs f w0) as [[ps| |e] w1]
    end; cbn -[for_of] in *; rewrite E, <- app_assoc;
      eexists; (split; [reflexivity|]); cbn; exact F.
  - exists []. cbn. rewrite app_nil_r. auto.
Qed.

(** X9. MainLayout knows two partitions only: for every section other
    than "anonymous" (a community identifier, an empty or undefined
    section) its load is, step by step, the load of "public". *)
Theorem MainLayout_has_two_partitions :
  forall (profile : Profile.t) (section : jsstring) (w : World B),
    strict_eq section "anonymous" = false ->
    MainLayout.loadPosts profile section w
    = MainLayout.loadPosts profile (Some "public") w.
Proof.
  intros profile section w Ha.
  unfold MainLayout.loadPosts, MainLayout.sectionFilters,
    MainLayout.demoPosts.
  rewrite Ha. reflexivity.
Qed.

(** X13. Popups of MainLayout. The messages popup is rendered exactly
    when its flag is set, in every view, and both messages handlers make
    it appear. In the profile and full-screen communities views the
    create-post, create-community and marketplace flags change nothing on
    screen; back in the home view an opened create-post popup appears,
    marked anonymous exactly on the anonymous section. After a post was
    created the create-post popup is gone; after a community post was
    created the create-community popup is gone and nothing else happened.
    Each of the four handlers writes its own flag only: the other flags,
    the view and the section are as before. *)
Theorem MainLayout_popups_by_view :
  forall (profile : Profile.t) (source : string)
         (s : MainLayoutView.Shell) (w : World B) (u : UI.t),
    (In MainLayoutView.MessagesPopup
        (MainLayoutView.popups (MainLayoutView.render s u))
     <-> MainLayoutView.showMessages s = true)
    /\ (MainLayoutView.currentView s = MainLayoutView.profile
        \/ MainLayoutView.currentView s
           = MainLayoutView.fullscreen_communities ->
        forall b,
          MainLayoutView.render (MainLayoutView.setShowCreatePost b s) u
          = MainLayoutView.render s u
          /\ MainLayoutView.render
               (MainLayoutView.setShowCreateCommunity b s) u
             = MainLayoutView.render s u
          /\ MainLayoutView.render (MainLayoutView.setShowMarketplace b s) u
             = MainLayoutView.render s u)
    /\ (forall a,
           In (MainLayoutView.CreatePostPopup a)
              (MainLayoutView.popups
                 (MainLayoutView.render
                    (MainLayoutView.setCurrentView MainLayoutView.home
                       (MainLayoutView.setShowCreatePost true s)) u))
           <-> a = strict_eq (MainLayoutView.currentSection s) "anonymous")
    /\ In MainLayoutView.MessagesPopup
          (MainLayoutView.popups
             (MainLayoutView.render
                (fst (MainLayoutView.handleMessagesButtonClick source s w))
                u))
    /\ In MainLayoutView.MessagesPopup
          (MainLayoutView.popups
             (MainLayoutView.render
                (fst (MainLayoutView.handleShowMessages s w)) u))
    /\ (forall a,
           ~ In (MainLayoutView.CreatePostPopup a)
                (MainLayoutView.popups
                   (MainLayoutView.render
                      (fst (MainLayoutView.handlePostCreated profile s w))
                      u)))
    /\ ~ In MainLayoutView.CreateCommunityPostPopup
            (MainLayoutView.popups
               (MainLayoutView.render
                  (fst (MainLayoutView.handleCommunityPostCreated s w)) u))
    /\ snd (MainLayoutView.handleCommunityPostCreated s w) = w
    /\ (forall s',
           s' = fst (MainLayoutView.handlePostCreated profile s w)
           \/ s' = fst (MainLayoutView.handleCommunityPostCreated s w)
           \/ s' = fst (MainLayoutView.handleShowMessages s w)
           \/ s' = fst (MainLayoutView.handleMessagesButtonClick source s w)
           ->
           MainLayoutView.currentView s' = MainLayoutView.currentView s
           /\ MainLayoutView.currentSection s'
              = MainLayoutView.currentSection s
           /\ MainLayoutView.showMarketplace s'
              = MainLayoutView.showMarketplace s)
    /\ (let s' := fst (MainLayoutView.handlePostCreated profile s w) in
        MainLayoutView.showCreatePost s' = false
        /\ MainLayoutView.showCreateCommunity s'
           = MainLayoutView.showCreateCommunity s
        /\ MainLayoutView.showMessages s' = MainLayoutView.showMessages s)
    /\ (let s' := fst (MainLayoutView.handleCommunityPostCreated s w) in
        MainLayoutView.showCreateCommunity s' = false
        /\ MainLayoutView.showCreatePost s'
           = MainLayoutView.showCreatePost s
        /\ MainLayoutView.showMessages s' = MainLayoutView.showMessages s)
    /\ (forall s',
           s' = fst (MainLayoutView.handleShowMessages s w)
           \/ s' = fst (MainLayoutView.handleMessagesButtonClick source s w)
           ->
           MainLayoutView.showMessages s' = true
           /\ MainLayoutView.showCreatePost s'
              = MainLayoutView.showCreatePost s
           /\ MainLayoutView.showCreateCommunity s'
              = MainLayoutView.showCreateCommunity s).
Proof.
  intros profile source s w u.
  split; [|split; [|split; [|split; [|split; [|split; [|split;
    [|split; [|split; [|split; [|split]]]]]]]]]];
    [| | | | | | | reflexivity
     | intros s' [-> | [-> | [-> | ->]]]; repeat split
     | repeat split
     | repeat split
     | intros s' [-> | ->]; repeat split].
  - unfold MainLayoutView.render, MainLayoutView.shown.
    destruct (MainLayoutView.currentView s),
             (MainLayoutView.showCreatePost s),
             (MainLayoutView.showCreateCommunity s),
             (MainLayoutView.showMarketplace s),
             (MainLayoutView.showMessages s); cbn;
      intuition (try discriminate; try congruence).
  - intros Hv b. unfold MainLayoutView.render.
    destruct Hv as [Hv|Hv]; cbn; rewrite Hv; repeat split.
  - intros a. unfold MainLayoutView.render, MainLayoutView.shown. cbn.
    destruct (MainLayoutView.showCreateCommunity s),
             (MainLayoutView.showMarketplace s),
             (MainLayoutView.showMessages s); cbn;
      intuition (try discriminate; try congruence).
  - unfold MainLayoutView.render, MainLayoutView.shown. cbn.
    destruct (MainLayoutView.currentView s),
             (MainLayoutView.showCreatePost s),
             (MainLayoutView.showCreateCommunity s),
             (MainLayoutView.showMarketplace s); cbn; auto 10.
  - unfold MainLayoutView.render, MainLayoutView.shown. cbn.
    destruct (MainLayoutView.currentView s),
             (MainLayoutView.showCreatePost s),
             (MainLayoutView.showCreateCommunity s),
             (MainLayoutView.showMarketplace s); cbn; auto 10.
  - intros a. unfold MainLayoutView.render, MainLayoutView.shown. cbn.
    destruct (MainLayoutView.currentView s),
             (MainLayoutView.showCreateCommunity s),
             (MainLayoutView.showMarketplace s),
             (MainLayoutView.showMessages s); cbn;
      intuition (try discriminate; try congruence).
  - unfold MainLayoutView.render, MainLayoutView.shown. cbn.
    destruct (MainLayoutView.currentView s),
             (MainLayoutView.showCreatePost s),
             (MainLayoutView.showMarketplace s),
             (MainLayoutView.showMessages s); cbn;
      intuition (try discriminate; try congruence).
Qed.

End MoreLaws.

(* ===================================================================== *)
(** ** Partitions, the like toggle on the store, and the marketplace *)
(* ===================================================================== *)

(** X8. PostFeed's partitions do not overlap: a row selected for two
    sections is selected by the very same filters, so no post shows up in
    two different feeds. *)
Theorem partitions_are_disjoint :
  forall (s1 s2 : jsstring) (row : PostRow.t),
    matches_all (PostFeed.partitionFilters s1) row = true ->
    matches_all (PostFeed.partitionFilters s2) row = true ->
    PostFeed.partitionFilters s1 = PostFeed.partitionFilters s2.
Proof.
  intros s1 s2 row. unfold PostFeed.partitionFilters.
  destruct (PostFeed.isPublicSection s1), (PostFeed.isPublicSection s2),
           (strict_eq s1 "anonymous"), (strict_eq s2 "anonymous");
    cbn; unfold strict_eq, is_none;
    destruct (PostRow.visibility row) as [v|],
             (PostRow.community_id row) as [c|]; cbn;
    rewrite ?andb_true_r, ?andb_false_r; try discriminate; try reflexivity;
    rewrite ?String.eqb_eq; intros; subst; try discriminate; try congruence.
Qed.

Lemma toggled_once (s : MemStore.t) (table userId postId : string) :
  MemStore.outage s = None ->
  (List.length (filter (pairRow table userId postId) (MemStore.likes s))
   <= 1)%nat ->
  liked (toggled s table userId postId) table userId postId
  = negb (liked s table userId postId).
Proof.
  intros Hh Hone. rewrite !liked_existsb.
  unfold toggled. rewrite find_like_of_pair.
  destruct (find (pairRow table userId postId) (MemStore.likes s))
    as [l0|] eqn:Efind; cbn [option_map].
  - rewrite (find_some_existsb _ _ Efind).
    cbn. unfold MemStore.write. rewrite Hh. cbn.
    destruct (existsb _ _) eqn:E; [|reflexivity]. exfalso.
    apply existsb_exists in E. destruct E as (x & Hx & Hp).
    apply filter_In in Hx. destruct Hx as [Hin Hkeep].
    assert (Hx0 : In x (filter (pairRow table userId postId)
                          (MemStore.likes s)))
      by (apply filter_In; auto).
    apply find_some in Efind. destruct Efind as [Hin0 Hp0].
    assert (Hl0 : In l0 (filter (pairRow table userId postId)
                           (MemStore.likes s)))
      by (apply filter_In; auto).
    destruct (filter (pairRow table userId postId) (MemStore.likes s))
      as [|y [|z rest]]; cbn in Hone; [contradiction| |lia].
    destruct Hx0 as [<-|[]]. destruct Hl0 as [<-|[]].
    unfold pairRow in Hp. apply andb_prop in Hp. destruct Hp as [Hp _].
    apply andb_prop in Hp. destruct Hp as [Ht _].
    rewrite Ht, String.eqb_refl in Hkeep. discriminate.
  - rewrite (find_none_existsb _ _ Efind).
    cbn. unfold MemStore.write. rewrite Hh. cbn.
    rewrite existsb_app. cbn. unfold pairRow at 2. cbn.
    rewrite !String.eqb_refl. cbn. apply orb_true_r.
Qed.

Lemma isLikedBy_inSync (s : MemStore.t) (userId : string)
    (rows : list PostRow.t) (posts : list Post.t) :
  Forall2 (fun row p =>
             Post.id p = PostRow.id row
             /\ Post.likes p
                = Some (MemStore.likes_of s "likes" (PostRow.id row)))
          rows posts ->
  forall p, In p posts ->
    isLikedBy userId p = liked s "likes" userId (Post.id p).
Proof.
  induction 1 as [|row q rows posts [Hid Hlikes] _ IH]; cbn; [tauto|].
  intros p [<-|Hin]; [|apply IH; exact Hin].
  unfold isLikedBy. rewrite Hlikes, Hid.
  unfold MemStore.likes_of, liked, pairRow.
  induction (MemStore.likes s) as [|l ls IHl]; cbn; [reflexivity|].
  destruct ((MemStore.like_table l =? "likes")%string
            && (MemStore.like_post_id l =? PostRow.id row)%string); cbn.
  - rewrite IHl. reflexivity.
  - exact IHl.
Qed.

(** X12. The like toggle of PostFeed against the in-memory backend. On a
    healthy store holding at most one like row for the pair, for a post
    shown in the current partition, one toggle (with the reload it starts)
    flips whether the store holds the user's like, and the feed shows the
    like exactly as the store holds it, before and after. *)
Theorem backend_like_flips_and_shows :
  forall (moduleTime : Z) (currentUser : Profile.t) (section : jsstring)
         (postId : string) (w : World MemStore.t),
    supabase_configured w = true ->
    MemStore.outage (backend w) = None ->
    In postId
       (map PostRow.id
            (MemStore.select_posts (backend w)
               (PostFeed.partitionFilters section))) ->
    (List.length
       (filter (pairRow "likes" (Profile.id currentUser) postId)
               (MemStore.likes (backend w))) <= 1)%nat ->
    liked
      (backend
         (exec (PostFeed.handleLike moduleTime currentUser section postId)
            (exec (PostFeed.loadPosts moduleTime section) w)))
      "likes" (Profile.id currentUser) postId
    = negb (liked (backend w) "likes" (Profile.id currentUser) postId)
    /\ (forall p,
           In p (UI.posts (ui (exec (PostFeed.loadPosts moduleTime section)
                                 w))) ->
           Post.id p = postId ->
           isLikedBy (Profile.id currentUser) p
           = liked (backend w) "likes" (Profile.id currentUser) postId)
    /\ (forall p,
           In p (UI.posts
                   (ui (exec (PostFeed.handleLike moduleTime currentUser
                                section postId)
                          (exec (PostFeed.loadPosts moduleTime section)
                             w)))) ->
           Post.id p = postId ->
           isLikedBy (Profile.id currentUser) p
           = negb (liked (backend w) "likes" (Profile.id currentUser)
                     postId)).
Proof.
  intros t0 u section postId w Hc Hh Hin Hone.
  destruct (load_inSync t0 section w Hc Hh) as [Eb0 Hs0].
  set (w0 := exec (PostFeed.loadPosts t0 section) w) in *.
  assert (Hin0 : In postId
                   (map PostRow.id
                      (MemStore.select_posts (backend w0)
                         (PostFeed.partitionFilters section))))
    by (rewrite Eb0; exact Hin).
  destruct (handleLike_inSync t0 u postId Hs0 Hin0) as [Eb1 Hs1].
  set (w1 := exec (PostFeed.handleLike t0 u section postId) w0) in *.
  assert (Hflip : liked (backend w1) "likes" (Profile.id u) postId
                  = negb (liked (backend w) "likes" (Profile.id u) postId)).
  { rewrite Eb1, Eb0. apply toggled_once; assumption. }
  split; [exact Hflip|]. split.
  - intros p Hp <-. destruct Hs0 as (_ & _ & Hf).
    rewrite (@isLikedBy_inSync _ (Profile.id u) _ _ Hf p Hp), Eb0.
    reflexivity.
  - intros p Hp <-. destruct Hs1 as (_ & _ & Hf).
    rewrite (@isLikedBy_inSync _ (Profile.id u) _ _ Hf p Hp). exact Hflip.
Qed.

Lemma startsWith_spec (s t : string) :
  startsWith s t = true <-> exists b, s = (t ++ b)%string.
Proof.
  revert s. induction t as [|c t IH]; intros s; cbn.
  - split; [intros _; exists s; reflexivity|reflexivity].
  - destruct s as [|d s]; cbn.
    + split; [discriminate|intros [b E]; discriminate].
    + rewrite andb_true_iff, Ascii.eqb_eq, IH. split.
      * intros [-> [b ->]]. exists b. reflexivity.
      * intros [b E]. injection E as -> ->. split; [reflexivity|].
        exists b. reflexivity.
Qed.

Lemma includes_spec (s t : string) :
  includes s t = true <-> exists a b, s = (a ++ t ++ b)%string.
Proof.
  induction s as [|d s IH]; cbn.
  - rewrite orb_false_r, startsWith_spec. split.
    + intros [b E]. exists "", b. exact E.
    + intros (a & b & E). destruct a as [|x a]; cbn in E; [|discriminate].
      exists b. exact E.
  - rewrite orb_true_iff, IH.
    change ((match t with
             | "" => true
             | String c t' => Ascii.eqb d c && startsWith s t'
             end) = true) with (startsWith (String d s) t = true).
    rewrite startsWith_spec. split.
    + intros [[b E]|(a & b & E)].
      * exists "", b. exact E.
      * exists (String d a), b. cbn. rewrite E. reflexivity.
    + intros (a & b & E). destruct a as [|x a]; cbn in E.
      * left. exists b. exact E.
      * right. injection E as _ E. exists a, b. exact E.
Qed.

Lemma includes_empty (s : string) : includes s "" = true.
Proof. apply includes_spec. exists "", s. reflexivity. Qed.

Section Market.
Variable toLowerCase : string -> string.

(** X14. What the marketplace lists: an item is shown exactly when it is
    among the loaded items, the lower-cased search term occurs in its
    lower-cased title or description, and the selected category is "all"
    or the item's own. *)
Theorem filteredItems_spec :
  forall (st : Marketplace.State) (item : Marketplace.Item),
    In item (Marketplace.filteredItems toLowerCase st)
    <-> In item (Marketplace.items st)
        /\ ((exists a b,
               toLowerCase (Marketplace.title item)
               = (a ++ toLowerCase (Marketplace.searchTerm st) ++ b)%string)
            \/ (exists a b,
                  toLowerCase (Marketplace.description item)
                  = (a ++ toLowerCase (Marketplace.searchTerm st) ++ b)
                      %string))
        /\ (Marketplace.selectedCategory st = "all"
            \/ Marketplace.category item = Marketplace.selectedCategory st).
Proof.
  intros st item. unfold Marketplace.filteredItems, Marketplace.matchesFilter.
  rewrite filter_In, andb_true_iff, !orb_true_iff, !includes_spec,
    !String.eqb_eq.
  tauto.
Qed.

(** X15. With an empty search term and the category "all" every loaded
    item is listed, in load order. *)
Theorem no_filter_shows_every_item :
  forall (st : Marketplace.State),
    toLowerCase "" = "" ->
    Marketplace.searchTerm st = "" ->
    Marketplace.selectedCategory st = "all" ->
    Marketplace.filteredItems toLowerCase st = Marketplace.items st.
Proof.
  intros st Hl Hs Hc. unfold Marketplace.filteredItems.
  apply forallb_filter_id. apply forallb_forall. intros item _.
  unfold Marketplace.matchesFilter. rewrite Hs, Hc, Hl, includes_empty.
  reflexivity.
Qed.

(** X16. The two prompts of the empty marketplace agree: the "List Your
    First Item" button is shown exactly with the hint "Be the first to list
    an item for sale!", otherwise the hint asks to adjust the filters; and
    the button is shown only when there is really no item at all. *)
Theorem empty_state_prompts_agree :
  forall (st : Marketplace.State) (hint : string) (button : bool)
         (modal : bool) (detail : option Marketplace.Item),
    Marketplace.render toLowerCase st
    = Marketplace.Market (Marketplace.NoItemsFound hint button) modal detail ->
    (button = true <-> hint = "Be the first to list an item for sale!")
    /\ (button = false <-> hint = "Try adjusting your search or filters")
    /\ (toLowerCase "" = "" -> button = true -> Marketplace.items st = []).
Proof.
  intros st hint button modal detail. unfold Marketplace.render.
  destruct (Marketplace.loading st); [discriminate|].
  destruct (List.length (Marketplace.filteredItems toLowerCase st) =? 0)%nat
    eqn:Elen; [|discriminate].
  intros E. injection E as <- <- _ _.
  destruct (Marketplace.searchTerm st =? "")%string eqn:Es,
           (Marketplace.selectedCategory st =? "all")%string eqn:Ec; cbn;
    (split; [split; intros; congruence || discriminate
            |split; [split; intros; congruence || discriminate|]]);
    intros Hl Hb; try discriminate.
  apply String.eqb_eq in Es, Ec. apply Nat.eqb_eq in Elen.
  rewrite (no_filter_shows_every_item st Hl Es Ec) in Elen.
  destruct (Marketplace.items st); [reflexivity|discriminate].
Qed.

(** X17. A newly created item is put in front of the loaded items and
    the create modal is closed; the listing then shows the new item first
    if it passes the current filter and is otherwise unchanged. *)
Theorem created_item_is_listed_first :
  forall (x : Marketplace.Item) (st : Marketplace.State),
    Marketplace.items (Marketplace.onItemCreated x st)
    = x :: Marketplace.items st
    /\ Marketplace.showCreateModal (Marketplace.onItemCreated x st) = false
    /\ Marketplace.filteredItems toLowerCase (Marketplace.onItemCreated x st)
       = ((if Marketplace.matchesFilter toLowerCase st x then [x] else [])
            ++ Marketplace.filteredItems toLowerCase st)%list.
Proof.
  intros x st. repeat split.
  unfold Marketplace.filteredItems. cbn.
  change (Marketplace.matchesFilter toLowerCase
            (Marketplace.onItemCreated x st) x)
    with (Marketplace.matchesFilter toLowerCase st x).
  destruct (Marketplace.matchesFilter toLowerCase st x); reflexivity.
Qed.

(** X18. [loadItems] has no error path: when the fetch resolves the items
    are replaced and the skeleton is gone; when it rejects the rejection
    escapes the handler, the items stay as they were and the page keeps
    rendering the skeleton. *)
Theorem loadItems_has_no_error_path :
  forall (st : Marketplace.State) (fetched : Await (list Marketplace.Item)),
    (forall data,
        fetched = Resolved data ->
        fst (Marketplace.loadItems fetched st) = Normal tt
        /\ Marketplace.items (snd (Marketplace.loadItems fetched st)) = data
        /\ Marketplace.render toLowerCase
             (snd (Marketplace.loadItems fetched st))
           <> Marketplace.Skeleton)
    /\ (forall e,
           fetched = Rejected e ->
           fst (Marketplace.loadItems fetched st) = Throw e
           /\ Marketplace.items (snd (Marketplace.loadItems fetched st))
              = Marketplace.items st
           /\ Marketplace.render toLowerCase
                (snd (Marketplace.loadItems fetched st))
              = Marketplace.Skeleton).
Proof.
  intros st fetched. split.
  - intros data ->. cbn. repeat split. unfold Marketplace.render. cbn.
    discriminate.
  - intros e ->. cbn. repeat split.
Qed.

End Market.

(** X19. The seller name on a listing is never empty: it is the profile's
    display name when that is a non-empty string; else (display name
    absent or empty) the full name when that is a non-empty string; else
    "Anonymous", both when the profile has neither name and when the item
    has no profile at all. *)
Theorem sellerName_never_empty :
  forall (item : Marketplace.Item),
    (exists name, Marketplace.sellerName item = Some name /\ name <> "")
    /\ truthy (Marketplace.sellerName item) = true
    /\ (forall p,
           Marketplace.profiles item = Some p ->
           truthy (Profile.display_name p) = true ->
           Marketplace.sellerName item = Profile.display_name p)
    /\ (forall p name,
           Marketplace.profiles item = Some p ->
           Profile.display_name p = Some name ->
           name <> "" ->
           Marketplace.sellerName item = Some name)
    /\ (forall p name,
           Marketplace.profiles item = Some p ->
           absentOrEmpty (Profile.display_name p) ->
           Profile.full_name p = Some name ->
           name <> "" ->
           Marketplace.sellerName item = Some name)
    /\ (forall p,
           Marketplace.profiles item = Some p ->
           absentOrEmpty (Profile.display_name p) ->
           absentOrEmpty (Profile.full_name p) ->
           Marketplace.sellerName item = Some "Anonymous")
    /\ (Marketplace.profiles item = None ->
        Marketplace.sellerName item = Some "Anonymous").
Proof.
  intros item.
  assert (Ht : truthy (Marketplace.sellerName item) = true).
  { unfold Marketplace.sellerName, js_or.
    destruct (Marketplace.profiles item) as [p|]; cbn; [|reflexivity].
    destruct (truthy (Profile.display_name p)) eqn:Ed; [exact Ed|].
    destruct (truthy (Profile.full_name p)) eqn:Ef; [exact Ef|reflexivity]. }
  split; [|split; [exact Ht|]].
  { destruct (Marketplace.sellerName item) as [name|]; [|discriminate].
    exists name. split; [reflexivity|]. intros ->. discriminate. }
  unfold Marketplace.sellerName, js_or. repeat split.
  - intros p -> Hd. rewrite Hd. reflexivity.
  - intros p name -> Ed Hn.
    rewrite (proj1 (truthy_nonempty _) name Ed Hn). exact Ed.
  - intros p name -> Hd Ef Hn.
    rewrite (proj2 (truthy_nonempty _) Hd).
    rewrite (proj1 (truthy_nonempty _) name Ef Hn). exact Ef.
  - intros p -> Hd Hf.
    rewrite (proj2 (truthy_nonempty _) Hd).
    rewrite (proj2 (truthy_nonempty _) Hf). reflexivity.
  - intros ->. reflexivity.
Qed.

(* ===================================================================== *)
(** ** Further concrete runs *)
(* ===================================================================== *)

(** A store without outage answers every sub-fetch. *)
Lemma healthy_subfetchesResolve (s : MemStore.t) :
  MemStore.outage s = None -> subfetchesResolve s.
Proof.
  intros Hh. repeat split; intros id; cbn;
    unfold MemStore.answer_single, MemStore.answer; rewrite Hh;
    try destruct (MemStore.find_profile s id); reflexivity.
Qed.

(** The public partition of the sample store. *)
Lemma PostFeed_assembly_keeps_rows_witness :
  UI.error (ui (exec (PostFeed.loadPosts 0 (Some "public")) Sample.online))
  = None
  /\ UI.loading
       (ui (exec (PostFeed.loadPosts 0 (Some "public")) Sample.online))
     = false
  /\ Forall2 rowKept
       (MemStore.select_posts Sample.store
          (PostFeed.partitionFilters (Some "public")))
       (UI.posts
          (ui (exec (PostFeed.loadPosts 0 (Some "public")) Sample.online))).
Proof.
  apply (@PostFeed_assembly_keeps_rows MemStore.t MemStore.supabase 0
           (Some "public") Sample.online
           {| data := Some (MemStore.select_posts Sample.store
                              (PostFeed.partitionFilters (Some "public")));
              error := None |});
    try reflexivity.
  apply healthy_subfetchesResolve. reflexivity.
Defined.

(** The same partition when alice's profile row is missing: her post is
    assembled without a profile. *)
Lemma PostFeed_enrichment_tolerates_errors_witness :
  Forall2 (enriched (Some "public") Sample2.orphaned)
    (MemStore.select_posts Sample2.orphaned
       (PostFeed.partitionFilters (Some "public")))
    (UI.posts
       (ui (exec (PostFeed.loadPosts 0 (Some "public"))
              (MemStore.mounted Sample2.orphaned true 0))))
  /\ map Post.profiles
       (UI.posts
          (ui (exec (PostFeed.loadPosts 0 (Some "public"))
                 (MemStore.mounted Sample2.orphaned true 0))))
     = [None; Some Sample.bob].
Proof.
  split; [|vm_compute; reflexivity].
  apply (@PostFeed_enrichment_tolerates_errors MemStore.t MemStore.supabase
           0 (Some "public") (MemStore.mounted Sample2.orphaned true 0)
           {| data := Some (MemStore.select_posts Sample2.orphaned
                              (PostFeed.partitionFilters (Some "public")));
              error := None |});
    try reflexivity.
  apply healthy_subfetchesResolve. reflexivity.
Defined.

(** The likes fetch rejects while posts of an earlier load are shown. *)
Lemma PostFeed_rejected_subfetch_aborts_witness :
  UI.posts (ui (exec (PostFeed.loadPosts 0 (Some "public")) Sample2.likesDown))
  = UI.posts (ui Sample2.likesDown)
  /\ UI.loading
       (ui (exec (PostFeed.loadPosts 0 (Some "public")) Sample2.likesDown))
     = false
  /\ exists e,
       UI.error
         (ui (exec (PostFeed.loadPosts 0 (Some "public")) Sample2.likesDown))
       = Some ("Failed to load posts: " ++ thrown_message e)%string.
Proof.
  apply (@PostFeed_rejected_subfetch_aborts LikesDown.t LikesDown.supabase 0
           (Some "public") Sample2.likesDown
           {| data := Some (MemStore.select_posts Sample.store
                              (PostFeed.partitionFilters (Some "public")));
              error := None |}
           (PostRow.mk "p3" "u1" "good morning" None None (Some "public")
              None (Some false) 30 30));
    try reflexivity.
  - vm_compute. left. reflexivity.
  - right. left. reflexivity.
Defined.

(** A community row stored without a visibility is shown with the
    community's identifier as its visibility. *)
Lemma PostFeed_posts_always_have_visibility_witness :
  Forall2 (visibilityGiven (Some "chess-club"))
    (MemStore.select_posts Sample2.unlabelled
       (PostFeed.partitionFilters (Some "chess-club")))
    (UI.posts
       (ui (exec (PostFeed.loadPosts 0 (Some "chess-club"))
              (MemStore.mounted Sample2.unlabelled true 0))))
  /\ map Post.visibility
       (UI.posts
          (ui (exec (PostFeed.loadPosts 0 (Some "chess-club"))
                 (MemStore.mounted Sample2.unlabelled true 0))))
     = [Some "chess-club"; Some "public"].
Proof.
  split; [|vm_compute; reflexivity].
  destruct (@PostFeed_posts_always_have_visibility MemStore.t
              MemStore.supabase 0 (Some "chess-club")
              (MemStore.mounted Sample2.unlabelled true 0)) as (_ & _ & Hv).
  apply (Hv {| data := Some (MemStore.select_posts Sample2.unlabelled
                               (PostFeed.partitionFilters
                                  (Some "chess-club")));
               error := None |}); try reflexivity.
  apply healthy_subfetchesResolve. reflexivity.
Defined.

(** A store without rows. *)
Lemma empty_partition_shows_empty_state_witness :
  ui (exec (PostFeed.loadPosts 0 (Some "public"))
        (MemStore.mounted Sample2.empty true 0))
  = UI.mk [] false None
  /\ MainLayoutView.renderFeed
       (ui (exec (MainLayout.loadPosts Sample.alice (Some "public"))
              (MemStore.mounted Sample2.empty true 0)))
     = MainLayoutView.NoPostsYet.
Proof.
  destruct (@empty_partition_shows_empty_state MemStore.t MemStore.supabase
              0 Sample.alice (Some "public")
              (MemStore.mounted Sample2.empty true 0) eq_refl) as [HF HM].
  split.
  - apply (HF {| data := Some []; error := None |}); reflexivity.
  - apply (HM {| data := Some []; error := None |}); reflexivity.
Defined.

(** A failing fetch while posts of an earlier load are held. *)
Lemma failed_fetch_shows_error_not_posts_witness :
  (exists msg,
      PostFeedView.render (Some "public")
        (ui (exec (PostFeed.loadPosts 0 (Some "public"))
               (Sample.stale Sample.failing)))
      = PostFeedView.ErrorLoadingPosts msg
      /\ UI.error
           (ui (exec (PostFeed.loadPosts 0 (Some "public"))
                  (Sample.stale Sample.failing))) = Some msg)
  /\ UI.posts
       (ui (exec (PostFeed.loadPosts 0 (Some "public"))
              (Sample.stale Sample.failing))) <> [].
Proof.
  destruct (@failed_fetch_shows_error_not_posts MemStore.t MemStore.supabase
              0 Sample.alice (Some "public") (Sample.stale Sample.failing)
              eq_refl) as [HF _].
  split; [apply HF; reflexivity|].
  vm_compute. discriminate.
Defined.

(** The anonymous partition of the sample store. *)
Lemma PostFeed_anonymous_never_asks_for_profiles_witness :
  forallb authorHidden
    (UI.posts
       (ui (exec (PostFeed.loadPosts 0 (Some "anonymous")) Sample.online)))
  = true
  /\ requests (exec (PostFeed.loadPosts 0 (Some "anonymous")) Sample.online)
     = [SelectPosts (PostFeed.partitionFilters (Some "anonymous"));
        SelectLikes "p1"; SelectComments "p1"].
Proof.
  destruct (@PostFeed_anonymous_never_asks_for_profiles MemStore.t
              MemStore.supabase 0 Sample.online) as [_ Hh].
  split; [apply Hh; reflexivity|vm_compute; reflexivity].
Defined.

(** A public row is selected for "public" and for the undefined section,
    which resolve to the same filters. *)
Lemma partitions_are_disjoint_witness :
  PostFeed.partitionFilters (Some "public") = PostFeed.partitionFilters None.
Proof.
  apply (@partitions_are_disjoint (Some "public") None
           (PostRow.mk "p2" "u2" "hello" None None (Some "public") None
              (Some false) 20 20)); reflexivity.
Defined.

(** A community section in MainLayout. *)
Lemma MainLayout_has_two_partitions_witness :
  MainLayout.loadPosts Sample.alice (Some "chess-club") Sample.online
  = MainLayout.loadPosts Sample.alice (Some "public") Sample.online.
Proof.
  apply (@MainLayout_has_two_partitions MemStore.t MemStore.supabase
           Sample.alice (Some "chess-club") Sample.online).
  reflexivity.
Defined.


(** A comment on the sample store, with the reload it starts. *)
Lemma resolved_write_is_followed_by_reload_witness :
  PostFeed.handleComment 0 Sample.alice (Some "public") "p3" "nice"
    Sample.online
  = (Normal tt,
     exec (PostFeed.loadPosts 0 (Some "public"))
       (set_backend
          (snd (comments_insert (backend Sample.online) "comments"
                  (Profile.id Sample.alice) "p3" "nice"))
          (add_request
             (InsertComment "comments" (Profile.id Sample.alice) "p3" "nice")
             Sample.online))).
Proof.
  destruct (@resolved_write_is_followed_by_reload MemStore.t
              MemStore.supabase 0 Sample.alice (Some "public") "p3" "nice"
              Sample.online eq_refl) as (_ & HC & _).
  apply HC. reflexivity.
Defined.

(** Alice likes p3 on the sample store. *)
Lemma backend_like_flips_and_shows_witness :
  liked
    (backend
       (exec (PostFeed.handleLike 0 Sample.alice (Some "public") "p3")
          (exec (PostFeed.loadPosts 0 (Some "public")) Sample.online)))
    "likes" "u1" "p3"
  = negb (liked Sample.store "likes" "u1" "p3").
Proof.
  refine (proj1 (@backend_like_flips_and_shows 0 Sample.alice (Some "public")
                   "p3" Sample.online eq_refl eq_refl _ _)).
  - vm_compute. left. reflexivity.
  - vm_compute. lia.
Defined.

(** The create-post flag in the profile view. *)
Lemma MainLayout_popups_by_view_witness :
  MainLayoutView.render
    (MainLayoutView.setShowCreatePost true Sample2.onProfile) UI.initial
  = MainLayoutView.render Sample2.onProfile UI.initial.
Proof.
  destruct (@MainLayout_popups_by_view MemStore.t MemStore.supabase
              Sample.alice "main-navigation" Sample2.onProfile Sample.online
              UI.initial) as (_ & Hv & _).
  apply (Hv (or_introl eq_refl) true).
Defined.

(** The loaded market with nothing typed or selected. *)
Lemma no_filter_shows_every_item_witness :
  Marketplace.filteredItems Sample2.lower Sample2.loaded
  = [Sample2.bike; Sample2.novel].
Proof.
  apply (@no_filter_shows_every_item Sample2.lower Sample2.loaded);
    reflexivity.
Defined.

(** The market after a load that brought nothing. *)
Lemma empty_state_prompts_agree_witness :
  (true = true <-> "Be the first to list an item for sale!"
                   = "Be the first to list an item for sale!")
  /\ (true = false <-> "Be the first to list an item for sale!"
                       = "Try adjusting your search or filters")
  /\ (Sample2.lower "" = "" -> true = true ->
      Marketplace.items Sample2.bare = []).
Proof.
  apply (@empty_state_prompts_agree Sample2.lower Sample2.bare
           "Be the first to list an item for sale!" true false None).
  reflexivity.
Defined.

(** A fetch that rejects on first mount. *)
Lemma loadItems_has_no_error_path_witness :
  fst (Marketplace.loadItems (Rejected (ErrorObject "Failed to fetch"))
         Marketplace.initial) = Throw (ErrorObject "Failed to fetch")
  /\ Marketplace.items
       (snd (Marketplace.loadItems (Rejected (ErrorObject "Failed to fetch"))
               Marketplace.initial)) = []
  /\ Marketplace.render Sample2.lower
       (snd (Marketplace.loadItems (Rejected (ErrorObject "Failed to fetch"))
               Marketplace.initial))
     = Marketplace.Skeleton.
Proof.
  destruct (@loadItems_has_no_error_path Sample2.lower Marketplace.initial
              (Rejected (ErrorObject "Failed to fetch"))) as [_ Hr].
  apply (Hr (ErrorObject "Failed to fetch")). reflexivity.
Defined.

(** A listing without profile, one whose seller has a display name, and
    one whose seller has only a full name. *)
Lemma sellerName_never_empty_witness :
  Marketplace.sellerName Sample2.novel = Some "Anonymous"
  /\ Marketplace.sellerName Sample2.bike = Some "Alice"
  /\ Marketplace.sellerName Sample2.lamp = Some "Carol C."
  /\ Marketplace.sellerName Sample2.desk = Some "Anonymous".
Proof.
  split; [|split; [|split]].
  - destruct (sellerName_never_empty Sample2.novel)
      as (_ & _ & _ & _ & _ & _ & Hn).
    apply Hn. reflexivity.
  - destruct (sellerName_never_empty Sample2.bike)
      as (_ & _ & _ & Hd & _).
    apply (Hd Sample.alice); [reflexivity|reflexivity|discriminate].
  - destruct (sellerName_never_empty Sample2.lamp)
      as (_ & _ & _ & _ & Hf & _).
    apply (Hf Sample2.carol); [reflexivity|right; reflexivity|reflexivity
                              |discriminate].
  - destruct (sellerName_never_empty Sample2.desk)
      as (_ & _ & _ & _ & _ & Hb & _).
    apply (Hb Sample2.nameless); [reflexivity|left; reflexivity
                                 |right; reflexivity].
Defined.
